(** * Gopher: the workflow supervisor and its dashboard

    A shallow embedding of [fix-all-interactive.tsx]: the text helpers
    ([sanitizeLogLine], [buildWorkflowTodo]), the status derivation
    ([getWorkflowProgress], [getProjectStatus]), the dashboard layout and key
    handler ([Dashboard]), and the supervisor ([runWorkflowSession],
    [runAllWorkflows]) over an explicit model of the file system, of the
    spawned tool and of the console. *)

From Stdlib Require Import ZArith Ascii String List Bool Lia.
From stdpp Require Import base option list gmap strings.
Import ListNotations.

Set Warnings "-register-all,-clear-no-such-hyp".

Local Open Scope string_scope.
Local Open Scope Z_scope.

(** ** JavaScript strings

    A string is a sequence of code units; the model keeps the code units
    below 256, one [ascii] each. *)
Module Js.

Definition code (c : ascii) : N := N_of_ascii c.

Definition between (lo hi : N) (c : ascii) : bool :=
  ((lo <=? code c) && (code c <=? hi))%N.

Definition is_digit : ascii -> bool := between 48 57.
Definition is_upper : ascii -> bool := between 65 90.
Definition is_lower : ascii -> bool := between 97 122.
Definition is_letter (c : ascii) : bool := is_upper c || is_lower c.

Definition ESC : ascii := "027"%char.
Definition CR : ascii := "013"%char.
Definition LF : ascii := "010"%char.
Definition TAB : ascii := "009"%char.
Definition DQ : ascii := "034"%char.

(** WhiteSpace and LineTerminator of ECMAScript, below 256:
    TAB, LF, VT, FF, CR, SP and NBSP. *)
Definition is_space (c : ascii) : bool :=
  between 9 13 c || (code c =? 32)%N || (code c =? 160)%N.

Fixpoint trimStart (s : string) : string :=
  match s with
  | EmptyString => EmptyString
  | String c s' => if is_space c then trimStart s' else s
  end.

Fixpoint trimEnd (s : string) : string :=
  match s with
  | EmptyString => EmptyString
  | String c s' =>
      match trimEnd s' with
      | EmptyString => if is_space c then EmptyString else String c EmptyString
      | r => String c r
      end
  end.

(** [String.prototype.trim] *)
Definition trim (s : string) : string := trimEnd (trimStart s).

(** [String.prototype.toLowerCase], on code units below 256: A-Z and the
    Latin-1 capitals (C0-DE but D7) move up by 32. *)
Definition lower_char (c : ascii) : ascii :=
  if is_upper c || (between 192 222 c && negb (code c =? 215)%N)
  then ascii_of_N (code c + 32) else c.

Fixpoint toLowerCase (s : string) : string :=
  match s with
  | EmptyString => EmptyString
  | String c s' => String (lower_char c) (toLowerCase s')
  end.

Fixpoint startsWith (p s : string) : bool :=
  match p, s with
  | EmptyString, _ => true
  | String a p', String b s' => if Ascii.eqb a b then startsWith p' s' else false
  | String _ _, EmptyString => false
  end.

(** [String.prototype.includes] *)
Fixpoint includes (s sub : string) : bool :=
  startsWith sub s ||
  match s with
  | EmptyString => false
  | String _ s' => includes s' sub
  end.

(** [Array.prototype.join] *)
Fixpoint join (sep : string) (l : list string) : string :=
  match l with
  | [] => ""
  | [x] => x
  | x :: rest => x ++ sep ++ join sep rest
  end.

(** [String.prototype.repeat] *)
Fixpoint repeat (s : string) (n : nat) : string :=
  match n with
  | O => ""
  | S k => s ++ repeat s k
  end.

(** [s.replace(/[class]/g, "")]: every code unit of the class is dropped. *)
Fixpoint remove_class (cls : ascii -> bool) (s : string) : string :=
  match s with
  | EmptyString => EmptyString
  | String c s' => if cls c then remove_class cls s' else String c (remove_class cls s')
  end.

(** [s.replace(re, "")] for a global regular expression given by its
    matcher: [m s] is the length of the match of [re] anchored at the start of
    [s], if there is one. The scan goes left to right; after a match it
    resumes behind it ([skip] counts the code units still to drop), after a
    failure it keeps the code unit and moves on by one. *)
Fixpoint remove_matches_from (m : string -> option nat) (skip : nat) (s : string) : string :=
  match s with
  | EmptyString => EmptyString
  | String c s' =>
      match skip with
      | S k => remove_matches_from m k s'
      | O =>
          match m s with
          | Some (S k) => remove_matches_from m k s'
          | _ => String c (remove_matches_from m O s')
          end
      end
  end.

Definition remove_matches (m : string -> option nat) (s : string) : string :=
  remove_matches_from m O s.

Fixpoint chars (s : string) : list ascii :=
  match s with
  | EmptyString => []
  | String c s' => c :: chars s'
  end.

End Js.

(** ** sanitizeLogLine *)

(** The class [[0-9;]]. *)
Definition is_param (c : ascii) : bool := Js.is_digit c || Ascii.eqb c ";".

(** The longest prefix of [s] within [[0-9;]], as a length. *)
Fixpoint csi_params (s : string) : nat :=
  match s with
  | String c s' => if is_param c then S (csi_params s') else O
  | EmptyString => O
  end.

Fixpoint drop_str (n : nat) (s : string) : string :=
  match n, s with
  | O, _ => s
  | S k, String _ s' => drop_str k s'
  | S _, EmptyString => EmptyString
  end.

(** The matcher of [/\x1b\[[0-9;]*[a-zA-Z]/]: the parameter run is greedy and
    disjoint from the final letter, so the expression matches exactly when
    the code unit after the longest run is a letter. *)
Definition ansi_match (s : string) : option nat :=
  match s with
  | String e (String b rest) =>
      if Ascii.eqb e Js.ESC && Ascii.eqb b "[" then
        let n := csi_params rest in
        match drop_str n rest with
        | String l _ => if Js.is_letter l then Some (3 + n)%nat else None
        | EmptyString => None
        end
      else None
  | _ => None
  end.

(** The class [[\x00-\x08\x0B-\x0C\x0E-\x1F\x7F]]. *)
Definition other_control (c : ascii) : bool :=
  Js.between 0 8 c || Js.between 11 12 c || Js.between 14 31 c || (Js.code c =? 127)%N.

Definition sanitizeLogLine (line : string) : string :=
  (* Remove ANSI escape codes *)
  let cleaned := Js.remove_matches ansi_match line in
  (* Remove other control characters except newline and tab *)
  let cleaned := Js.remove_class other_control cleaned in
  (* Remove carriage returns *)
  let cleaned := Js.remove_class (Ascii.eqb Js.CR) cleaned in
  (* Trim whitespace *)
  Js.trim cleaned.


(** What is left of a line is free of ESC, CR and the other controls. *)
Definition is_clean (c : ascii) : bool :=
  negb (Ascii.eqb c Js.ESC) && negb (Ascii.eqb c Js.CR) && negb (other_control c).

Definition sample_log_line : string :=
  String Js.ESC "[31merror" ++ String Js.ESC "[0m" ++ String Js.CR (String Js.LF "").


(** ** Dashboard: layout and key handling *)

Definition WORKFLOW_ORDER : list string := ["type"; "build"; "test"; "lint"].

(** [Array.prototype.includes] on an array of strings. *)
Definition Array_includes (l : list string) (x : string) : bool :=
  existsb (String.eqb x) l.

(** [WORKFLOW_ORDER.filter((w) => workflows.includes(w))] *)
Definition orderedWorkflows (workflows : list string) : list string :=
  List.filter (fun w => Array_includes workflows w) WORKFLOW_ORDER.

(** [a[i]] for a number [i]: [undefined] ([None]) outside the array. *)
Definition at_index (a : list string) (i : Z) : option string :=
  if i <? 0 then None else a !! Z.to_nat i.

(** The state of the component: the two [useState] cells, and whether
    [exit()] was called. The set holds what the handler puts into it, which
    is [undefined] ([None]) when the selected index is outside the list. *)
Record DashboardState := {
  selectedIndex : Z;
  expandedSet : gset (option string);
  exited : bool
}.

Definition initialState : DashboardState :=
  {| selectedIndex := 0; expandedSet := ∅; exited := false |}.

(** [process.stdout.rows || 40]: [rows] is [undefined] off a terminal. *)
Definition terminalHeight (rows : option Z) : Z :=
  match rows with
  | Some r => if r =? 0 then 40 else r
  | None => 40
  end.

Definition headerHeight : Z := 3.
Definition footerHeight : Z := 3.
Definition workflowHeaderHeight : Z := 4.

Definition expandedCount (st : DashboardState) : Z := Z.of_nat (size (expandedSet st)).

Definition collapsedCount (workflows : list string) (st : DashboardState) : Z :=
  Z.of_nat (length (orderedWorkflows workflows)) - expandedCount st.

Definition availableHeight (rows : option Z) (workflows : list string) (st : DashboardState) : Z :=
  terminalHeight rows
  - headerHeight
  - footerHeight
  - expandedCount st * workflowHeaderHeight
  - collapsedCount workflows st * workflowHeaderHeight.

(** [Math.floor(availableHeight / expandedCount)]: [Z.div] rounds down for a
    positive divisor. *)
Definition logHeightPerWorkflow (rows : option Z) (workflows : list string) (st : DashboardState) : Z :=
  if 0 <? expandedCount st
  then availableHeight rows workflows st / expandedCount st
  else 0.

(** The [logHeight] a row is given:
    [expandedSet.has(workflow) ? logHeightPerWorkflow : 0]. *)
Definition logHeight (rows : option Z) (workflows : list string) (st : DashboardState)
    (workflow : string) : Z :=
  if bool_decide (Some workflow ∈ expandedSet st)
  then logHeightPerWorkflow rows workflows st
  else 0.

(** The fields of Ink's [Key] that the handler reads. *)
Record Key := {
  upArrow : bool;
  downArrow : bool;
  return_ : bool;
  ctrl : bool
}.

Definition noKey : Key :=
  {| upArrow := false; downArrow := false; return_ := false; ctrl := false |}.

Definition setSelectedIndex (i : Z) (st : DashboardState) : DashboardState :=
  {| selectedIndex := i; expandedSet := expandedSet st; exited := exited st |}.

Definition setExpandedSet (f : gset (option string) -> gset (option string))
    (st : DashboardState) : DashboardState :=
  {| selectedIndex := selectedIndex st; expandedSet := f (expandedSet st); exited := exited st |}.

Definition exit (st : DashboardState) : DashboardState :=
  {| selectedIndex := selectedIndex st; expandedSet := expandedSet st; exited := true |}.

(** The callback given to [useInput]. *)
Definition onInput (workflows : list string) (input : string) (key : Key)
    (st : DashboardState) : DashboardState :=
  let ordered := orderedWorkflows workflows in
  if String.eqb input "q" || (ctrl key && String.eqb input "c") then
    exit st
  else if upArrow key || String.eqb input "k" then
    setSelectedIndex (Z.max 0 (selectedIndex st - 1)) st
  else if downArrow key || String.eqb input "j" then
    setSelectedIndex (Z.min (Z.of_nat (length ordered) - 1) (selectedIndex st + 1)) st
  else if String.eqb input " " || return_ key || String.eqb input "l" then
    let workflow := at_index ordered (selectedIndex st) in
    setExpandedSet (fun prev =>
      if bool_decide (workflow ∈ prev) then prev ∖ {[workflow]} else prev ∪ {[workflow]}) st
  else if String.eqb input "h" then
    let workflow := at_index ordered (selectedIndex st) in
    setExpandedSet (fun prev => prev ∖ {[workflow]}) st
  else if String.eqb input "e" then
    setExpandedSet (fun _ => list_to_set (Some <$> ordered)) st
  else if String.eqb input "c" then
    setExpandedSet (fun _ => ∅) st
  else st.

(** Key events reach the callback while the application is mounted. *)
Definition press (workflows : list string) (ev : string * Key)
    (st : DashboardState) : DashboardState :=
  if exited st then st else onInput workflows (fst ev) (snd ev) st.

Definition pressAll (workflows : list string) (evs : list (string * Key))
    (st : DashboardState) : DashboardState :=
  fold_left (fun s ev => press workflows ev s) evs st.

(** The keys of the footer line, as [useInput] reports them. *)
Definition arrow_up : string * Key :=
  ("", {| upArrow := true; downArrow := false; return_ := false; ctrl := false |}).
Definition arrow_down : string * Key :=
  ("", {| upArrow := false; downArrow := true; return_ := false; ctrl := false |}).
Definition enter : string * Key :=
  ("", {| upArrow := false; downArrow := false; return_ := true; ctrl := false |}).
Definition letter (input : string) : string * Key := (input, noKey).

Definition up_keys : list (string * Key) := [arrow_up; letter "k"].
Definition down_keys : list (string * Key) := [arrow_down; letter "j"].
Definition toggle_keys : list (string * Key) := [letter " "; enter; letter "l"].

(** The workflows of the dashboard, as members of the expanded set. *)
Definition shown (workflows : list string) : gset (option string) :=
  list_to_set (Some <$> orderedWorkflows workflows).

(** The invariant of the dashboard state: the cursor is an index of the
    ordered list and only listed workflows are expanded. *)
Definition dashboard_ok (workflows : list string) (st : DashboardState) : Prop :=
  0 <= selectedIndex st < Z.of_nat (length (orderedWorkflows workflows))
  /\ expandedSet st ⊆ shown workflows.

(** ** The world outside the program

    The supervisor talks to the file system, to the tool it spawns and to the
    console. The world below holds what the code can observe of them; what the
    code cannot decide (which operations the operating system refuses, what
    the tool prints and how it exits, how the clock reads) is the
    environment [Env], fixed for a run. *)

Inductive JsError :=
  | NotFound (path : string)
  | PermissionDenied (path : string)
  | BadResource
  | TypeError (msg : string)
  | SyntaxError (msg : string).

Inductive outcome (A : Type) :=
  | Ret (a : A)
  | Throw (e : JsError).
Arguments Ret {A} a.
Arguments Throw {A} e.

Inductive FsOp := OpRead | OpWriteText | OpOpen | OpWrite.

(** An [FsFile] handed out by [Deno.open]. Closed handles stay in the table,
    so a run can be asked afterwards how it opened its files and whether it
    released them. *)
Record FsFile := {
  f_path : string;
  f_append : bool;
  f_pos : nat;
  f_open : bool
}.

Inductive StreamEnd := Eof | ReadFails.

(** What a reader of a piped stream gets: chunks, then the end of the
    stream or a failing read. *)
Record Stream := {
  chunks : list string;
  ending : StreamEnd
}.

(** A child process: its two streams, the order in which the two readers get
    their turns ([true]: the reader of stdout), its exit code, and how long
    it runs. *)
Record Proc := {
  p_stdout : Stream;
  p_stderr : Stream;
  p_schedule : list bool;
  p_code : Z;
  p_duration : nat
}.

Record Env := {
  (** the operations the operating system refuses, by path *)
  denied : FsOp -> string -> bool;
  (** the [n]th process spawned with the given arguments; [None] when the
      command cannot be started *)
  tool : nat -> list string -> option Proc;
  (** [new Date().toISOString()] at a given instant *)
  iso : nat -> string;
  (** what the rest of the program does to an array while a function that
      holds a reference to it is suspended *)
  meanwhile : list string -> list string
}.

Record World := {
  env : Env;
  files : gmap string string;
  handles : list FsFile;
  children : list (list string);
  console : list string;
  now : nat;
  arrays : gmap nat (list string);
  (** a record of the supervisor calls that have settled, with the instant:
      kept for the statements, the code never reads it *)
  settled : list (string * nat)
}.

Definition with_files (f : gmap string string) (w : World) : World :=
  {| env := env w; files := f; handles := handles w; children := children w;
     console := console w; now := now w; arrays := arrays w; settled := settled w |}.

Definition with_handles (h : list FsFile) (w : World) : World :=
  {| env := env w; files := files w; handles := h; children := children w;
     console := console w; now := now w; arrays := arrays w; settled := settled w |}.

Definition with_children (c : list (list string)) (w : World) : World :=
  {| env := env w; files := files w; handles := handles w; children := c;
     console := console w; now := now w; arrays := arrays w; settled := settled w |}.

Definition with_console (c : list string) (w : World) : World :=
  {| env := env w; files := files w; handles := handles w; children := children w;
     console := c; now := now w; arrays := arrays w; settled := settled w |}.

Definition with_now (t : nat) (w : World) : World :=
  {| env := env w; files := files w; handles := handles w; children := children w;
     console := console w; now := t; arrays := arrays w; settled := settled w |}.

Definition with_arrays (a : gmap nat (list string)) (w : World) : World :=
  {| env := env w; files := files w; handles := handles w; children := children w;
     console := console w; now := now w; arrays := a; settled := settled w |}.

Definition with_settled (l : list (string * nat)) (w : World) : World :=
  {| env := env w; files := files w; handles := handles w; children := children w;
     console := console w; now := now w; arrays := arrays w; settled := l |}.

(** ** Computations: state passing with exceptions *)

Definition IO (A : Type) : Type := World -> outcome A * World.

Definition ret {A} (a : A) : IO A := fun w => (Ret a, w).

Definition throw {A} (e : JsError) : IO A := fun w => (Throw e, w).

Definition bind {A B} (m : IO A) (k : A -> IO B) : IO B :=
  fun w =>
    match m w with
    | (Ret a, w') => k a w'
    | (Throw e, w') => (Throw e, w')
    end.

(** [try { m } catch { h }] *)
Definition try_catch {A} (m : IO A) (h : JsError -> IO A) : IO A :=
  fun w =>
    match m w with
    | (Ret a, w') => (Ret a, w')
    | (Throw e, w') => h e w'
    end.

(** [try { m } finally { f }]: [f] runs on every way out of [m]; what [m]
    returned or threw stands unless [f] throws. *)
Definition try_finally {A} (m : IO A) (f : IO unit) : IO A :=
  fun w =>
    let '(r, w') := m w in
    match f w' with
    | (Ret _, w'') => (r, w'')
    | (Throw e, w'') => (Throw e, w'')
    end.

Declare Scope io_scope.
Delimit Scope io_scope with io.
Notation "x <- m ;; k" := (bind m (fun x => k))
  (at level 100, m at next level, right associativity) : io_scope.
Notation "m ;;; k" := (bind m (fun _ => k))
  (at level 100, right associativity) : io_scope.
Local Open Scope io_scope.

(** ** Deno's file system, processes and clock *)

Definition readTextFile (path : string) : IO string :=
  fun w =>
    if denied (env w) OpRead path then (Throw (PermissionDenied path), w)
    else match files w !! path with
         | Some data => (Ret data, w)
         | None => (Throw (NotFound path), w)
         end.

(** [Deno.writeTextFile]: creates or truncates. *)
Definition writeTextFile (path data : string) : IO unit :=
  fun w =>
    if denied (env w) OpWriteText path then (Throw (PermissionDenied path), w)
    else (Ret tt, with_files (<[path := data]> (files w)) w).

Record OpenOptions := {
  o_write : bool;
  o_create : bool;
  o_truncate : bool;
  o_append : bool
}.

(** [Deno.open]: the new handle is the next entry of the table. *)
Definition open (path : string) (o : OpenOptions) : IO nat :=
  fun w =>
    if denied (env w) OpOpen path then (Throw (PermissionDenied path), w)
    else
      let h := {| f_path := path; f_append := o_append o; f_pos := O; f_open := true |} in
      let rid := length (handles w) in
      match files w !! path with
      | Some data =>
          let data' := if o_truncate o then "" else data in
          (Ret rid, with_handles (handles w ++ [h])%list (with_files (<[path := data']> (files w)) w))
      | None =>
          if o_create o
          then (Ret rid, with_handles (handles w ++ [h])%list (with_files (<[path := ""]> (files w)) w))
          else (Throw (NotFound path), w)
      end.

(** The first [n] code units of [s], filled up with NUL when [s] is shorter
    (a write behind the end of a file leaves a hole). *)
Fixpoint take_pad (n : nat) (s : string) : string :=
  match n with
  | O => ""
  | S k =>
      match s with
      | String c s' => String c (take_pad k s')
      | EmptyString => String "000"%char (take_pad k "")
      end
  end.

Definition overwrite_at (pos : nat) (data old : string) : string :=
  take_pad pos old ++ data ++ drop_str (pos + String.length data) old.

(** [FsFile.write]: at the end of the file for a handle opened with
    [append], at the position of the handle otherwise. *)
Definition write (rid : nat) (data : string) : IO unit :=
  fun w =>
    match handles w !! rid with
    | Some h =>
        if negb (f_open h) then (Throw BadResource, w)
        else if denied (env w) OpWrite (f_path h) then (Throw (PermissionDenied (f_path h)), w)
        else
          let old := default "" (files w !! f_path h) in
          let new := if f_append h then old ++ data
                     else overwrite_at (f_pos h) data old in
          let pos' := if f_append h then String.length new
                      else (f_pos h + String.length data)%nat in
          let h' := {| f_path := f_path h; f_append := f_append h; f_pos := pos'; f_open := true |} in
          (Ret tt, with_handles (<[rid := h']> (handles w))
                     (with_files (<[f_path h := new]> (files w)) w))
    | None => (Throw BadResource, w)
    end.

(** [FsFile.close] *)
Definition close (rid : nat) : IO unit :=
  fun w =>
    match handles w !! rid with
    | Some h =>
        if f_open h
        then (Ret tt, with_handles
                (<[rid := {| f_path := f_path h; f_append := f_append h;
                             f_pos := f_pos h; f_open := false |}]> (handles w)) w)
        else (Throw BadResource, w)
    | None => (Throw BadResource, w)
    end.

(** [new Deno.Command(command, { args, stdout: "piped", stderr: "piped" }).spawn()] *)
Definition spawn (command : string) (args : list string) : IO Proc :=
  fun w =>
    match tool (env w) (length (children w)) args with
    | Some p => (Ret p, with_children (children w ++ [command :: args])%list w)
    | None => (Throw (NotFound command), w)
    end.

(** [reader.read()]: [{ done, value }] and the stream behind the chunk. *)
Definition read (s : Stream) : IO (option string * Stream) :=
  match chunks s with
  | c :: cs => ret (Some c, {| chunks := cs; ending := ending s |})
  | [] =>
      match ending s with
      | Eof => ret (None, s)
      | ReadFails => throw BadResource
      end
  end.

(** [await process.status]: the process has exited by then. *)
Definition process_status (p : Proc) : IO Z :=
  fun w => (Ret (p_code p), with_now (now w + p_duration p)%nat w).

Definition success (code : Z) : bool := code =? 0.

(** [new Date().toISOString()] *)
Definition toISOString : IO string :=
  fun w => (Ret (iso (env w) (now w)), w).

(** [console.log] and its siblings: a line on the program's own terminal. *)
Definition console_log (line : string) : IO unit :=
  fun w => (Ret tt, with_console (console w ++ [line])%list w).

(** ** Configuration *)

Definition STATE_DIR : string := "tools/gopher/.copilot-fix-state".
Definition WORKFLOWS_FILE : string := STATE_DIR ++ "/selected-workflows.txt".
Definition PROJECTS_FILE : string := STATE_DIR ++ "/selected-projects.txt".
Definition LOG_DIR : string := STATE_DIR ++ "/logs".
Definition PROGRESS_DIR : string := STATE_DIR ++ "/progress".

Definition WORKFLOW_INSTRUCTIONS : list (string * string) := [
  ("test", "TODO");
  ("lint", "You are a linting expert. PROCESS: 1) Run the lint command (e.g. 'npx nx lint <project>'), 2) Read all error output, 3) Fix ALL errors you can identify (unused imports, missing deps, etc), 4) Run lint again to verify. Work QUICKLY - don't ask questions, just fix the issues following the ESLint rules. Avoid disabling rules unless absolutely necessary.");
  ("type", "You are a TypeScript expert. PROCESS: 1) Run type check (e.g. 'npx nx type-check <project>' or 'tsc --noEmit'), 2) Read all error output, 3) Fix ALL type errors you can identify (add types, handle nulls, etc), 4) Run type check again to verify. Work QUICKLY - don't ask questions, just fix the issues. Avoid using 'any' or '@ts-ignore' unless absolutely necessary.");
  ("build", "You are a build expert. PROCESS: 1) Run build (e.g. 'npx nx build <project>'), 2) Read all error output carefully, 3) Fix ALL errors you find (missing imports/index files, wrong paths, missing deps), 4) Run build again to verify. Work QUICKLY and DIRECTLY - don't ask questions, just fix the issues. For import errors, find the correct file path or create missing index.js files. For missing dependencies, install them.")
].

Definition WORKFLOW_ACTIONS : list (string * string) := [
  ("test", "fix the tests");
  ("lint", "fix all linting errors");
  ("type", "fix all TypeScript type errors");
  ("build", "fix all build errors")
].

(** What [table[key]] reads on one of the two records above: a value of
    the record itself, a member the record inherits from [Object.prototype]
    (a built-in function, or the prototype itself for [__proto__]), or
    [undefined]. *)
Inductive Member :=
  | Own (value : string)
  | Builtin (name : string)
  | Prototype
  | Undefined.

(** The functions of [Object.prototype], by their property keys. *)
Definition Object_prototype_functions : list string :=
  ["__defineGetter__"; "__defineSetter__"; "hasOwnProperty"; "__lookupGetter__";
   "__lookupSetter__"; "isPrototypeOf"; "propertyIsEnumerable"; "toString"; "valueOf";
   "toLocaleString"].

(** [Object.prototype[key]] *)
Definition inherited (key : string) : Member :=
  if String.eqb key "constructor" then Builtin "Object"
  else if String.eqb key "__proto__" then Prototype
  else if existsb (String.eqb key) Object_prototype_functions then Builtin key
  else Undefined.

(** [table[key]]: the own properties first, then the prototype. *)
Fixpoint lookup_record (table : list (string * string)) (key : string) : Member :=
  match table with
  | [] => inherited key
  | (k, v) :: rest => if String.eqb k key then Own v else lookup_record rest key
  end.

(** [`${v}`]: a string as it is, a built-in function as its source text,
    the prototype object as [[object Object]]. *)
Definition interpolate (v : Member) : string :=
  match v with
  | Own value => value
  | Builtin name => "function " ++ name ++ "() { [native code] }"
  | Prototype => "[object Object]"
  | Undefined => "undefined"
  end.

Definition nl : string := String Js.LF "".
Definition dq : string := String Js.DQ "".

(** Decimal digits of a number, as a template literal prints it. *)
Fixpoint digits_from (fuel : nat) (n : nat) (acc : string) : string :=
  match fuel with
  | O => acc
  | S f =>
      let acc' := String (ascii_of_nat (48 + n mod 10)) acc in
      if (n <? 10)%nat then acc' else digits_from f (n / 10) acc'
  end.

Definition decimal (n : nat) : string := digits_from (S n) n "".

(** ** buildWorkflowTodo *)

Definition todo_header (workflow : string) : string :=
  let workflowAction := lookup_record WORKFLOW_ACTIONS workflow in
  let instructions := lookup_record WORKFLOW_INSTRUCTIONS workflow in
  Js.join nl [
    "You are a code quality automation expert. You have a structured TODO list to complete.";
    "";
    "EXECUTION RULES:";
    "1. Complete tasks in the EXACT order listed below";
    "2. For each task, run the command, analyze output, and fix any issues found";
    "3. After completing a task, mark it as DONE and move to the next";
    "4. Report progress after completing each task";
    "5. If a task passes with no errors, mark it DONE and proceed immediately";
    "6. Work continuously without waiting for confirmation";
    "";
    "PROGRESS TRACKING:";
    "IMPORTANT - Before starting each task, create/update a progress file to help the dashboard track your work:";
    "- Create: " ++ PROGRESS_DIR ++ "/" ++ workflow ++ "-progress.json";
    "- Format: {" ++ dq ++ "current_project" ++ dq ++ ": " ++ dq ++ "project-name" ++ dq ++ ", "
      ++ dq ++ "current_task" ++ dq ++ ": N, " ++ dq ++ "completed_projects" ++ dq ++ ": ["
      ++ dq ++ "proj1" ++ dq ++ ", " ++ dq ++ "proj2" ++ dq ++ "]}";
    "- Update this file BEFORE starting each new project";
    "- Example: echo '{" ++ dq ++ "current_project" ++ dq ++ ": " ++ dq ++ "vulnerability-management" ++ dq ++ ", "
      ++ dq ++ "current_task" ++ dq ++ ": 1, " ++ dq ++ "completed_projects" ++ dq ++ ": []}' > "
      ++ PROGRESS_DIR ++ "/" ++ workflow ++ "-progress.json";
    "- When a project completes successfully, add it to completed_projects array";
    "- This allows the dashboard to show real-time progress accurately";
    "";
    "WORKFLOW: " ++ interpolate workflowAction;
    "Instructions: " ++ interpolate instructions;
    "";
    "TODO LIST:";
    ""
  ].

(** The line that [forEach] appends for the project at index [idx]. *)
Definition todo_line (workflow : string) (idx : nat) (project : string) : string :=
  "  " ++ decimal (idx + 1) ++ ". "
    ++ interpolate (lookup_record WORKFLOW_ACTIONS workflow) ++ " in " ++ project ++ nl.

Definition todo_footer : string :=
  Js.join nl [
    "";
    "After completing ALL tasks above, create a summary report showing:";
    "- Which projects had issues that were fixed";
    "- Which projects passed all checks";
    "- Any remaining issues that need manual attention";
    ""
  ].

(** [projects.forEach((project, idx) => { todo += line })], from index [idx]. *)
Fixpoint append_todo_lines (workflow : string) (idx : nat) (projects : list string)
    (todo : string) : string :=
  match projects with
  | [] => todo
  | project :: rest =>
      append_todo_lines workflow (S idx) rest (todo ++ todo_line workflow idx project)
  end.

Definition buildWorkflowTodo (workflow : string) (projects : list string) : string :=
  let todo := todo_header workflow in
  let todo := append_todo_lines workflow O projects todo in
  todo ++ todo_footer.

(** ** The supervisor *)

Definition logFile (workflow : string) : string := LOG_DIR ++ "/" ++ workflow ++ ".log".
Definition statusFile (workflow : string) : string := LOG_DIR ++ "/" ++ workflow ++ ".status".
Definition promptFile (workflow : string) : string := LOG_DIR ++ "/" ++ workflow ++ ".prompt".
Definition progressFile (workflow : string) : string :=
  PROGRESS_DIR ++ "/" ++ workflow ++ "-progress.json".

(** Check if a workflow was abandoned mid-run *)
Definition wasWorkflowAbandoned (workflow : string) : IO bool :=
  try_catch
    (status <- readTextFile (statusFile workflow) ;;
     ret (String.eqb (Js.trim status) "RUNNING"))
    (fun _ => ret false).

Definition resume_marker (timestamp : string) : string :=
  nl ++ nl ++ Js.repeat "=" 80 ++ nl ++ "RESUMING WORKFLOW AT " ++ timestamp ++ nl
     ++ Js.repeat "=" 80 ++ nl ++ nl.

(** One turn of the loop of a reader, inside its [try]/[catch]: read a
    chunk and write it to the log. The result is the stream that is left, or
    [None] once the loop has ended ([done], or something thrown and caught). *)
Definition reader_turn (logFileHandle : nat) (reader : option Stream) : IO (option Stream) :=
  match reader with
  | None => ret None
  | Some s =>
      try_catch
        (r <- read s ;;
         match r with
         | (None, _) => ret None
         | (Some value, s') => write logFileHandle value ;;; ret (Some s')
         end)
        (fun _ => ret None)
  end.

Fixpoint reader_turns (n : nat) (logFileHandle : nat) (reader : option Stream)
    : IO (option Stream) :=
  match n with
  | O => ret reader
  | S k => r <- reader_turn logFileHandle reader ;; reader_turns k logFileHandle r
  end.

(** A reader left alone until its loop ends. *)
Definition reader_finish (logFileHandle : nat) (reader : option Stream) : IO unit :=
  let n := match reader with Some s => S (length (chunks s)) | None => O end in
  reader_turns n logFileHandle reader ;;; ret tt.

(** [await Promise.all([writeStdout, writeStderr])]: the two loops take their
    turns as the schedule says; when it runs out, each is left to finish. *)
Fixpoint drain (logFileHandle : nat) (schedule : list bool) (out err : option Stream)
    : IO unit :=
  match schedule with
  | [] => reader_finish logFileHandle out ;;; reader_finish logFileHandle err
  | true :: rest =>
      out' <- reader_turn logFileHandle out ;; drain logFileHandle rest out' err
  | false :: rest =>
      err' <- reader_turn logFileHandle err ;; drain logFileHandle rest out err'
  end.

(** The body of the [try] block of [runWorkflowSession]. *)
Definition supervise (workflow : string) (process : Proc) (logFileHandle : nat) : IO bool :=
  let statusFile := statusFile workflow in
  drain logFileHandle (p_schedule process)
        (Some (p_stdout process)) (Some (p_stderr process)) ;;;
  status <- process_status process ;;
  if success status then
    writeTextFile statusFile "COMPLETED" ;;; ret true
  else
    writeTextFile statusFile "FAILED" ;;; ret false.

(** What [runWorkflowSession] does before its [try] block: the decision,
    the spawn, the log handle and the marker. *)
Definition prepare (workflow : string) (projects : list string) : IO (Proc * nat) :=
  let logFile := logFile workflow in
  let statusFile := statusFile workflow in
  let promptFile := promptFile workflow in
  (* Check if we should resume *)
  shouldResume <- wasWorkflowAbandoned workflow ;;
  copilotArgs <-
    (if shouldResume : bool then
       (* Resume the previous conversation *)
       ret ["--resume"; "--allow-all-tools"; "--allow-all-paths"]
     else
       (* Write status *)
       writeTextFile statusFile "RUNNING" ;;;
       (* Build and save prompt *)
       let prompt := buildWorkflowTodo workflow projects in
       writeTextFile promptFile prompt ;;;
       (* Start fresh conversation *)
       ret ["-p"; prompt; "--allow-all-tools"; "--allow-all-paths"]) ;;
  (* Run copilot and redirect output to log file *)
  process <- spawn "copilot" copilotArgs ;;
  (* Create file handle for writing (append if resuming, truncate if new) *)
  logFileHandle <- open logFile {| o_write := true; o_create := true;
                                   o_truncate := negb shouldResume;
                                   o_append := shouldResume |} ;;
  (* Add a resume marker to the log if resuming *)
  (if shouldResume then
     timestamp <- toISOString ;;
     write logFileHandle (resume_marker timestamp)
   else ret tt) ;;;
  ret (process, logFileHandle).

(** Run a single workflow session *)
Definition runWorkflowSession (workflow : string) (projects : list string) : IO bool :=
  ph <- prepare workflow projects ;;
  let '(process, logFileHandle) := ph in
  try_finally
    (supervise workflow process logFileHandle)
    (close logFileHandle).

(** ** The orchestrator *)

(** Reading an array through its reference; [slice()] copies what is there
    at that moment. *)
Definition array_contents (ref : nat) : IO (list string) :=
  fun w => (Ret (default [] (arrays w !! ref)), w).

Definition slice (ref : nat) : IO (list string) := array_contents ref.

(** While a function is suspended the rest of the program runs, and may
    change the arrays it shares with it. *)
Definition suspended : IO unit :=
  fun w => (Ret tt, with_arrays (meanwhile (env w) <$> arrays w) w).

(** The calls of an async function started together at the instant [t0].
    Each runs from [t0] on its own files; its promise settles when its
    process has exited, which the record [settled] notes. The result lists,
    for each call, when it settled and how. *)
Fixpoint launch {A} (t0 : nat) (calls : list (string * IO A))
    : World -> list (nat * outcome A) * World :=
  match calls with
  | [] => fun w => ([], w)
  | (name, call) :: rest => fun w =>
      let '(r, w1) := call (with_now t0 w) in
      let t := now w1 in
      let '(rs, w2) := launch t0 rest (with_settled (settled w1 ++ [(name, t)])%list w1) in
      ((t, r) :: rs, w2)
  end.

(** The rejection that [Promise.all] sees first: the earliest one, and the
    first of the array among those of one instant. *)
Fixpoint first_rejection {A} (rs : list (nat * outcome A)) : option (nat * JsError) :=
  match rs with
  | [] => None
  | (t, Throw e) :: rest =>
      match first_rejection rest with
      | Some (t', e') => if (t' <? t)%nat then Some (t', e') else Some (t, e)
      | None => Some (t, e)
      end
  | (_, Ret _) :: rest => first_rejection rest
  end.

Fixpoint fulfilled_values {A} (rs : list (nat * outcome A)) : list A :=
  match rs with
  | [] => []
  | (_, Ret a) :: rest => a :: fulfilled_values rest
  | (_, Throw _) :: rest => fulfilled_values rest
  end.

Definition last_settlement {A} (t0 : nat) (rs : list (nat * outcome A)) : nat :=
  fold_right (fun r t => Nat.max (fst r) t) t0 rs.

(** [await Promise.all(promises)]: fulfils once every promise has, with
    their values; rejects as soon as one of them rejects, without waiting
    for the others. In the second case the world that is returned still shows
    the effects of every call, those that finish later included, while [now]
    is the instant of the rejection. *)
Definition Promise_all {A} (calls : list (string * IO A)) : IO (list A) :=
  fun w =>
    let t0 := now w in
    let '(rs, w') := launch t0 calls w in
    let '(_, w'') := suspended w' in
    match first_rejection rs with
    | Some (t, e) => (Throw e, with_now t w'')
    | None => (Ret (fulfilled_values rs), with_now (last_settlement t0 rs) w'')
    end.

(** The [for] loop that collects the abandoned workflows. *)
Fixpoint collect_abandoned (orderedWorkflows abandonedWorkflows : list string)
    : IO (list string) :=
  match orderedWorkflows with
  | [] => ret abandonedWorkflows
  | workflow :: rest =>
      abandoned <- wasWorkflowAbandoned workflow ;;
      collect_abandoned rest
        (if abandoned : bool then (abandonedWorkflows ++ [workflow])%list
         else abandonedWorkflows)
  end.

(** Run all workflows in parallel. [workflows] is the reference of the array
    the caller passes; [projects] is only ever read. *)
Definition runAllWorkflows (workflows : nat) (projects : list string) : IO unit :=
  (* Save original workflows for restoration *)
  workflowsSnapshot <- slice workflows ;;
  (* Order workflows correctly *)
  current <- array_contents workflows ;;
  let orderedWorkflows := orderedWorkflows current in
  (* Check for abandoned workflows and log to a status file instead of stdout *)
  abandonedWorkflows <- collect_abandoned orderedWorkflows [] ;;
  (if (0 <? length abandonedWorkflows)%nat then
     let statusMsg := "Resuming abandoned workflows: "
                        ++ Js.join ", " abandonedWorkflows ++ nl in
     writeTextFile (STATE_DIR ++ "/resume-status.txt") statusMsg
   else ret tt) ;;;
  (* Run all workflows in parallel *)
  let workflowPromises :=
    map (fun workflow => (workflow, runWorkflowSession workflow projects)) orderedWorkflows in
  (* Wait for all to complete *)
  Promise_all workflowPromises ;;;
  (* Restore original workflows file *)
  writeTextFile WORKFLOWS_FILE (Js.join nl workflowsSnapshot).

(** ** Status derivation *)

(** What [JSON.parse] returns. Numbers are kept as integers: the code only
    asks whether a number is zero. An object lists each own key once. *)
Inductive JsonValue :=
  | JNull
  | JBool (b : bool)
  | JNumber (n : Z)
  | JString (s : string)
  | JArray (items : list JsonValue)
  | JObject (fields : list (string * JsonValue)).

Inductive ProjectStatus :=
  | PASS        (* "✅ PASS" *)
  | RUNNING     (* "🔄 RUNNING" *)
  | PENDING.    (* "⏸ PENDING" *)

(** [if (v)] *)
Definition truthy (v : JsonValue) : bool :=
  match v with
  | JNull => false
  | JBool b => b
  | JNumber n => negb (n =? 0)
  | JString s => negb (String.eqb s "")
  | JArray _ | JObject _ => true
  end.

Fixpoint lookup_field (fields : list (string * JsonValue)) (key : string) : option JsonValue :=
  match fields with
  | [] => None
  | (k, v) :: rest => if String.eqb k key then Some v else lookup_field rest key
  end.

(** [v.key] on a parsed value that is not [null], for a key that no
    prototype defines: the own field of an object, [undefined] ([None])
    otherwise. *)
Definition get_field (v : JsonValue) (key : string) : option JsonValue :=
  match v with
  | JObject fields => lookup_field fields key
  | _ => None
  end.

Definition is_string (x : string) (v : JsonValue) : bool :=
  match v with
  | JString s => String.eqb s x
  | _ => false
  end.

(** [v.includes(x)] for a string [x]: the method of arrays, the method of
    strings, and a [TypeError] on anything else ([undefined] and [null] have
    no properties, the other values no callable [includes]). *)
Definition call_includes (v : option JsonValue) (x : string) : outcome bool :=
  match v with
  | Some (JArray items) => Ret (existsb (is_string x) items)
  | Some (JString s) => Ret (Js.includes s x)
  | _ => Throw (TypeError "includes is not a function")
  end.

(** [v === x] for a string [x] *)
Definition strict_equal (v : option JsonValue) (x : string) : bool :=
  match v with
  | Some u => is_string x u
  | None => false
  end.

Section StatusDerivation.

(** [JSON.parse]: the parsed value, or [None] for a [SyntaxError]. *)
Variable JSON_parse : string -> option JsonValue.

(** [subject.match(new RegExp(source, "i"))] as a test: whether there is a
    match, or [None] when the constructor rejects the source. *)
Variable RegExp_test : string -> string -> option bool.

(** [null] stands for both a missing or unreadable file and a text that
    does not parse. *)
Definition getWorkflowProgress (workflow : string) : IO JsonValue :=
  try_catch
    (content <- readTextFile (progressFile workflow) ;;
     match JSON_parse content with
     | Some v => ret v
     | None => throw (SyntaxError "JSON.parse")
     end)
    (fun _ => ret JNull).

(** Fallback to log parsing: the second half of [getProjectStatus]. *)
Definition statusFromLog (project workflow : string) : IO ProjectStatus :=
  r <- try_catch
         (log <- readTextFile (logFile workflow) ;;
          if Js.includes (Js.toLowerCase log) (Js.toLowerCase project) then
            match RegExp_test (project ++ ".*(?:done|completed|pass)") log with
            | None => throw (SyntaxError "Invalid regular expression")
            | Some true => ret (Some PASS)
            | Some false => ret (Some RUNNING)
            end
          else ret None)
         (fun _ => ret None) ;;
  match r with
  | Some status => ret status
  | None => ret PENDING
  end.

Definition getProjectStatus (project workflow : string) : IO ProjectStatus :=
  (* Check progress file first *)
  progress <- getWorkflowProgress workflow ;;
  if truthy progress then
    match call_includes (get_field progress "completed_projects") project with
    | Throw e => throw e
    | Ret true => ret PASS
    | Ret false =>
        if strict_equal (get_field progress "current_project") project
        then ret RUNNING
        else statusFromLog project workflow
    end
  else statusFromLog project workflow.

End StatusDerivation.

(** ** A runtime for the examples

    [JSON.parse] and the regular-expression engine belong to the runtime, and
    the statements below hold for any. The two functions here stand in for
    them in the examples; each covers the inputs the examples use and says
    so. *)
Module Sample.

Definition is_json_space (c : ascii) : bool :=
  Ascii.eqb c " " || Ascii.eqb c Js.TAB || Ascii.eqb c Js.LF || Ascii.eqb c Js.CR.

Fixpoint skip_ws (s : string) : string :=
  match s with
  | String c s' => if is_json_space c then skip_ws s' else s
  | EmptyString => EmptyString
  end.

(** The text of a string literal behind its opening quote, with the
    one-letter escapes; an escape by code point is not covered. *)
Fixpoint string_body (s : string) : option (string * string) :=
  match s with
  | EmptyString => None
  | String c s' =>
      if Ascii.eqb c Js.DQ then Some ("", s')
      else if Ascii.eqb c "\" then
        match s' with
        | String e s'' =>
            let unescaped :=
              if Ascii.eqb e Js.DQ then Some Js.DQ
              else if Ascii.eqb e "\" then Some "\"%char
              else if Ascii.eqb e "/" then Some "/"%char
              else if Ascii.eqb e "b" then Some "008"%char
              else if Ascii.eqb e "f" then Some "012"%char
              else if Ascii.eqb e "n" then Some Js.LF
              else if Ascii.eqb e "r" then Some Js.CR
              else if Ascii.eqb e "t" then Some Js.TAB
              else None in
            match unescaped, string_body s'' with
            | Some u, Some (body, rest) => Some (String u body, rest)
            | _, _ => None
            end
        | EmptyString => None
        end
      else if (Js.code c <? 32)%N then None
      else
        match string_body s' with
        | Some (body, rest) => Some (String c body, rest)
        | None => None
        end
  end.

Fixpoint digits (s : string) (acc : Z) : Z * string :=
  match s with
  | String c s' =>
      if Js.is_digit c then digits s' (10 * acc + Z.of_N (Js.code c - 48)) else (acc, s)
  | EmptyString => (acc, s)
  end.

(** An integer literal; fractions and exponents are not covered. *)
Definition number (s : string) : option (Z * string) :=
  let '(negative, s1) :=
    match s with
    | String c s' => if Ascii.eqb c "-" then (true, s') else (false, s)
    | EmptyString => (false, s)
    end in
  match s1 with
  | String c s' =>
      if Js.is_digit c then
        let '(n, rest) := digits s1 0 in
        let leading_zero := Ascii.eqb c "0" && negb (String.eqb (drop_str 1 s1) rest) in
        let continues :=
          match rest with
          | String d _ => Ascii.eqb d "." || Ascii.eqb d "e" || Ascii.eqb d "E"
          | EmptyString => false
          end in
        if leading_zero || continues then None
        else Some (if negative : bool then - n else n, rest)
      else None
  | EmptyString => None
  end.

Definition has_key (k : string) (fields : list (string * JsonValue)) : bool :=
  existsb (fun kv => String.eqb (fst kv) k) fields.

Fixpoint value (fuel : nat) (s : string) : option (JsonValue * string) :=
  match fuel with
  | O => None
  | S f =>
      let s := skip_ws s in
      if Js.startsWith "null" s then Some (JNull, drop_str 4 s)
      else if Js.startsWith "true" s then Some (JBool true, drop_str 4 s)
      else if Js.startsWith "false" s then Some (JBool false, drop_str 5 s)
      else
        match s with
        | EmptyString => None
        | String c rest =>
            if Ascii.eqb c Js.DQ then
              match string_body rest with
              | Some (body, r) => Some (JString body, r)
              | None => None
              end
            else if Ascii.eqb c "[" then
              match skip_ws rest with
              | String d r =>
                  if Ascii.eqb d "]" then Some (JArray [], r)
                  else match items f rest with
                       | Some (vs, r') => Some (JArray vs, r')
                       | None => None
                       end
              | EmptyString => None
              end
            else if Ascii.eqb c "{" then
              match skip_ws rest with
              | String d r =>
                  if Ascii.eqb d "}" then Some (JObject [], r)
                  else match members f rest with
                       | Some (fs, r') => Some (JObject fs, r')
                       | None => None
                       end
              | EmptyString => None
              end
            else
              match number s with
              | Some (n, r) => Some (JNumber n, r)
              | None => None
              end
        end
  end
with items (fuel : nat) (s : string) : option (list JsonValue * string) :=
  match fuel with
  | O => None
  | S f =>
      match value f s with
      | Some (v, r) =>
          match skip_ws r with
          | String d r' =>
              if Ascii.eqb d "," then
                match items f r' with
                | Some (vs, r'') => Some (v :: vs, r'')
                | None => None
                end
              else if Ascii.eqb d "]" then Some ([v], r')
              else None
          | EmptyString => None
          end
      | None => None
      end
  end
with members (fuel : nat) (s : string) : option (list (string * JsonValue) * string) :=
  match fuel with
  | O => None
  | S f =>
      match skip_ws s with
      | String q r =>
          if Ascii.eqb q Js.DQ then
            match string_body r with
            | Some (k, r1) =>
                match skip_ws r1 with
                | String c r2 =>
                    if Ascii.eqb c ":" then
                      match value f r2 with
                      | Some (v, r3) =>
                          match skip_ws r3 with
                          | String d r4 =>
                              if Ascii.eqb d "," then
                                match members f r4 with
                                | Some (fs, r5) =>
                                    (* of two fields of one key the later stands *)
                                    Some (if has_key k fs then fs else (k, v) :: fs, r5)
                                | None => None
                                end
                              else if Ascii.eqb d "}" then Some ([(k, v)], r4)
                              else None
                          | EmptyString => None
                          end
                      | None => None
                      end
                    else None
                | EmptyString => None
                end
            | None => None
            end
          else None
      | EmptyString => None
      end
  end.

(** A parser for JSON texts without escapes by code point and with integer
    numbers; it rejects the other texts, of which [JSON.parse] accepts some. *)
Definition JSON_parse (text : string) : option JsonValue :=
  match value (2 * String.length text + 2) text with
  | Some (v, rest) => if String.eqb (skip_ws rest) "" then Some v else None
  | None => None
  end.

(** The characters with a meaning in the syntax of regular expressions. *)
Definition is_syntax_char (c : ascii) : bool :=
  existsb (Ascii.eqb c) (Js.chars "\^$.*+?()[]{}|").

Definition is_literal (name : string) : bool :=
  forallb (fun c => negb (is_syntax_char c)) (Js.chars name).

(** What [.*] can run over: the rest of the line. *)
Fixpoint rest_of_line (s : string) : string :=
  match s with
  | String c s' =>
      if Ascii.eqb c Js.LF || Ascii.eqb c Js.CR then "" else String c (rest_of_line s')
  | EmptyString => ""
  end.

Definition completion_follows (s : string) : bool :=
  let line := rest_of_line s in
  Js.includes line "done" || Js.includes line "completed" || Js.includes line "pass".

(** Whether [name] occurs in [s] with a completion keyword behind it on the
    line where the occurrence ends. *)
Fixpoint name_then_completion (name s : string) : bool :=
  (Js.startsWith name s && completion_follows (drop_str (String.length name) s))
  || match s with
     | String _ s' => name_then_completion name s'
     | EmptyString => false
     end.

Definition completion_tail : string := ".*(?:done|completed|pass)".

Definition strip_tail (source : string) : option string :=
  let n := (String.length source - String.length completion_tail)%nat in
  if String.eqb (drop_str n source) completion_tail
  then Some (String.substring 0 n source) else None.

(** An engine for the sources [name ++ ".*(?:done|completed|pass)"] where
    [name] has no character of the syntax, matched without regard to case.
    On any other source it answers [None]: it is not meant for them. *)
Definition RegExp_test (source subject : string) : option bool :=
  match strip_tail source with
  | Some name =>
      if is_literal name
      then Some (name_then_completion (Js.toLowerCase name) (Js.toLowerCase subject))
      else None
  | None => None
  end.

End Sample.

(** ** WorkflowRow: what a row draws *)

(** [String.prototype.split] on a separator of one code unit: the pieces
    between the separators, the empty ones included. *)
Fixpoint String_split (sep : ascii) (s : string) : list string :=
  match s with
  | EmptyString => [""]
  | String c s' =>
      if Ascii.eqb c sep then "" :: String_split sep s'
      else
        match String_split sep s' with
        | piece :: rest => String c piece :: rest
        | [] => [String c ""]
        end
  end.

(** [Array.prototype.slice(start)]: a negative [start] counts from the
    end, and both ends are clamped. *)
Definition Array_slice_from {A} (start : Z) (l : list A) : list A :=
  let len := Z.of_nat (length l) in
  let k := if start <? 0 then Z.max (len + start) 0 else Z.min start len in
  drop (Z.to_nat k) l.

(** [log.split("\n").map(sanitizeLogLine).filter((l) => l.length > 0)] *)
Definition logLinesOf (log : string) : list string :=
  List.filter (fun l => (0 <? String.length l)%nat) (map sanitizeLogLine (String_split Js.LF log)).

(** The callback of [setInterval] in [WorkflowRow]: the value it passes to
    [setLogLines]. ([readTextFileSync] reads like [readTextFile].) *)
Definition tailLog (workflow : string) (logHeight : Z) : IO (list string) :=
  try_catch
    (log <- readTextFile (logFile workflow) ;;
     let lines := logLinesOf log in
     (* Show exactly the number of lines that will fit *)
     let linesToShow := Z.max 1 (logHeight - 2) in
     ret (Array_slice_from (- linesToShow) lines))
    (fun _ => ret []).

(** Synchronous version for UI components *)
Definition wasWorkflowAbandonedSync (workflow : string) : IO bool :=
  try_catch
    (status <- readTextFile (statusFile workflow) ;;
     ret (String.eqb (Js.trim status) "RUNNING"))
    (fun _ => ret false).

(** The status a row shows: the trimmed text of the status file, PENDING
    when there is none. *)
Definition rowStatus (workflow : string) : IO string :=
  try_catch
    (status <- readTextFile (statusFile workflow) ;; ret (Js.trim status))
    (fun _ => ret "PENDING").

(** The glyphs of the rows; their code units lie above 255. *)
Inductive Icon :=
  | IconRunning   (* "🔄" *)
  | IconPass      (* "✅" *)
  | IconFail      (* "❌" *)
  | IconPause.    (* "⏸" *)

Definition statusIcon (status : string) : Icon :=
  if String.eqb status "RUNNING" then IconRunning
  else if String.eqb status "COMPLETED" then IconPass
  else if String.eqb status "FAILED" then IconFail
  else IconPause.

Definition resumeMarker (isResumed : bool) (status : string) : string :=
  if isResumed && String.eqb status "RUNNING" then " [RESUMED]" else "".

(** The icon of a project; no status of [getProjectStatus] is the
    ["❌ ERRORS"] the source also tests for. *)
Definition projectIcon (taskStatus : ProjectStatus) : Icon :=
  match taskStatus with
  | PASS => IconPass
  | RUNNING => IconRunning
  | PENDING => IconPause
  end.





Inductive Color := Red | Green | Yellow | Cyan | Gray.

(** [idx >= logLines.length - 15], for the line at [idx] among [count]. *)
Definition isRecent (idx count : Z) : bool := count - 15 <=? idx.

(** A line as the sequence of its UTF-16 code units: the glyphs of two of
    the patterns lie beyond the code units that an [ascii] can hold. *)
Definition units_of (s : string) : list N := map N_of_ascii (list_ascii_of_string s).

(** Whether the code unit [c] matches the pattern character [p] under the
    flag [i]: the two are equal, or [p] is a small ASCII letter and [c] its
    capital. Without the flag [u] no code unit beyond ASCII is canonicalized
    to an ASCII letter, and the two glyphs have no case. *)
Definition unit_matches (p c : N) : bool :=
  ((c =? p) || ((97 <=? p) && (p <=? 122) && (c =? p - 32)))%N.

Fixpoint matches_here (word line : list N) : bool :=
  match word, line with
  | [], _ => true
  | p :: word', c :: line' => unit_matches p c && matches_here word' line'
  | _ :: _, [] => false
  end.

(** [line.match(/word/i)] for a word without syntax characters, as a test. *)
Fixpoint matches_word (word line : list N) : bool :=
  matches_here word line
  || match line with
     | [] => false
     | _ :: line' => matches_word word line'
     end.

(** [line.match(/w1|w2|.../i)], as a test. *)
Definition mentions (words : list (list N)) (line : list N) : bool :=
  existsb (fun word => matches_word word line) words.

(** The two glyphs of the patterns, U+2717 and U+2713. *)
Definition HEAVY_BALLOT_X : N := 10007%N.
Definition CHECK_MARK : N := 10003%N.

(** The [color] of the line at [idx] among [count] lines; [None] is
    [undefined]. *)
Definition lineColor (idx count : Z) (line : list N) : option Color :=
  let color := if isRecent idx count then None else Some Gray in
  if mentions [units_of "error"; units_of "fail"; [HEAVY_BALLOT_X]] line then Some Red
  else if mentions [units_of "success"; units_of "pass"; [CHECK_MARK]; units_of "done";
                    units_of "completed"] line then Some Green
  else if mentions [units_of "warning"; units_of "warn"] line then Some Yellow
  else if mentions [units_of "running"; units_of "starting"; units_of "processing"] line
  then Some Cyan
  else color.

(** ** Dashboard: the rows it renders *)

Record RowProps := {
  row_workflow : string;
  row_isSelected : bool;
  row_isExpanded : bool;
  row_logHeight : Z
}.

(** [orderedWorkflows.map((workflow, idx) => <WorkflowRow ... />)], from
    index [idx]. *)
Fixpoint rowsFrom (rows : option Z) (workflows : list string) (st : DashboardState)
    (idx : nat) (ordered : list string) : list RowProps :=
  match ordered with
  | [] => []
  | workflow :: rest =>
      {| row_workflow := workflow;
         row_isSelected := Z.of_nat idx =? selectedIndex st;
         row_isExpanded := bool_decide (Some workflow ∈ expandedSet st);
         row_logHeight := logHeight rows workflows st workflow |}
      :: rowsFrom rows workflows st (S idx) rest
  end.

Definition dashboardRows (rows : option Z) (workflows : list string) (st : DashboardState)
    : list RowProps :=
  rowsFrom rows workflows st O (orderedWorkflows workflows).

(** The rows of log text the expanded rows ask for, all together. *)
Definition totalLogHeight (rows : list RowProps) : Z :=
  fold_right (fun row total => row_logHeight row + total) 0 rows.

(** [l.map(f)] for a callback with effects: in order, and what the callback
    throws ends the whole. *)
Fixpoint mapM {A B} (f : A -> IO B) (l : list A) : IO (list B) :=
  match l with
  | [] => ret []
  | x :: rest => y <- f x ;; ys <- mapM f rest ;; ret (y :: ys)
  end.

(** Get project statuses: the icons of [projectIcons], in the order of the
    projects (the row draws them with spaces between). *)
Definition projectIcons (JSON_parse : string -> option JsonValue)
    (RegExp_test : string -> string -> option bool)
    (projects : list string) (workflow : string) : IO (list Icon) :=
  mapM (fun project =>
          taskStatus <- getProjectStatus JSON_parse RegExp_test project workflow ;;
          ret (projectIcon taskStatus))
       projects.

(** ** The selection prompts

    [Deno.exit] ends the program where it is called: no [catch] sees it. A
    function that may call it ends with an outcome or with the end of the
    program. *)
Inductive halt (A : Type) :=
  | Done (r : outcome A)
  | Exit (code : Z).
Arguments Done {A} r.
Arguments Exit {A} code.

Definition Prog (A : Type) : Type := World -> halt A * World.

Definition run_io {A} (m : IO A) : Prog A :=
  fun w => let '(r, w') := m w in (Done r, w').

Definition Deno_exit {A} (code : Z) : Prog A := fun w => (Exit code, w).

Definition pret {A} (a : A) : Prog A := fun w => (Done (Ret a), w).

Definition pbind {A B} (m : Prog A) (k : A -> Prog B) : Prog B :=
  fun w =>
    match m w with
    | (Done (Ret a), w') => k a w'
    | (Done (Throw e), w') => (Done (Throw e), w')
    | (Exit code, w') => (Exit code, w')
    end.

Definition ptry_catch {A} (m : Prog A) (h : JsError -> Prog A) : Prog A :=
  fun w =>
    match m w with
    | (Done (Throw e), w') => h e w'
    | r => r
    end.

Declare Scope prog_scope.
Delimit Scope prog_scope with prog.
Notation "x <- m ;; k" := (pbind m (fun x => k))
  (at level 100, m at next level, right associativity) : prog_scope.
Notation "m ;;; k" := (pbind m (fun _ => k))
  (at level 100, right associativity) : prog_scope.

(** The values of the options of [Select.prompt]. *)
Inductive KeepChoice :=
  | Keep        (* "keep" *)
  | Reselect    (* "reselect" *)
  | ExitChoice. (* "exit" *)

(** [(l) => l.trim()] as the test of a [filter]: the empty string is the
    only string that is not truthy. *)
Definition nonblank (l : string) : bool := negb (String.eqb (Js.trim l) "").

(** [previous.split("\n").filter((l) => l.trim())] *)
Definition selection_lines (previous : string) : list string :=
  List.filter nonblank (String_split Js.LF previous).

(** [a.forEach(f)] *)
Fixpoint forEach {A} (f : A -> IO unit) (l : list A) : IO unit :=
  match l with
  | [] => ret tt
  | x :: rest => f x ;;; forEach f rest
  end.

(** The values of the options of the workflow check boxes. *)
Definition workflow_options : list string := ["type"; "build"; "test"; "lint"].

(** [selectWorkflowsWithCliffy]. The two prompts return what the user
    answers: [Select_prompt] one of the three choices, [Checkbox_prompt] the
    values that are ticked among the options it is given. The [try] block
    either returns from the function ([Some]) or is left ([None]). *)
Definition selectWorkflowsWithCliffy (Select_prompt : KeepChoice)
    (Checkbox_prompt : list string -> list string) : Prog (list string) :=
  (r <- ptry_catch
          ((* Check for previous selection *)
           previous <- run_io (readTextFile WORKFLOWS_FILE) ;;
           let previousList := Js.join ", " (selection_lines previous) in
           run_io (console_log ("Previously selected workflows:" ++ " " ++ previousList)) ;;;
           run_io (console_log "") ;;;
           let keepChoice := Select_prompt in
           match keepChoice with
           | ExitChoice => Deno_exit 0
           | Keep => pret (Some (selection_lines previous))
           | Reselect => pret None
           end)
          (fun _ => (* No previous selection *) pret None) ;;
   match r with
   | Some previous => pret previous
   | None =>
       let selected := Checkbox_prompt workflow_options in
       if (length selected =? 0)%nat then
         run_io (console_log "No workflows selected. Exiting.") ;;;
         Deno_exit 0
       else
         run_io (writeTextFile WORKFLOWS_FILE (Js.join nl selected)) ;;;
         pret selected
   end)%prog.

(** [selectProjectsWithCliffy] *)
Definition selectProjectsWithCliffy (Select_prompt : KeepChoice)
    (Checkbox_prompt : list string -> list string) (allProjects : list string)
    : Prog (list string) :=
  (r <- ptry_catch
          ((* Check for previous selection *)
           previous <- run_io (readTextFile PROJECTS_FILE) ;;
           let previousList := selection_lines previous in
           let count := length previousList in
           run_io (console_log ("Previously selected projects (" ++ decimal count ++ "):")) ;;;
           run_io (forEach (fun p => console_log ("  " ++ p)) (take 10 previousList)) ;;;
           (if (10 <? count)%nat
            then run_io (console_log ("  ... and " ++ decimal (count - 10) ++ " more"))
            else pret tt) ;;;
           run_io (console_log "") ;;;
           let keepChoice := Select_prompt in
           match keepChoice with
           | ExitChoice => Deno_exit 0
           | Keep => pret (Some previousList)
           | Reselect => pret None
           end)
          (fun _ => (* No previous selection *) pret None) ;;
   match r with
   | Some previous => pret previous
   | None =>
       let selected := Checkbox_prompt allProjects in
       if (length selected =? 0)%nat then
         run_io (console_log "No projects selected. Exiting.") ;;;
         Deno_exit 0
       else
         run_io (writeTextFile PROJECTS_FILE (Js.join nl selected)) ;;;
         pret selected
   end)%prog.

(** ** Project discovery

    The discovery functions only read: they run a command of the package
    manager and parse what it prints. What such a command prints belongs to
    the environment; so does whether it can be run at all. A promise of one
    of these functions is fulfilled with a list or rejected with an error of
    the runtime or with a [new Error(message)]. *)
Inductive Rejection :=
  | Runtime (e : JsError)
  | Error (message : string).

Inductive attempt (A : Type) :=
  | Fulfilled (a : A)
  | Rejected (r : Rejection).
Arguments Fulfilled {A} a.
Arguments Rejected {A} r.

(** What [await cmd.output()] gives: [success], and [stdout] decoded. *)
Record CommandOutput := {
  output_success : bool;
  output_stdout : string
}.

(** [a || b] on values that may be [undefined] ([None]). *)
Definition js_or (a b : option JsonValue) : option JsonValue :=
  match a with
  | Some v => if truthy v then a else b
  | None => b
  end.

(** [(name) => name !== null && name !== "."] *)
Definition is_workspace (name : option JsonValue) : bool :=
  match name with
  | Some JNull => false
  | Some (JString s) => negb (String.eqb s ".")
  | _ => true
  end.

(** [workspaces.map((ws) => ws.name)]: reading a property of [null]
    throws. *)
Fixpoint names_of (workspaces : list JsonValue) : outcome (list (option JsonValue)) :=
  match workspaces with
  | [] => Ret []
  | JNull :: _ => Throw (TypeError "Cannot read properties of null")
  | ws :: rest =>
      match names_of rest with
      | Ret names => Ret (get_field ws "name" :: names)
      | Throw e => Throw e
      end
  end.

(** [(name) => name && !name.startsWith(".")]: only a string has a
    [startsWith] to call. *)
Definition is_visible (name : option JsonValue) : outcome bool :=
  match name with
  | None => Ret false
  | Some v =>
      if truthy v then
        match v with
        | JString s => Ret (negb (Js.startsWith "." s))
        | _ => Throw (TypeError "name.startsWith is not a function")
        end
      else Ret false
  end.

(** [names.filter(is_visible)]; what is kept is a string. *)
Fixpoint visible_names (names : list (option JsonValue)) : outcome (list string) :=
  match names with
  | [] => Ret []
  | name :: rest =>
      match is_visible name with
      | Throw e => Throw e
      | Ret keep =>
          match visible_names rest with
          | Throw e => Throw e
          | Ret kept =>
              match name with
              | Some (JString s) => Ret (if keep then s :: kept else kept)
              | _ => Ret kept
              end
          end
      end
  end.

(** [Deno.stat] on the path of a file. *)
Definition stat (path : string) : IO unit :=
  fun w =>
    if denied (env w) OpRead path then (Throw (PermissionDenied path), w)
    else match files w !! path with
         | Some _ => (Ret tt, w)
         | None => (Throw (NotFound path), w)
         end.

Section Discovery.

(** [new Deno.Command(command, { args, ... }).output()]: the output of the
    command, or the error with which it cannot be started. *)
Variable Command_output : string -> list string -> outcome CommandOutput.

(** [JSON.parse]: the parsed value, or [None] for a [SyntaxError]. *)
Variable JSON_parse : string -> option JsonValue.

(** The callback of [map] in [getYarnWorkspaces]: [null] for a line that
    does not parse, and for the line [null], whose properties cannot be
    read. *)
Definition yarn_name (line : string) : option JsonValue :=
  match JSON_parse line with
  | None => Some JNull
  | Some JNull => Some JNull
  | Some json => js_or (get_field json "name") (get_field json "location")
  end.

(** Get projects from yarn workspaces *)
Definition getYarnWorkspaces : attempt (list (option JsonValue)) :=
  match Command_output "yarn" ["workspaces"; "list"; "--json"] with
  | Throw e => Rejected (Runtime e)
  | Ret output =>
      if negb (output_success output)
      then Rejected (Error "Failed to get yarn workspaces")
      else
        let text := output_stdout output in
        Fulfilled (List.filter is_workspace
                     (map yarn_name (List.filter nonblank (String_split Js.LF text))))
  end.

(** Get projects from pnpm workspaces *)
Definition getPnpmWorkspaces : attempt (list string) :=
  match Command_output "pnpm" ["list"; "-r"; "--depth"; "-1"; "--json"] with
  | Throw e => Rejected (Runtime e)
  | Ret output =>
      if negb (output_success output)
      then Rejected (Error "Failed to get pnpm workspaces")
      else
        let text := output_stdout output in
        match JSON_parse text with
        | None => Rejected (Runtime (SyntaxError "JSON.parse"))
        | Some (JArray workspaces) =>
            match names_of workspaces with
            | Throw e => Rejected (Runtime e)
            | Ret names =>
                match visible_names names with
                | Throw e => Rejected (Runtime e)
                | Ret kept => Fulfilled kept
                end
            end
        | Some JNull => Rejected (Runtime (TypeError "Cannot read properties of null"))
        | Some _ => Rejected (Runtime (TypeError "workspaces.map is not a function"))
        end
  end.

(** Get projects from NX (fallback) *)
Definition getNxProjects : attempt (list string) :=
  match Command_output "npx" ["nx"; "show"; "projects"] with
  | Throw e => Rejected (Runtime e)
  | Ret output =>
      if negb (output_success output)
      then Rejected (Error "Failed to get NX projects")
      else
        let text := output_stdout output in
        Fulfilled (List.filter (fun l => (0 <? String.length l)%nat)
                     (map Js.trim (String_split Js.LF text)))
  end.

(** The third [try] block of [getAllProjects]: [Some] when it returns from
    the function, [None] when it is left, by its end or by its [catch]. *)
Definition npm_attempt (getNpmWorkspaces : attempt (list (option JsonValue))) (w : World)
    : option (list (option JsonValue)) :=
  match fst (readTextFile "package.json" w) with
  | Throw _ => None
  | Ret text =>
      match JSON_parse text with
      | None => None
      | Some JNull => None
      | Some pkgJson =>
          match get_field pkgJson "workspaces" with
          | Some v =>
              if truthy v then
                match getNpmWorkspaces with
                | Fulfilled projects => Some projects
                | Rejected _ => None
                end
              else None
          | None => None
          end
      end
  end.

(** Detect workspace type and get all projects. [getNpmWorkspaces] stands
    for the promise of the function of that name. *)
Definition getAllProjects (getNpmWorkspaces : attempt (list (option JsonValue))) (w : World)
    : attempt (list (option JsonValue)) :=
  (* Check if we have yarn workspaces *)
  match (match fst (stat "yarn.lock" w) with
         | Ret _ => getYarnWorkspaces
         | Throw e => Rejected (Runtime e)
         end) with
  | Fulfilled projects => Fulfilled projects
  | Rejected _ =>
      (* Check if we have pnpm workspaces *)
      match (match fst (stat "pnpm-workspace.yaml" w) with
             | Ret _ => getPnpmWorkspaces
             | Throw e => Rejected (Runtime e)
             end) with
      | Fulfilled projects => Fulfilled (map (fun p => Some (JString p)) projects)
      | Rejected _ =>
          (* Check if we have npm workspaces *)
          match npm_attempt getNpmWorkspaces w with
          | Some projects => Fulfilled projects
          | None =>
              (* Fallback: try NX if available *)
              match getNxProjects with
              | Fulfilled projects => Fulfilled (map (fun p => Some (JString p)) projects)
              | Rejected _ =>
                  Rejected (Error "Could not detect workspace type. Ensure you have npm/yarn/pnpm workspaces or NX configured.")
              end
          end
      end
  end.

End Discovery.

(** ** Notions for the statements *)

(** Whether the status file of a workflow can be read and, trimmed, reads
    RUNNING. *)
Definition reads_running (workflow : string) (w : World) : bool :=
  match readTextFile (statusFile workflow) w with
  | (Ret status, _) => String.eqb (Js.trim status) "RUNNING"
  | (Throw _, _) => false
  end.

(** The arguments of a resumed and of a fresh conversation. *)
Definition resume_args : list string :=
  ["--resume"; "--allow-all-tools"; "--allow-all-paths"].

Definition fresh_args (workflow : string) (projects : list string) : list string :=
  ["-p"; buildWorkflowTodo workflow projects; "--allow-all-tools"; "--allow-all-paths"].

(** The arguments a session passes to the tool in a given world. *)
Definition session_args (workflow : string) (projects : list string) (w : World) : list string :=
  if reads_running workflow w then resume_args else fresh_args workflow projects.

(** The chunks of the two streams in the order of the schedule. *)
Fixpoint merge (schedule : list bool) (out err : list string) : list string :=
  match schedule with
  | [] => (out ++ err)%list
  | true :: rest =>
      match out with
      | c :: out' => c :: merge rest out' err
      | [] => merge rest [] err
      end
  | false :: rest =>
      match err with
      | c :: err' => c :: merge rest out err'
      | [] => merge rest out []
      end
  end.

(** The texts of a list, one behind the other. *)
Fixpoint concat_str (l : list string) : string :=
  match l with
  | [] => ""
  | x :: rest => x ++ concat_str rest
  end.

(** What a process adds to a log that takes writes. *)
Definition output (p : Proc) : string :=
  concat_str (merge (p_schedule p) (chunks (p_stdout p)) (chunks (p_stderr p))).

(** The text of a file, empty when there is none. *)
Definition text_of (path : string) (w : World) : string :=
  default "" (files w !! path).

(** A world in which the handle [rid] is [h] and the file [path] holds
    [content], and which is [w] otherwise. *)
Definition logging (rid : nat) (h : FsFile) (path content : string) (w : World) : World :=
  with_handles (<[rid := h]> (handles w)) (with_files (<[path := content]> (files w)) w).

(** A handle that writes behind [content]: open, on [path], and either in
    append mode or positioned at the end. *)
Definition at_end (h : FsFile) (path content : string) : Prop :=
  f_path h = path /\ f_open h = true
  /\ (f_append h = true \/ f_pos h = String.length content).

(** No handle is open in [w'] that was not already open in [w]. *)
Definition no_handle_leaked (w w' : World) : Prop :=
  forall rid h, handles w' !! rid = Some h -> f_open h = true -> handles w !! rid = Some h.

(** The lines that [buildWorkflowTodo] adds for the projects from index
    [idx] on. *)
Fixpoint todo_lines (workflow : string) (idx : nat) (projects : list string) : list string :=
  match projects with
  | [] => []
  | project :: rest => todo_line workflow idx project :: todo_lines workflow (S idx) rest
  end.

(** An open handle on [path] that stands behind [content]. *)
Definition cursor (path : string) (append : bool) (content : string) : FsFile :=
  {| f_path := path; f_append := append; f_pos := String.length content; f_open := true |}.

(** What a process adds to the log [path]: its output, or nothing when the
    writes through the handle are refused (each reader then ends at its
    first chunk). *)
Definition logged (w : World) (path : string) (p : Proc) : string :=
  if denied (env w) OpWrite path then "" else output p.

(** The chunks a reader has still to read. *)
Definition pend (r : option Stream) : list string :=
  match r with
  | Some s => chunks s
  | None => []
  end.

(** The handle [h], closed. *)
Definition shut (h : FsFile) : FsFile :=
  {| f_path := f_path h; f_append := f_append h; f_pos := f_pos h; f_open := false |}.

(** The status a session writes for a process that has exited. *)
Definition verdict (p : Proc) : string :=
  if success (p_code p) then "COMPLETED" else "FAILED".

(** The handle [Deno.open] hands out. *)
Definition fresh_handle (path : string) (a : bool) : FsFile :=
  {| f_path := path; f_append := a; f_pos := O; f_open := true |}.

(** The world with one more handle, just opened on [path]. *)
Definition opened (path : string) (a : bool) (w : World) : World :=
  with_handles (handles w ++ [fresh_handle path a])%list w.

(** The world with one more child, the tool started with [args]. *)
Definition spawned (args : list string) (w : World) : World :=
  with_children (children w ++ [("copilot" : string) :: args])%list w.

(** The world a session leaves once its process has exited: the log holds
    [c], its handle is closed, the clock has moved on by the run of the
    process. *)
Definition after_exit (rid : nat) (a : bool) (workflow c : string) (p : Proc) (w : World) : World :=
  logging rid (shut (cursor (logFile workflow) a c)) (logFile workflow) c
    (with_now (now w + p_duration p) w).

(** The log as a session finds it when its process starts. *)
Definition log_start (workflow : string) (w : World) : string :=
  if reads_running workflow w
  then text_of (logFile workflow) w ++ resume_marker (iso (env w) (now w))
  else "".

(** The world in which a session has spawned its process and opened its
    log. *)
Definition started (workflow : string) (projects : list string) (w : World) : World :=
  let a := reads_running workflow w in
  let w0 :=
    if a then w
    else with_files (<[promptFile workflow := buildWorkflowTodo workflow projects]>
                       (<[statusFile workflow := "RUNNING"]> (files w))) w in
  opened (logFile workflow) a (spawned (session_args workflow projects w) w0).

(** The end of a session whose process has been spawned in [base] and whose
    log holds [c] behind the handle [rid]. *)
Definition finish (workflow : string) (rid : nat) (a : bool) (c : string) (p : Proc)
    (base : World) : outcome bool * World :=
  let wl := after_exit rid a workflow (c ++ logged base (logFile workflow) p) p base in
  if denied (env base) OpWriteText (statusFile workflow)
  then (Throw (PermissionDenied (statusFile workflow)), wl)
  else (Ret (success (p_code p)),
        with_files (<[statusFile workflow := verdict p]> (files wl)) wl).

(** The files of a workflow that its session writes. *)
Definition owned (workflow path : string) : Prop :=
  path = statusFile workflow \/ path = logFile workflow \/ path = promptFile workflow.

(** The session calls [runAllWorkflows] starts, with their names. *)
Definition sessions (projects : list string) (selected : list string)
    : list (string * IO bool) :=
  map (fun workflow => (workflow, runWorkflowSession workflow projects)) selected.

(** The last code unit of a string. *)
Fixpoint last_char (s : string) : option ascii :=
  match s with
  | EmptyString => None
  | String c EmptyString => Some c
  | String _ s' => last_char s'
  end.

(** The file in which [runAllWorkflows] notes the abandoned workflows. *)
Definition resume_status_file : string := STATE_DIR ++ "/resume-status.txt".

(** What [runAllWorkflows] does from the launch of the sessions on, in the
    world [w1], with the snapshot it took on entry. *)
Definition join_sessions (projects snapshot : list string) (w1 : World) : outcome unit * World :=
  let '(rs, w2) := launch (now w1) (sessions projects (orderedWorkflows snapshot)) w1 in
  let w3 := with_arrays (meanwhile (env w2) <$> arrays w2) w2 in
  match first_rejection rs with
  | Some (t, e) => (Throw e, with_now t w3)
  | None =>
      let w4 := with_now (last_settlement (now w1) rs) w3 in
      if denied (env w4) OpWriteText WORKFLOWS_FILE
      then (Throw (PermissionDenied WORKFLOWS_FILE), w4)
      else (Ret tt, with_files (<[WORKFLOWS_FILE := Js.join nl snapshot]> (files w4)) w4)
  end.

(** The workflows whose status reads RUNNING in [w]. *)
Definition abandoned_in (w : World) (selected : list string) : list string :=
  List.filter (fun workflow => reads_running workflow w) selected.

(** A name that a selection file keeps: not blank, and on one line. *)
Definition storable (name : string) : Prop :=
  nonblank name = true
  /\ forallb (fun c => negb (Ascii.eqb c Js.LF)) (Js.chars name) = true.

(** The code unit [c] is the pattern character [p], or its capital. *)
Definition same_letter (p c : N) : Prop :=
  (c = p \/ (97 <= p <= 122 /\ c = p - 32))%N.

(** [word] occurs in [line], in either case of each of its letters. *)
Definition occurs (word line : list N) : Prop :=
  exists pre hit post, line = (pre ++ hit ++ post)%list /\ Forall2 same_letter word hit.

(** [c] and [d] are one code unit, or the two cases of one ASCII letter. *)
Definition same_but_case (c d : N) : Prop :=
  (c = d \/ (65 <= c <= 90 /\ d = c + 32) \/ (97 <= c <= 122 /\ d = c - 32))%N.

(** ** Worlds for the examples *)

(** An environment in which nothing is refused, no tool is installed and
    nobody else touches the arrays. *)
Definition quiet : Env :=
  {| denied := fun _ _ => false;
     tool := fun _ _ => None;
     iso := fun _ => "2025-10-31T00:00:00.000Z";
     meanwhile := fun a => a |}.

Definition world_of (e : Env) (fs : list (string * string)) : World :=
  {| env := e; files := list_to_map fs; handles := []; children := [];
     console := []; now := O; arrays := ∅; settled := [] |}.

(** [{"current_project":"web","current_task":2,"completed_projects":["api"]}] *)
Definition sample_progress_text : string :=
  "{" ++ dq ++ "current_project" ++ dq ++ ":" ++ dq ++ "web" ++ dq ++ ","
      ++ dq ++ "current_task" ++ dq ++ ":2,"
      ++ dq ++ "completed_projects" ++ dq ++ ":[" ++ dq ++ "api" ++ dq ++ "]}".

Definition sample_progress : JsonValue :=
  JObject [("current_project", JString "web");
           ("current_task", JNumber 2);
           ("completed_projects", JArray [JString "api"])].

(** The progress record of the example, and a log in which the tool reports
    on a project the record does not list. *)
Definition world_docs_logged : World :=
  world_of quiet [(progressFile "type", sample_progress_text);
                  (logFile "type", "Checking docs... all checks pass")].

(** The same record, and a log that mentions the project and no more. *)
Definition world_docs_started : World :=
  world_of quiet [(progressFile "type", sample_progress_text);
                  (logFile "type", "Checking Docs...")].

(** A progress file that is JSON but not a progress record. *)
Definition world_empty_record : World :=
  world_of quiet [(progressFile "type", "{}")].

(** A run of the tool: two chunks on stdout, one on stderr before the read
    of stderr fails, the stderr chunk arriving between the other two. *)
Definition sample_run (code : Z) (duration : nat) : Proc :=
  {| p_stdout := {| chunks := ["Checking web" ++ nl; "done" ++ nl]; ending := Eof |};
     p_stderr := {| chunks := ["warning: slow" ++ nl]; ending := ReadFails |};
     p_schedule := [true; false];
     p_code := code;
     p_duration := duration |}.

(** An environment in which the tool is installed and behaves as [p]. *)
Definition installed (p : Proc) : Env :=
  {| denied := fun _ _ => false;
     tool := fun _ _ => Some p;
     iso := fun _ => "2025-10-31T00:00:00.000Z";
     meanwhile := fun a => a |}.

(** A session of [type] left behind, with its log. *)
Definition world_abandoned : World :=
  world_of (installed (sample_run 1 7))
    [(statusFile "type", "RUNNING" ++ nl); (logFile "type", "earlier output" ++ nl)].

(** No session of [type] before, but a log from some older run. *)
Definition world_first_run : World :=
  world_of (installed (sample_run 0 7)) [(logFile "type", "stale" ++ nl)].

(** Three workflows selected, listed out of order; the first process to be
    spawned fails at once, the others run on and succeed. While
    [runAllWorkflows] waits, the caller appends to the array it passed. *)
Definition three_tools : Env :=
  {| denied := fun _ _ => false;
     tool := fun n _ => Some (if (n =? 0)%nat then sample_run 1 0 else sample_run 0 (5 + n));
     iso := fun _ => "2025-10-31T00:00:00.000Z";
     meanwhile := fun a => (a ++ ["test"])%list |}.

Definition world_three : World :=
  {| env := three_tools; files := ∅; handles := []; children := []; console := [];
     now := O; arrays := {[ O := ["lint"; "type"; "build"] ]}; settled := [] |}.

(** Two workflows selected; the status file of [type] cannot be written. *)
Definition status_locked : Env :=
  {| denied := fun op path =>
       match op with
       | OpWriteText => String.eqb path (statusFile "type")
       | _ => false
       end;
     tool := fun _ _ => Some (sample_run 0 7);
     iso := fun _ => "2025-10-31T00:00:00.000Z";
     meanwhile := fun a => a |}.

Definition world_locked : World :=
  {| env := status_locked; files := ∅; handles := []; children := []; console := [];
     now := O; arrays := {[ O := ["type"; "build"] ]}; settled := [] |}.

(** A log of [type] with a coloured line, a padded line, an empty line and a
    last line without a newline behind it. *)
Definition world_tail : World :=
  world_of quiet [(logFile "type",
                   sample_log_line ++ "  compiling  " ++ nl ++ nl ++ "2 errors")].

(** A tool that is not installed, and no session of [type] before. *)
Definition world_no_tool : World := world_of quiet [].

(** What the prompts of the examples answer: the first two options. *)
Definition first_two (options : list string) : list string := take 2 options.

(** Eleven projects selected in an earlier run. *)
Definition world_eleven : World :=
  world_of quiet
    [(PROJECTS_FILE,
      Js.join nl ["p1"; "p2"; "p3"; "p4"; "p5"; "p6"; "p7"; "p8"; "p9"; "p10"; "p11"])].

(** A machine on which only [npx] runs, and prints [text]. *)
Definition only_nx (text : string) : string -> list string -> outcome CommandOutput :=
  fun command _ =>
    if String.eqb command "npx"
    then Ret {| output_success := true; output_stdout := text |}
    else Throw (NotFound command).

(** A machine on which [yarn] fails and [pnpm] lists three packages, one of
    them hidden and one without a name. *)
Definition yarn_fails_pnpm_lists : string -> list string -> outcome CommandOutput :=
  fun command _ =>
    if String.eqb command "yarn"
    then Ret {| output_success := false; output_stdout := "" |}
    else if String.eqb command "pnpm"
    then Ret {| output_success := true;
                output_stdout :=
                  "[{" ++ dq ++ "name" ++ dq ++ ":" ++ dq ++ "web" ++ dq ++ "},"
                  ++ "{" ++ dq ++ "name" ++ dq ++ ":" ++ dq ++ ".cache" ++ dq ++ "},"
                  ++ "{" ++ dq ++ "path" ++ dq ++ ":" ++ dq ++ "tools" ++ dq ++ "}]" |}
    else Throw (NotFound command).

(** A machine on which [yarn] lists: the root by its name, a package, an
    empty line, a line that is no JSON, a record without a name at the
    root's place, and a package whose name is empty. *)
Definition yarn_lists : string -> list string -> outcome CommandOutput :=
  fun command _ =>
    if String.eqb command "yarn"
    then Ret {| output_success := true;
                output_stdout :=
                  Js.join nl
                    ["{" ++ dq ++ "location" ++ dq ++ ":" ++ dq ++ "." ++ dq ++ ","
                       ++ dq ++ "name" ++ dq ++ ":" ++ dq ++ "root" ++ dq ++ "}";
                     "{" ++ dq ++ "location" ++ dq ++ ":" ++ dq ++ "packages/web" ++ dq ++ ","
                       ++ dq ++ "name" ++ dq ++ ":" ++ dq ++ "web" ++ dq ++ "}";
                     "";
                     "Done in 0s";
                     "{" ++ dq ++ "location" ++ dq ++ ":" ++ dq ++ "." ++ dq ++ "}";
                     "{" ++ dq ++ "location" ++ dq ++ ":" ++ dq ++ "tools/x" ++ dq ++ ","
                       ++ dq ++ "name" ++ dq ++ ":" ++ dq ++ dq ++ "}";
                     ""] |}
    else Throw (NotFound command).

(** Both lock files are there. *)
Definition world_two_locks : World :=
  world_of quiet [("yarn.lock", ""); ("pnpm-workspace.yaml", "")].

(** A log that reports on a project whose name is no regular expression. *)
Definition world_plus : World := world_of quiet [(logFile "type", "c++ done")].

(** A session of [type] left behind, and a disk with no room left: the log
    can be opened, but every write to it is refused. *)
Definition log_full : Env :=
  {| denied := fun op path =>
       match op with
       | OpWrite => String.eqb path (logFile "type")
       | _ => false
       end;
     tool := fun _ _ => Some (sample_run 0 7);
     iso := fun _ => "2025-10-31T00:00:00.000Z";
     meanwhile := fun a => a |}.

Definition world_log_full : World :=
  world_of log_full
    [(statusFile "type", "RUNNING"); (logFile "type", "earlier output" ++ nl)].

(** * Properties *)

(** ** Text helpers *)

Lemma append_cons (x : ascii) (a b : string) : String x a ++ b = String x (a ++ b).
Proof. reflexivity. Qed.

Lemma append_empty_l (a : string) : "" ++ a = a.
Proof. reflexivity. Qed.

Lemma append_assoc (a b c : string) : (a ++ b) ++ c = a ++ (b ++ c).
Proof.
  induction a as [|x a IH]; [reflexivity |].
  rewrite !append_cons. now rewrite IH.
Qed.

Lemma append_empty_r (a : string) : a ++ "" = a.
Proof.
  induction a as [|x a IH]; [reflexivity |].
  rewrite append_cons. now rewrite IH.
Qed.

Lemma length_append (a b : string) :
  String.length (a ++ b) = (String.length a + String.length b)%nat.
Proof.
  induction a as [|x a IH]; [reflexivity |].
  rewrite append_cons. simpl. now rewrite IH.
Qed.

Lemma chars_app (s t : string) : Js.chars (s ++ t) = (Js.chars s ++ Js.chars t)%list.
Proof.
  induction s as [|c s IH]; [reflexivity |].
  rewrite append_cons. simpl. now rewrite IH.
Qed.

Lemma remove_class_none (cls : ascii -> bool) (s : string) :
  forallb (fun c => negb (cls c)) (Js.chars (Js.remove_class cls s)) = true.
Proof.
  induction s as [|c s IH]; simpl; [reflexivity |].
  destruct (cls c) eqn:E; simpl; [exact IH | now rewrite E].
Qed.

Lemma remove_class_keeps (P cls : ascii -> bool) (s : string) :
  forallb P (Js.chars s) = true ->
  forallb P (Js.chars (Js.remove_class cls s)) = true.
Proof.
  induction s as [|c s IH]; simpl; [trivial |].
  intros [Hc Hs]%andb_prop. destruct (cls c); simpl; [auto |].
  rewrite Hc. simpl. auto.
Qed.

Lemma remove_class_clean (cls : ascii -> bool) (s : string) :
  forallb (fun c => negb (cls c)) (Js.chars s) = true ->
  Js.remove_class cls s = s.
Proof.
  induction s as [|c s IH]; simpl; [trivial |].
  intros [Hc Hs]%andb_prop. apply negb_true_iff in Hc. rewrite Hc.
  now rewrite IH.
Qed.

Lemma trimStart_keeps (P : ascii -> bool) (s : string) :
  forallb P (Js.chars s) = true -> forallb P (Js.chars (Js.trimStart s)) = true.
Proof.
  induction s as [|c s IH]; simpl; [trivial |].
  intros H. destruct (Js.is_space c); [| exact H].
  apply andb_prop in H. tauto.
Qed.

Lemma trimEnd_keeps (P : ascii -> bool) (s : string) :
  forallb P (Js.chars s) = true -> forallb P (Js.chars (Js.trimEnd s)) = true.
Proof.
  induction s as [|c s IH]; simpl; [trivial |].
  intros [Hc Hs]%andb_prop. specialize (IH Hs).
  destruct (Js.trimEnd s) as [|d r].
  - destruct (Js.is_space c); simpl; [reflexivity | now rewrite Hc].
  - simpl in *. now rewrite Hc.
Qed.

Lemma trimEnd_idempotent (s : string) : Js.trimEnd (Js.trimEnd s) = Js.trimEnd s.
Proof.
  induction s as [|c s IH]; simpl; [reflexivity |].
  destruct (Js.trimEnd s) as [|d r] eqn:E.
  - destruct (Js.is_space c) eqn:Ec; simpl; [reflexivity | now rewrite Ec].
  - change (Js.trimEnd (String c (String d r))) with
      (match Js.trimEnd (String d r) with
       | EmptyString => if Js.is_space c then EmptyString else String c EmptyString
       | x => String c x
       end).
    now rewrite IH.
Qed.

Lemma trimEnd_head (c : ascii) (s : string) :
  Js.is_space c = false -> exists r, Js.trimEnd (String c s) = String c r.
Proof.
  intros Hc. simpl. destruct (Js.trimEnd s) as [|d r].
  - rewrite Hc. now exists "".
  - now exists (String d r).
Qed.

Lemma trimStart_head (s : string) :
  Js.trimStart s = "" \/
  exists c r, Js.trimStart s = String c r /\ Js.is_space c = false.
Proof.
  induction s as [|c s IH]; simpl; [now left |].
  destruct (Js.is_space c) eqn:E; [exact IH |].
  right. now exists c, s.
Qed.

Lemma trim_idempotent (s : string) : Js.trim (Js.trim s) = Js.trim s.
Proof.
  unfold Js.trim.
  destruct (trimStart_head s) as [-> | (c & r & -> & Hc)]; [reflexivity |].
  destruct (trimEnd_head c r Hc) as [r' E].
  rewrite E. simpl Js.trimStart. rewrite Hc. rewrite <- E.
  apply trimEnd_idempotent.
Qed.







Lemma other_control_escape (c : ascii) : other_control c = false -> Ascii.eqb c Js.ESC = false.
Proof.
  destruct (Ascii.eqb c Js.ESC) eqn:E; [| trivial].
  apply Ascii.eqb_eq in E. subst c. vm_compute. congruence.
Qed.

Lemma sanitize_clean (line : string) :
  forallb is_clean (Js.chars (sanitizeLogLine line)) = true.
Proof.
  unfold sanitizeLogLine, Js.trim.
  apply trimEnd_keeps, trimStart_keeps.
  set (a := Js.remove_class other_control _).
  assert (Ha : forallb (fun c => negb (other_control c)) (Js.chars a) = true)
    by apply remove_class_none.
  assert (Hb : forallb (fun c => negb (other_control c))
                 (Js.chars (Js.remove_class (Ascii.eqb Js.CR) a)) = true)
    by now apply remove_class_keeps.
  pose proof (remove_class_none (Ascii.eqb Js.CR) a) as Hc.
  apply forallb_forall. intros c Hin.
  rewrite forallb_forall in Hb, Hc.
  specialize (Hb c Hin). specialize (Hc c Hin).
  apply negb_true_iff in Hb, Hc.
  unfold is_clean.
  rewrite (other_control_escape c Hb), Hb, Ascii.eqb_sym, Hc. reflexivity.
Qed.


(** ** sanitizeLogLine, in terms of code units *)














Lemma append_last_inv (a b : string) (c d : ascii) :
  a ++ String c "" = b ++ String d "" -> a = b /\ c = d.
Proof.
  revert b. induction a as [|x a IH]; intros [|y b] H.
  - rewrite !append_empty_l in H. now injection H.
  - rewrite append_empty_l, append_cons in H. injection H as _ H. now destruct b.
  - rewrite append_empty_l, append_cons in H. injection H as _ H. now destruct a.
  - rewrite !append_cons in H. injection H as -> H.
    destruct (IH _ H) as [-> ->]. now split.
Qed.







(** ** Dashboard *)



Lemma at_index_inside (l : list string) (i : Z) :
  0 <= i < Z.of_nat (length l) ->
  exists w, at_index l i = Some w /\ w ∈ l.
Proof.
  intros Hi. unfold at_index.
  destruct (Z.ltb_spec i 0) as [Hneg | _]; [lia |].
  destruct (lookup_lt_is_Some_2 l (Z.to_nat i)) as [w Hw]; [lia |].
  exists w. split; [exact Hw |]. eapply list_elem_of_lookup_2. exact Hw.
Qed.

Lemma shown_member (workflows : list string) (w : string) :
  w ∈ orderedWorkflows workflows -> Some w ∈ shown workflows.
Proof.
  intros Hw. unfold shown. apply elem_of_list_to_set, list_elem_of_fmap.
  exists w. split; [reflexivity | exact Hw].
Qed.

Lemma shown_selected (workflows : list string) (workflow : string) :
  Some workflow ∈ shown workflows -> In workflow workflows /\ In workflow WORKFLOW_ORDER.
Proof.
  unfold shown. rewrite elem_of_list_to_set, list_elem_of_fmap.
  intros (w & Heq & Hin). injection Heq as ->.
  apply list_elem_of_In in Hin. unfold orderedWorkflows in Hin.
  apply filter_In in Hin as [Horder Hinc].
  split; [| exact Horder].
  unfold Array_includes in Hinc. apply existsb_exists in Hinc as (x & Hx & Heq).
  apply String.eqb_eq in Heq. now subst x.
Qed.

Lemma onInput_keeps_ok (workflows : list string) (input : string) (key : Key)
    (st : DashboardState) :
  orderedWorkflows workflows <> [] ->
  dashboard_ok workflows st -> dashboard_ok workflows (onInput workflows input key st).
Proof.
  intros Hne [Hidx Hsub].
  assert (Hn : 0 < Z.of_nat (length (orderedWorkflows workflows))).
  { destruct (orderedWorkflows workflows); [congruence | simpl; lia]. }
  unfold onInput.
  destruct (String.eqb input "q" || (ctrl key && String.eqb input "c")).
  { split; assumption. }
  destruct (upArrow key || String.eqb input "k").
  { split; [simpl; lia | exact Hsub]. }
  destruct (downArrow key || String.eqb input "j").
  { split; [simpl; lia | exact Hsub]. }
  destruct (at_index_inside _ _ Hidx) as (w & Hw & Hin).
  apply shown_member in Hin.
  destruct (String.eqb input " " || return_ key || String.eqb input "l").
  { split; [exact Hidx |]. simpl. rewrite Hw.
    case_bool_decide; set_solver. }
  destruct (String.eqb input "h").
  { split; [exact Hidx |]. simpl. set_solver. }
  destruct (String.eqb input "e").
  { split; [exact Hidx |]. simpl. unfold shown. set_solver. }
  destruct (String.eqb input "c").
  { split; [exact Hidx |]. simpl. set_solver. }
  split; assumption.
Qed.

Lemma press_keeps_ok (workflows : list string) (ev : string * Key) (st : DashboardState) :
  orderedWorkflows workflows <> [] ->
  dashboard_ok workflows st -> dashboard_ok workflows (press workflows ev st).
Proof.
  intros Hne Hok. unfold press. destruct (exited st); [exact Hok |].
  now apply onInput_keeps_ok.
Qed.

Lemma pressAll_keeps_ok (workflows : list string) (evs : list (string * Key))
    (st : DashboardState) :
  orderedWorkflows workflows <> [] ->
  dashboard_ok workflows st -> dashboard_ok workflows (pressAll workflows evs st).
Proof.
  intros Hne. unfold pressAll. revert st.
  induction evs as [|ev evs IH]; intros st Hok; simpl; [exact Hok |].
  apply IH. now apply press_keeps_ok.
Qed.

(** C8: over a list of workflows of which at least one is shown, every
    sequence of key events keeps the cursor an index of the ordered list and
    the expanded set within the shown workflows, which are selected ones.
    While the dashboard is mounted: up and down move the cursor by one and stop at the two ends,
    down from the last index stays there; space, enter and l flip the
    membership of the selected workflow and of no other; h removes it; e
    expands exactly the shown workflows and c none. *)
Theorem navigation_invariants (workflows : list string) :
  orderedWorkflows workflows <> [] ->
  let ordered := orderedWorkflows workflows in
  let last := Z.of_nat (length ordered) - 1 in
  (forall evs, dashboard_ok workflows (pressAll workflows evs initialState))
  /\ (forall workflow, Some workflow ∈ shown workflows ->
        In workflow workflows /\ In workflow WORKFLOW_ORDER)
  /\ (forall st, dashboard_ok workflows st -> exited st = false ->
      let moved ev := press workflows ev st in
      Forall (fun ev => selectedIndex (moved ev) = Z.max 0 (selectedIndex st - 1)
                        /\ expandedSet (moved ev) = expandedSet st) up_keys
      /\ Forall (fun ev => selectedIndex (moved ev) = Z.min last (selectedIndex st + 1)
                           /\ expandedSet (moved ev) = expandedSet st) down_keys
      /\ (selectedIndex st = last ->
          Forall (fun ev => selectedIndex (moved ev) = last) down_keys)
      /\ (selectedIndex st = 0 ->
          Forall (fun ev => selectedIndex (moved ev) = 0) up_keys)
      /\ (exists w, at_index ordered (selectedIndex st) = Some w /\ w ∈ ordered
          /\ Forall (fun ev =>
                 selectedIndex (moved ev) = selectedIndex st
                 /\ (Some w ∈ expandedSet (moved ev) <-> Some w ∉ expandedSet st)
                 /\ (forall x, x <> Some w ->
                       (x ∈ expandedSet (moved ev) <-> x ∈ expandedSet st))) toggle_keys
          /\ expandedSet (moved (letter "h")) = expandedSet st ∖ {[Some w]}
          /\ selectedIndex (moved (letter "h")) = selectedIndex st)
      /\ expandedSet (moved (letter "e")) = shown workflows
      /\ expandedSet (moved (letter "c")) = ∅).
Proof.
  intros Hne. cbv zeta. split.
  { intros evs. apply pressAll_keeps_ok; [exact Hne |].
    split; simpl; [| set_solver].
    destruct (orderedWorkflows workflows); [congruence | simpl; lia]. }
  split.
  { intros workflow Hin. apply shown_selected. exact Hin. }
  intros st [Hidx Hsub] Hex.
  destruct (at_index_inside _ _ Hidx) as (w & Hw & Hin).
  unfold press, up_keys, down_keys, toggle_keys, arrow_up, arrow_down, enter, letter.
  rewrite Hex. unfold onInput. simpl.
  repeat split; repeat constructor; simpl; try reflexivity; try lia.
  exists w. rewrite Hw.
  split; [reflexivity |]. split; [exact Hin |].
  split; [| split; reflexivity].
  repeat constructor; simpl; try (case_bool_decide; set_solver).
Qed.

Lemma navigation_invariants_witness :
  let workflows := ["lint"; "type"; "build"; "test"] in
  let st := pressAll workflows [arrow_down; letter "j"; arrow_down; letter " "] initialState in
  dashboard_ok workflows st
  /\ selectedIndex st = 3
  /\ selectedIndex (press workflows arrow_down st) = 3
  /\ expandedSet (press workflows (letter "e") st) = shown workflows.
Proof.
  cbv zeta.
  assert (Hne : orderedWorkflows ["lint"; "type"; "build"; "test"] <> []) by (vm_compute; congruence).
  destruct (navigation_invariants ["lint"; "type"; "build"; "test"] Hne) as (Hall & _ & Hstep).
  pose proof (Hall [arrow_down; letter "j"; arrow_down; letter " "]) as Hok.
  split; [exact Hok |].
  split; [reflexivity |].
  destruct (Hstep _ Hok eq_refl) as (_ & _ & Hlast & _ & _ & Hexp & _).
  split; [| exact Hexp].
  assert (Hat : selectedIndex
            (pressAll ["lint"; "type"; "build"; "test"]
               [arrow_down; letter "j"; arrow_down; letter " "] initialState)
          = Z.of_nat (length (orderedWorkflows ["lint"; "type"; "build"; "test"])) - 1)
    by reflexivity.
  specialize (Hlast Hat).
  apply Forall_inv in Hlast. exact Hlast.
Defined.

(** ** Status derivation *)

Lemma readTextFile_pure (path : string) (w : World) : snd (readTextFile path w) = w.
Proof.
  unfold readTextFile. destruct (denied (env w) OpRead path); [reflexivity |].
  destruct (files w !! path); reflexivity.
Qed.

Section StatusFacts.

Variable JSON_parse : string -> option JsonValue.
Variable RegExp_test : string -> string -> option bool.

Lemma getWorkflowProgress_parsed (workflow content : string) (v : JsonValue) (w : World) :
  readTextFile (progressFile workflow) w = (Ret content, w) ->
  JSON_parse content = Some v ->
  getWorkflowProgress JSON_parse workflow w = (Ret v, w).
Proof.
  intros Hread Hparse. unfold getWorkflowProgress, try_catch, bind.
  rewrite Hread, Hparse. reflexivity.
Qed.

(** The fallback never throws and leaves the world as it is. *)
Lemma statusFromLog_total (project workflow : string) (w : World) :
  exists status, statusFromLog RegExp_test project workflow w = (Ret status, w).
Proof.
  unfold statusFromLog, try_catch, bind.
  pose proof (readTextFile_pure (logFile workflow) w) as Hpure.
  destruct (readTextFile (logFile workflow) w) as [[log | e] w'];
    simpl in Hpure; subst w'; [| now eexists].
  destruct (Js.includes _ _); [| now eexists].
  destruct (RegExp_test _ log) as [[|] |]; now eexists.
Qed.

Lemma statusFromLog_silent (project workflow : string) (w : World) :
  match readTextFile (logFile workflow) w with
  | (Ret log, _) => Js.includes (Js.toLowerCase log) (Js.toLowerCase project) = false
  | (Throw _, _) => True
  end ->
  statusFromLog RegExp_test project workflow w = (Ret PENDING, w).
Proof.
  unfold statusFromLog, try_catch, bind.
  pose proof (readTextFile_pure (logFile workflow) w) as Hpure.
  destruct (readTextFile (logFile workflow) w) as [[log | e] w'];
    simpl in Hpure; subst w'; [| reflexivity].
  intros ->. reflexivity.
Qed.

End StatusFacts.

(** C3, as amended: with the progress record of the example, [api] is PASS
    and [web] is RUNNING whatever the log holds, and a project listed as
    completed is PASS whatever the current project is. For [docs] the record
    decides nothing and the log does: PENDING when the log cannot be read or
    does not mention [docs] in either case; and when it does, PASS if the
    log matches [docs.*(?:done|completed|pass)], RUNNING if it does not
    (and PENDING should the engine refuse the expression). *)
Theorem projectStatus_from_progress
    (JSON_parse : string -> option JsonValue) (RegExp_test : string -> string -> option bool)
    (w : World) (workflow content : string) :
  readTextFile (progressFile workflow) w = (Ret content, w) ->
  let status project := getProjectStatus JSON_parse RegExp_test project workflow w in
  (forall v project,
      JSON_parse content = Some v -> truthy v = true ->
      call_includes (get_field v "completed_projects") project = Ret true ->
      status project = (Ret PASS, w))
  /\ (JSON_parse content = Some sample_progress ->
      status "api" = (Ret PASS, w)
      /\ status "web" = (Ret RUNNING, w)
      /\ status "docs" = statusFromLog RegExp_test "docs" workflow w
      /\ (match readTextFile (logFile workflow) w with
          | (Ret log, _) => Js.includes (Js.toLowerCase log) "docs" = false
          | (Throw _, _) => True
          end -> status "docs" = (Ret PENDING, w))
      /\ (forall log,
            readTextFile (logFile workflow) w = (Ret log, w) ->
            Js.includes (Js.toLowerCase log) "docs" = true ->
            status "docs"
            = (Ret match RegExp_test "docs.*(?:done|completed|pass)" log with
                   | Some true => PASS
                   | Some false => RUNNING
                   | None => PENDING
                   end, w)))
  /\ progressFile workflow
     = "tools/gopher/.copilot-fix-state/progress/" ++ workflow ++ "-progress.json"
  /\ logFile workflow = "tools/gopher/.copilot-fix-state/logs/" ++ workflow ++ ".log"
  /\ sample_progress
     = JObject [("current_project", JString "web"); ("current_task", JNumber 2);
                ("completed_projects", JArray [JString "api"])].
Proof.
  intros Hread. cbv zeta. split; [| split; [| repeat split]].
  - intros v project Hparse Htruthy Hin.
    unfold getProjectStatus, bind.
    rewrite (getWorkflowProgress_parsed _ _ _ _ _ Hread Hparse), Htruthy, Hin.
    reflexivity.
  - intros Hparse.
    assert (Hdocs : getProjectStatus JSON_parse RegExp_test "docs" workflow w
                    = statusFromLog RegExp_test "docs" workflow w).
    { unfold getProjectStatus, bind.
      rewrite (getWorkflowProgress_parsed _ _ _ _ _ Hread Hparse). reflexivity. }
    split; [| split; [| split; [exact Hdocs | split]]].
    + unfold getProjectStatus, bind.
      rewrite (getWorkflowProgress_parsed _ _ _ _ _ Hread Hparse). reflexivity.
    + unfold getProjectStatus, bind.
      rewrite (getWorkflowProgress_parsed _ _ _ _ _ Hread Hparse). reflexivity.
    + intros Hlog. rewrite Hdocs. now apply statusFromLog_silent.
    + intros log Hlog Hmentions. rewrite Hdocs.
      unfold statusFromLog, try_catch, bind. rewrite Hlog.
      change (Js.toLowerCase "docs") with "docs". rewrite Hmentions.
      change ("docs" ++ ".*(?:done|completed|pass)") with "docs.*(?:done|completed|pass)".
      destruct (RegExp_test _ log) as [[|] |]; reflexivity.
Qed.

Lemma projectStatus_from_progress_witness :
  let status project w := getProjectStatus Sample.JSON_parse Sample.RegExp_test project "type" w in
  let w := world_of quiet [(progressFile "type", sample_progress_text)] in
  status "api" w = (Ret PASS, w) /\ status "web" w = (Ret RUNNING, w)
  /\ status "docs" w = (Ret PENDING, w)
  /\ status "docs" world_docs_logged = (Ret PASS, world_docs_logged)
  /\ status "docs" world_docs_started = (Ret RUNNING, world_docs_started).
Proof.
  cbv zeta.
  destruct (projectStatus_from_progress Sample.JSON_parse Sample.RegExp_test
              (world_of quiet [(progressFile "type", sample_progress_text)])
              "type" sample_progress_text eq_refl) as (_ & H & _).
  destruct (H eq_refl) as (Hapi & Hweb & _ & Hdocs & _).
  split; [exact Hapi |]. split; [exact Hweb |].
  split; [apply Hdocs; vm_compute; exact I |].
  split.
  - destruct (projectStatus_from_progress Sample.JSON_parse Sample.RegExp_test
                world_docs_logged "type" sample_progress_text eq_refl) as (_ & Hl & _).
    destruct (Hl eq_refl) as (_ & _ & _ & _ & Hlog).
    apply (Hlog "Checking docs... all checks pass"); reflexivity.
  - destruct (projectStatus_from_progress Sample.JSON_parse Sample.RegExp_test
                world_docs_started "type" sample_progress_text eq_refl) as (_ & Hl & _).
    destruct (Hl eq_refl) as (_ & _ & _ & _ & Hlog).
    apply (Hlog "Checking Docs..."); reflexivity.
Defined.

(** C3, as stated, fails: with the same progress record and a log that
    mentions [docs] before a completion word, [docs] is PASS, not PENDING. *)
Lemma docs_passes_from_log :
  readTextFile (progressFile "type") world_docs_logged
    = (Ret sample_progress_text, world_docs_logged)
  /\ Sample.JSON_parse sample_progress_text = Some sample_progress
  /\ getProjectStatus Sample.JSON_parse Sample.RegExp_test "docs" "type" world_docs_logged
     = (Ret PASS, world_docs_logged)
  /\ fst (getProjectStatus Sample.JSON_parse Sample.RegExp_test "docs" "type" world_docs_logged)
     <> Ret PENDING.
Proof.
  assert (H : getProjectStatus Sample.JSON_parse Sample.RegExp_test "docs" "type"
                world_docs_logged = (Ret PASS, world_docs_logged))
    by (vm_compute; reflexivity).
  repeat split; try (vm_compute; reflexivity); try exact H.
  rewrite H. simpl. discriminate.
Qed.

(** C4, at the failing input: a progress file holding [{}] parses, the
    parsed value has no [completed_projects], and the call of [includes] on
    it throws out of [getProjectStatus]. *)
Theorem getProjectStatus_throws_on_empty_record :
  Sample.JSON_parse "{}" = Some (JObject [])
  /\ fst (getProjectStatus Sample.JSON_parse Sample.RegExp_test "api" "type" world_empty_record)
     = Throw (TypeError "includes is not a function").
Proof. split; vm_compute; reflexivity. Qed.

(** ** The prompt *)

Lemma append_todo_lines_spec (workflow : string) (idx : nat) (projects : list string)
    (todo : string) :
  append_todo_lines workflow idx projects todo
  = todo ++ concat_str (todo_lines workflow idx projects).
Proof.
  revert idx todo. induction projects as [|p ps IH]; intros idx todo; simpl.
  - now rewrite append_empty_r.
  - rewrite IH. now rewrite append_assoc.
Qed.

Lemma todo_lines_length (workflow : string) (idx : nat) (projects : list string) :
  length (todo_lines workflow idx projects) = length projects.
Proof.
  revert idx. induction projects as [|p ps IH]; intros idx; simpl; [reflexivity |].
  now rewrite IH.
Qed.

Lemma todo_lines_lookup (workflow : string) (idx k : nat) (projects : list string)
    (project : string) :
  projects !! k = Some project ->
  todo_lines workflow idx projects !! k = Some (todo_line workflow (idx + k) project).
Proof.
  revert idx k. induction projects as [|p ps IH]; intros idx k H; [discriminate |].
  destruct k as [|k]; simpl in *.
  - injection H as ->. now rewrite Nat.add_0_r.
  - rewrite (IH (S idx) k H). f_equal. f_equal. lia.
Qed.

Lemma buildWorkflowTodo_shape (workflow : string) (projects : list string) :
  buildWorkflowTodo workflow projects
  = todo_header workflow ++ concat_str (todo_lines workflow O projects) ++ todo_footer.
Proof.
  unfold buildWorkflowTodo. rewrite append_todo_lines_spec. apply append_assoc.
Qed.

(** ** Running a session *)

Lemma wasWorkflowAbandoned_reads (workflow : string) (w : World) :
  wasWorkflowAbandoned workflow w = (Ret (reads_running workflow w), w).
Proof.
  unfold wasWorkflowAbandoned, reads_running, try_catch, bind.
  pose proof (readTextFile_pure (statusFile workflow) w) as Hpure.
  destruct (readTextFile (statusFile workflow) w) as [[status | e] w'];
    simpl in Hpure; subst w'; reflexivity.
Qed.

Lemma take_pad_all (c : string) : take_pad (String.length c) c = c.
Proof. induction c as [|x c IH]; simpl; [reflexivity | now rewrite IH]. Qed.

Lemma drop_str_beyond (c : string) (n : nat) : drop_str (String.length c + n) c = "".
Proof.
  induction c as [|x c IH]; simpl; [| exact IH].
  destruct n; reflexivity.
Qed.

Lemma overwrite_at_end (c data : string) :
  overwrite_at (String.length c) data c = c ++ data.
Proof.
  unfold overwrite_at. rewrite take_pad_all, drop_str_beyond.
  now rewrite append_empty_r.
Qed.

Lemma logging_again (rid : nat) (h h' : FsFile) (path c c' : string) (w : World) :
  logging rid h' path c' (logging rid h path c w) = logging rid h' path c' w.
Proof.
  unfold logging, with_handles, with_files. simpl.
  rewrite list_insert_insert_eq, insert_insert_eq. reflexivity.
Qed.

Lemma logging_handle (rid : nat) (h : FsFile) (path c : string) (w : World) :
  (rid < length (handles w))%nat ->
  handles (logging rid h path c w) !! rid = Some h.
Proof. intros H. simpl. now apply list_lookup_insert_eq. Qed.

Lemma logging_file (rid : nat) (h : FsFile) (path c : string) (w : World) :
  files (logging rid h path c w) !! path = Some c.
Proof. simpl. apply lookup_insert_eq. Qed.

Lemma write_logging (rid : nat) (h : FsFile) (path c data : string) (w : World) :
  (rid < length (handles w))%nat -> at_end h path c ->
  denied (env w) OpWrite path = false ->
  write rid data (logging rid h path c w)
  = (Ret tt, logging rid (cursor path (f_append h) (c ++ data)) path (c ++ data) w).
Proof.
  intros Hrid (Hpath & Hopen & Hpos) Hallowed.
  unfold write. rewrite (logging_handle _ _ _ _ _ Hrid).
  rewrite Hopen. cbn [negb].
  change (env (logging rid h path c w)) with (env w).
  rewrite Hpath, Hallowed, logging_file. cbn [default].
  rewrite <- (logging_again rid h _ path c (c ++ data) w).
  unfold logging at 2, cursor. f_equal.
  destruct (f_append h) eqn:Ha.
  - reflexivity.
  - destruct Hpos as [Hp | Hp]; [discriminate |].
    rewrite Hp, overwrite_at_end, length_append. reflexivity.
Qed.

Lemma write_logging_denied (rid : nat) (h : FsFile) (path c data : string) (w : World) :
  (rid < length (handles w))%nat -> at_end h path c ->
  denied (env w) OpWrite path = true ->
  write rid data (logging rid h path c w)
  = (Throw (PermissionDenied path), logging rid h path c w).
Proof.
  intros Hrid (Hpath & Hopen & Hpos) Hdenied.
  unfold write. rewrite (logging_handle _ _ _ _ _ Hrid).
  rewrite Hopen. cbn [negb].
  change (env (logging rid h path c w)) with (env w).
  rewrite Hpath, Hdenied. reflexivity.
Qed.

Lemma cursor_at_end (path : string) (a : bool) (c : string) : at_end (cursor path a c) path c.
Proof. split; [reflexivity |]. split; [reflexivity |]. now right. Qed.

Lemma concat_str_app (l k : list string) :
  concat_str (l ++ k)%list = concat_str l ++ concat_str k.
Proof.
  induction l as [|x l IH]; [reflexivity |].
  cbn [concat_str app]. rewrite IH. now rewrite append_assoc.
Qed.

Section Draining.

Variables (rid : nat) (path : string) (a : bool) (w : World).
Hypothesis Hrid : (rid < length (handles w))%nat.

(** The world in which the log holds [c] and the handle stands behind it. *)
Local Abbreviation at_log c := (logging rid (cursor path a c) path c w).

Lemma reader_turn_log (r : option Stream) (c : string) :
  denied (env w) OpWrite path = false ->
  exists r', reader_turn rid r (at_log c) = (Ret r', at_log (c ++ hd "" (pend r)))
             /\ pend r' = tl (pend r).
Proof.
  intros Hallowed.
  destruct r as [[[|x xs] e] |]; simpl.
  - exists None. rewrite append_empty_r.
    unfold reader_turn, try_catch, bind, read. simpl.
    destruct e; simpl; auto.
  - exists (Some {| chunks := xs; ending := e |}).
    unfold reader_turn, try_catch, bind, read, ret. simpl.
    rewrite (write_logging rid _ path c x w Hrid (cursor_at_end path a c) Hallowed).
    auto.
  - exists None. rewrite append_empty_r. auto.
Qed.

Lemma reader_turn_denied (r : option Stream) (c : string) :
  denied (env w) OpWrite path = true ->
  reader_turn rid r (at_log c) = (Ret None, at_log c).
Proof.
  intros Hdenied.
  destruct r as [[[|x xs] e] |]; simpl.
  - unfold reader_turn, try_catch, bind, read. simpl. destruct e; reflexivity.
  - unfold reader_turn, try_catch, bind, read, ret. simpl.
    now rewrite (write_logging_denied rid _ path c x w Hrid (cursor_at_end path a c) Hdenied).
  - reflexivity.
Qed.

Lemma reader_turns_log (n : nat) (r : option Stream) (c : string) :
  denied (env w) OpWrite path = false ->
  (length (pend r) <= n)%nat ->
  exists r', reader_turns n rid r (at_log c) = (Ret r', at_log (c ++ concat_str (pend r))).
Proof.
  intros Hallowed. revert r c.
  induction n as [|n IH]; intros r c Hlen.
  - destruct (pend r) eqn:E; [| simpl in Hlen; lia].
    exists r. simpl. now rewrite append_empty_r.
  - destruct (reader_turn_log r c Hallowed) as (r1 & Hturn & Hpend).
    destruct (IH r1 (c ++ hd "" (pend r))) as (r2 & Hturns).
    { rewrite Hpend. destruct (pend r); simpl in *; lia. }
    exists r2. cbn [reader_turns]. unfold bind at 1. rewrite Hturn, Hturns.
    assert (Hc : (c ++ hd "" (pend r)) ++ concat_str (pend r1) = c ++ concat_str (pend r))
      by (rewrite Hpend, append_assoc; destruct (pend r); reflexivity).
    now rewrite Hc.
Qed.

Lemma reader_finish_log (r : option Stream) (c : string) :
  denied (env w) OpWrite path = false ->
  reader_finish rid r (at_log c) = (Ret tt, at_log (c ++ concat_str (pend r))).
Proof.
  intros Hallowed. unfold reader_finish.
  destruct (reader_turns_log
              (match r with Some s => S (length (chunks s)) | None => O end)
              r c Hallowed) as (r' & Hturns).
  { destruct r; simpl; lia. }
  unfold bind. now rewrite Hturns.
Qed.

Lemma drain_log (schedule : list bool) (out err : option Stream) (c : string) :
  denied (env w) OpWrite path = false ->
  drain rid schedule out err (at_log c)
  = (Ret tt, at_log (c ++ concat_str (merge schedule (pend out) (pend err)))).
Proof.
  intros Hallowed. revert out err c.
  induction schedule as [|b rest IH]; intros out err c.
  - cbn [drain merge]. unfold bind.
    rewrite (reader_finish_log out c Hallowed), (reader_finish_log err _ Hallowed).
    now rewrite append_assoc, concat_str_app.
  - destruct b; cbn [drain merge].
    + destruct (reader_turn_log out c Hallowed) as (r1 & H1 & Hp).
      unfold bind at 1. rewrite H1, IH, Hp, append_assoc.
      destruct (pend out); reflexivity.
    + destruct (reader_turn_log err c Hallowed) as (r1 & H1 & Hp).
      unfold bind at 1. rewrite H1, IH, Hp, append_assoc.
      destruct (pend err); reflexivity.
Qed.

Lemma reader_turns_denied (n : nat) (r : option Stream) (c : string) :
  denied (env w) OpWrite path = true ->
  exists r', reader_turns n rid r (at_log c) = (Ret r', at_log c).
Proof.
  intros Hdenied. revert r.
  induction n as [|n IH]; intros r; [now exists r |].
  cbn [reader_turns]. unfold bind at 1.
  rewrite (reader_turn_denied r c Hdenied). apply IH.
Qed.

Lemma reader_finish_denied (r : option Stream) (c : string) :
  denied (env w) OpWrite path = true ->
  reader_finish rid r (at_log c) = (Ret tt, at_log c).
Proof.
  intros Hdenied. unfold reader_finish, bind.
  destruct (reader_turns_denied
              (match r with Some s => S (length (chunks s)) | None => O end)
              r c Hdenied) as [r1 ->].
  reflexivity.
Qed.

Lemma drain_denied (schedule : list bool) (out err : option Stream) (c : string) :
  denied (env w) OpWrite path = true ->
  drain rid schedule out err (at_log c) = (Ret tt, at_log c).
Proof.
  intros Hdenied. revert out err.
  induction schedule as [|b rest IH]; intros out err.
  - cbn [drain]. unfold bind.
    rewrite (reader_finish_denied out c Hdenied).
    apply (reader_finish_denied err c Hdenied).
  - destruct b; cbn [drain]; unfold bind at 1;
      rewrite (reader_turn_denied _ c Hdenied); apply IH.
Qed.

(** Draining a process, whether the log takes writes or not. *)
Lemma drain_process (p : Proc) (c : string) :
  drain rid (p_schedule p) (Some (p_stdout p)) (Some (p_stderr p)) (at_log c)
  = (Ret tt, at_log (c ++ logged w path p)).
Proof.
  unfold logged. destruct (denied (env w) OpWrite path) eqn:E.
  - rewrite append_empty_r. now apply drain_denied.
  - now apply drain_log.
Qed.

End Draining.

Lemma close_logging (rid : nat) (h : FsFile) (path c : string) (w : World) :
  (rid < length (handles w))%nat -> f_open h = true ->
  close rid (logging rid h path c w) = (Ret tt, logging rid (shut h) path c w).
Proof.
  intros Hrid Hopen. unfold close.
  rewrite (logging_handle _ _ _ _ _ Hrid), Hopen.
  unfold logging, with_handles, with_files, shut. simpl.
  rewrite list_insert_insert_eq. reflexivity.
Qed.

Lemma session_body (workflow : string) (p : Proc) (rid : nat) (a : bool) (c : string) (w : World) :
  (rid < length (handles w))%nat ->
  try_finally (supervise workflow p rid) (close rid)
    (logging rid (cursor (logFile workflow) a c) (logFile workflow) c w)
  = let wl := after_exit rid a workflow (c ++ logged w (logFile workflow) p) p w in
    if denied (env w) OpWriteText (statusFile workflow)
    then (Throw (PermissionDenied (statusFile workflow)), wl)
    else (Ret (success (p_code p)),
          with_files (<[statusFile workflow := verdict p]> (files wl)) wl).
Proof.
  intros Hrid. unfold try_finally, supervise, bind.
  rewrite (drain_process rid (logFile workflow) a w Hrid p c).
  set (c' := c ++ logged w (logFile workflow) p).
  unfold process_status.
  change (with_now _ (logging rid ?h ?path ?c w))
    with (logging rid h path c (with_now (now w + p_duration p) w)).
  set (w1 := with_now (now w + p_duration p) w).
  assert (Hrid1 : (rid < length (handles w1))%nat) by exact Hrid.
  unfold verdict, after_exit. fold w1.
  destruct (success (p_code p)); unfold writeTextFile, bind, ret;
    change (env (logging rid _ _ _ w1)) with (env w);
    destruct (denied (env w) OpWriteText (statusFile workflow)).
  all: unfold close; cbn [handles logging with_handles with_files];
    rewrite (list_lookup_insert_eq _ _ _ Hrid1); cbn [f_open cursor];
    unfold shut, cursor; cbn; rewrite list_insert_insert_eq; reflexivity.
Qed.

Lemma insert_last {A} (l : list A) (x y : A) : <[length l := x]> (l ++ [y])%list = (l ++ [x])%list.
Proof. rewrite insert_app_r_alt by lia. now rewrite Nat.sub_diag. Qed.

Lemma open_logging (path : string) (o : OpenOptions) (w : World) :
  denied (env w) OpOpen path = false -> o_create o = true ->
  open path o w
  = (Ret (length (handles w)),
     logging (length (handles w)) (fresh_handle path (o_append o)) path
       (if o_truncate o then "" else text_of path w) (opened path (o_append o) w)).
Proof.
  intros Hallowed Hcreate. unfold open, text_of. rewrite Hallowed, Hcreate.
  unfold logging, opened. cbn [handles files with_handles with_files].
  rewrite insert_last.
  destruct (files w !! path), (o_truncate o); reflexivity.
Qed.

Lemma prepare_cases (workflow : string) (projects : list string) (w : World) :
  prepare workflow projects w =
  let log := logFile workflow in
  let rid := length (handles w) in
  if reads_running workflow w then
    match tool (env w) (length (children w)) resume_args with
    | None => (Throw (NotFound "copilot"), w)
    | Some p =>
        let w1 := spawned resume_args w in
        if denied (env w) OpOpen log then (Throw (PermissionDenied log), w1)
        else
          let c := text_of log w in
          if denied (env w) OpWrite log
          then (Throw (PermissionDenied log),
                logging rid (fresh_handle log true) log c (opened log true w1))
          else
            let c' := c ++ resume_marker (iso (env w) (now w)) in
            (Ret (p, rid), logging rid (cursor log true c') log c' (opened log true w1))
    end
  else
    if denied (env w) OpWriteText (statusFile workflow)
    then (Throw (PermissionDenied (statusFile workflow)), w)
    else
      let w1 := with_files (<[statusFile workflow := "RUNNING"]> (files w)) w in
      if denied (env w) OpWriteText (promptFile workflow)
      then (Throw (PermissionDenied (promptFile workflow)), w1)
      else
        let w2 := with_files (<[promptFile workflow := buildWorkflowTodo workflow projects]>
                                (files w1)) w1 in
        match tool (env w) (length (children w)) (fresh_args workflow projects) with
        | None => (Throw (NotFound "copilot"), w2)
        | Some p =>
            let w3 := spawned (fresh_args workflow projects) w2 in
            if denied (env w) OpOpen log then (Throw (PermissionDenied log), w3)
            else (Ret (p, rid), logging rid (cursor log false "") log "" (opened log false w3))
        end.
Proof.
  cbv zeta. unfold prepare. unfold bind at 1.
  rewrite wasWorkflowAbandoned_reads.
  destruct (reads_running workflow w).
  - unfold bind at 1. unfold ret at 1. unfold bind at 1. unfold spawn.
    fold resume_args.
    destruct (tool (env w) (length (children w)) resume_args) as [p |]; [| reflexivity].
    fold (spawned resume_args w).
    unfold bind at 1. unfold open at 1.
    change (env (spawned resume_args w)) with (env w).
    destruct (denied (env w) OpOpen (logFile workflow)) eqn:Hopen; [reflexivity |].
    pose proof (open_logging (logFile workflow)
                  {| o_write := true; o_create := true; o_truncate := negb true; o_append := true |}
                  (spawned resume_args w) Hopen eq_refl) as Ho.
    unfold open in Ho. change (env (spawned resume_args w)) with (env w) in Ho.
    rewrite Hopen in Ho. rewrite Ho. clear Ho.
    cbn [o_append o_truncate negb].
    change (text_of (logFile workflow) (spawned resume_args w)) with (text_of (logFile workflow) w).
    change (length (handles (spawned resume_args w))) with (length (handles w)).
    unfold bind at 1. unfold bind at 1. unfold toISOString at 1.
    change (env (logging _ _ _ _ _)) with (env w).
    change (now (logging _ _ _ _ _)) with (now w).
    assert (Hrid : (length (handles w)
                    < length (handles (opened (logFile workflow) true (spawned resume_args w))))%nat).
    { simpl. rewrite length_app. simpl. lia. }
    assert (Hend : at_end (fresh_handle (logFile workflow) true) (logFile workflow)
                     (text_of (logFile workflow) w)).
    { split; [reflexivity |]. split; [reflexivity |]. now left. }
    destruct (denied (env w) OpWrite (logFile workflow)) eqn:Hwrite.
    + rewrite (write_logging_denied _ _ _ _ _ _ Hrid Hend Hwrite). reflexivity.
    + rewrite (write_logging _ _ _ _ _ _ Hrid Hend Hwrite). reflexivity.
  - unfold bind at 1. unfold bind at 1. unfold writeTextFile at 1.
    destruct (denied (env w) OpWriteText (statusFile workflow)); [reflexivity |].
    unfold bind at 1. unfold writeTextFile at 1.
    cbn [env with_files].
    destruct (denied (env w) OpWriteText (promptFile workflow)); [reflexivity |].
    unfold ret at 1. unfold bind at 1. unfold spawn.
    cbn [env children with_files].
    fold (fresh_args workflow projects).
    destruct (tool (env w) (length (children w)) (fresh_args workflow projects)) as [p |];
      [| reflexivity].
    set (w3 := with_children _ _).
    unfold bind at 1. unfold open at 1.
    change (env w3) with (env w).
    destruct (denied (env w) OpOpen (logFile workflow)) eqn:Hopen; [reflexivity |].
    pose proof (open_logging (logFile workflow)
                  {| o_write := true; o_create := true; o_truncate := negb false; o_append := false |}
                  w3 Hopen eq_refl) as Ho.
    unfold open in Ho. change (env w3) with (env w) in Ho.
    rewrite Hopen in Ho. rewrite Ho. clear Ho.
    reflexivity.
Qed.

Lemma session_after_prepare (workflow : string) (projects : list string) (w : World)
    (p : Proc) (rid : nat) (w1 : World) :
  prepare workflow projects w = (Ret (p, rid), w1) ->
  let a := reads_running workflow w in
  let c := log_start workflow w in
  rid = length (handles w)
  /\ tool (env w) (length (children w)) (session_args workflow projects w) = Some p
  /\ denied (env w) OpOpen (logFile workflow) = false
  /\ (a = true -> denied (env w) OpWrite (logFile workflow) = false)
  /\ (a = false -> denied (env w) OpWriteText (statusFile workflow) = false
                  /\ denied (env w) OpWriteText (promptFile workflow) = false)
  /\ w1 = logging rid (cursor (logFile workflow) a c) (logFile workflow) c
            (started workflow projects w)
  /\ runWorkflowSession workflow projects w
     = finish workflow rid a c p (started workflow projects w).
Proof.
  intros Hprep. cbv zeta.
  assert (Hrun : runWorkflowSession workflow projects w
                 = try_finally (supervise workflow p rid) (close rid) w1).
  { unfold runWorkflowSession, bind. now rewrite Hprep. }
  rewrite Hrun. clear Hrun.
  rewrite prepare_cases in Hprep. cbv zeta in Hprep.
  unfold log_start, started, session_args.
  destruct (reads_running workflow w) eqn:Ha.
  - destruct (tool (env w) (length (children w)) resume_args) as [p0 |] eqn:Htool;
      [| discriminate].
    destruct (denied (env w) OpOpen (logFile workflow)) eqn:Hopen; [discriminate |].
    destruct (denied (env w) OpWrite (logFile workflow)) eqn:Hwrite; [discriminate |].
    injection Hprep as -> <- <-.
    repeat split; try reflexivity; try discriminate.
    apply session_body. simpl. rewrite length_app. simpl. lia.
  - destruct (denied (env w) OpWriteText (statusFile workflow)) eqn:Hst; [discriminate |].
    destruct (denied (env w) OpWriteText (promptFile workflow)) eqn:Hpr; [discriminate |].
    destruct (tool (env w) (length (children w)) (fresh_args workflow projects))
      as [p0 |] eqn:Htool; [| discriminate].
    destruct (denied (env w) OpOpen (logFile workflow)) eqn:Hopen; [discriminate |].
    injection Hprep as -> <- <-.
    repeat split; try reflexivity; try discriminate.
    apply session_body. simpl. rewrite length_app. simpl. lia.
Qed.

(** When [prepare] throws, so does the session, in the same world. *)
Lemma session_when_prepare_throws (workflow : string) (projects : list string) (w : World)
    (e : JsError) (w1 : World) :
  prepare workflow projects w = (Throw e, w1) ->
  runWorkflowSession workflow projects w = (Throw e, w1).
Proof. intros H. unfold runWorkflowSession, bind. now rewrite H. Qed.

Lemma suffix_distinct (dir workflow s t : string) :
  s <> t -> dir ++ "/" ++ workflow ++ s <> dir ++ "/" ++ workflow ++ t.
Proof.
  intros Hne H. apply Hne.
  apply (inj (String.app dir)) in H.
  apply (inj (String.app "/")) in H.
  now apply (inj (String.app workflow)) in H.
Qed.

Lemma log_not_status (workflow : string) : logFile workflow <> statusFile workflow.
Proof. apply suffix_distinct. discriminate. Qed.

Lemma log_not_prompt (workflow : string) : logFile workflow <> promptFile workflow.
Proof. apply suffix_distinct. discriminate. Qed.

Lemma status_not_prompt (workflow : string) : statusFile workflow <> promptFile workflow.
Proof. apply suffix_distinct. discriminate. Qed.

Ltac frame_files :=
  cbn [files env arrays settled console now children handles
       logging after_exit opened spawned started
       with_files with_handles with_children with_now];
  rewrite ?lookup_insert_ne by congruence.

Lemma session_frame (workflow : string) (projects : list string) (w : World) :
  let w' := snd (runWorkflowSession workflow projects w) in
  env w' = env w /\ arrays w' = arrays w /\ settled w' = settled w
  /\ console w' = console w /\ (now w <= now w')%nat
  /\ (forall path, path <> statusFile workflow -> path <> logFile workflow ->
        path <> promptFile workflow -> files w' !! path = files w !! path)
  /\ (reads_running workflow w = true ->
        files w' !! promptFile workflow = files w !! promptFile workflow).
Proof.
  cbv zeta.
  pose proof (log_not_prompt workflow) as Hlp.
  pose proof (status_not_prompt workflow) as Hsp.
  destruct (prepare workflow projects w) as [[[p rid] | e] w1] eqn:Hprep.
  - destruct (session_after_prepare _ _ _ _ _ _ Hprep) as (_ & _ & _ & _ & _ & _ & ->).
    unfold finish, after_exit, started.
    destruct (reads_running workflow w);
      cbn [env opened spawned with_handles with_children with_files];
      destruct (denied (env w) OpWriteText (statusFile workflow)); cbn [snd];
      repeat split; try reflexivity; try (simpl; lia);
      try (intros path H1 H2 H3; frame_files; reflexivity);
      try (intros _; frame_files; reflexivity); try discriminate.
  - rewrite (session_when_prepare_throws _ _ _ _ _ Hprep). cbn [snd].
    rewrite prepare_cases in Hprep. cbv zeta in Hprep.
    destruct (reads_running workflow w);
      repeat match type of Hprep with
        | context [match tool ?e ?n ?a with _ => _ end] => destruct (tool e n a)
        | context [if denied ?e ?o ?q then _ else _] => destruct (denied e o q)
        end;
      try discriminate; injection Hprep as _ <-;
      repeat split; try reflexivity; try (simpl; lia);
      try (intros path H1 H2 H3; frame_files; reflexivity);
      try (intros _; frame_files; reflexivity); try discriminate.
Qed.

Lemma prepare_succeeds (workflow : string) (projects : list string) (w : World) :
  (forall op path, denied (env w) op path = false) ->
  forall p, tool (env w) (length (children w)) (session_args workflow projects w) = Some p ->
  exists w1, prepare workflow projects w = (Ret (p, length (handles w)), w1).
Proof.
  intros Hfree p Htool. rewrite prepare_cases. cbv zeta.
  unfold session_args in Htool. rewrite !Hfree.
  destruct (reads_running workflow w); rewrite Htool; eexists; reflexivity.
Qed.

Lemma started_handles (workflow : string) (projects : list string) (w : World) :
  handles (started workflow projects w)
  = (handles w ++ [fresh_handle (logFile workflow) (reads_running workflow w)])%list.
Proof. unfold started. destruct (reads_running workflow w); reflexivity. Qed.

Lemma started_children (workflow : string) (projects : list string) (w : World) :
  children (started workflow projects w)
  = (children w ++ [("copilot" : string) :: session_args workflow projects w])%list.
Proof. unfold started. destruct (reads_running workflow w); reflexivity. Qed.

Lemma started_env (workflow : string) (projects : list string) (w : World) :
  env (started workflow projects w) = env w.
Proof. unfold started. destruct (reads_running workflow w); reflexivity. Qed.

Lemma concat_str_fold (l : list string) : concat_str l = fold_right String.append "" l.
Proof. induction l as [|x l IH]; [reflexivity |]. simpl. now rewrite IH. Qed.

(** C1: the session decides from the status file. If its trimmed text is
    RUNNING the tool gets the resume flag and no instruction text, the log is
    opened in append mode and holds, once the process is under way, its
    former text followed by the resume marker with the time stamp, before
    anything the process prints; the status and prompt files are not
    written. Otherwise the status file is set to RUNNING, the prompt, which
    has one numbered line per project, is saved and passed to the tool, and
    the log is opened empty, not in append mode. The resume marker is two
    newlines, a rule of eighty [=], the line [RESUMING WORKFLOW AT] with the
    time stamp, the rule again and two newlines. The prompt is the text of
    the template, with the workflow's name in the two paths of the progress
    file and its action and instructions under [WORKFLOW:] and
    [Instructions:], then the numbered lines, then the request for a
    summary report; the action and the instructions are those of the two
    tables, and read [undefined] for a workflow the tables do not list. *)
Theorem session_resumes_or_starts (workflow : string) (projects : list string) (w : World) :
  let LF := String "010"%char "" in
  let DQ := String "034"%char "" in
  let log := logFile workflow in
  let resume := reads_running workflow w in
  let args := session_args workflow projects w in
  wasWorkflowAbandoned workflow w = (Ret resume, w)
  /\ args = (if resume then ["--resume"; "--allow-all-tools"; "--allow-all-paths"]
            else ["-p"; buildWorkflowTodo workflow projects;
                  "--allow-all-tools"; "--allow-all-paths"])
  /\ log_start workflow w
     = (if resume then text_of log w ++ resume_marker (iso (env w) (now w)) else "")
  /\ (forall p rid w1,
        prepare workflow projects w = (Ret (p, rid), w1) ->
        tool (env w) (length (children w)) args = Some p
        /\ children w1 = (children w ++ [("copilot" : string) :: args])%list
        /\ rid = length (handles w)
        /\ handles w1 = (handles w ++ [cursor log resume (log_start workflow w)])%list
        /\ files w1 !! log = Some (log_start workflow w)
        /\ (if resume
            then files w1 !! statusFile workflow = files w !! statusFile workflow
                 /\ files w1 !! promptFile workflow = files w !! promptFile workflow
            else files w1 !! statusFile workflow = Some "RUNNING"
                 /\ files w1 !! promptFile workflow
                    = Some (buildWorkflowTodo workflow projects)))
  /\ (forall b w',
        runWorkflowSession workflow projects w = (Ret b, w') ->
        exists p, tool (env w) (length (children w)) args = Some p
          /\ files w' !! log = Some (log_start workflow w ++ logged w log p)
          /\ (resume = true -> logged w log p = output p))
  /\ ((forall op path, denied (env w) op path = false) ->
      forall p, tool (env w) (length (children w)) args = Some p ->
      exists w1, prepare workflow projects w = (Ret (p, length (handles w)), w1))
  /\ buildWorkflowTodo workflow projects
     = todo_header workflow ++ concat_str (todo_lines workflow O projects) ++ todo_footer
  /\ length (todo_lines workflow O projects) = length projects
  /\ (forall k project,
        projects !! k = Some project ->
        todo_lines workflow O projects !! k
        = Some ("  " ++ decimal (k + 1) ++ ". "
                ++ interpolate (lookup_record WORKFLOW_ACTIONS workflow)
                ++ " in " ++ project ++ nl))
  /\ (forall timestamp,
        resume_marker timestamp
        = LF ++ LF
          ++ "================================================================================"
          ++ LF ++ "RESUMING WORKFLOW AT " ++ timestamp ++ LF
          ++ "================================================================================"
          ++ LF ++ LF)
  /\ (let action := interpolate (lookup_record WORKFLOW_ACTIONS workflow) in
      let instructions := interpolate (lookup_record WORKFLOW_INSTRUCTIONS workflow) in
      buildWorkflowTodo workflow projects
      = ("You are a code quality automation expert. You have a structured TODO list to complete." ++
       LF ++ LF ++ "EXECUTION RULES:" ++ LF ++
       "1. Complete tasks in the EXACT order listed below" ++ LF ++
       "2. For each task, run the command, analyze output, and fix any issues found" ++ LF ++
       "3. After completing a task, mark it as DONE and move to the next" ++ LF ++
       "4. Report progress after completing each task" ++ LF ++
       "5. If a task passes with no errors, mark it DONE and proceed immediately" ++ LF ++
       "6. Work continuously without waiting for confirmation" ++ LF ++ LF ++
       "PROGRESS TRACKING:" ++ LF ++
       "IMPORTANT - Before starting each task, create/update a progress file to help the dashboard track your work:" ++
       LF ++ "- Create: " ++ "tools/gopher/.copilot-fix-state/progress" ++ "/" ++ workflow ++
       "-progress.json" ++ LF ++ "- Format: {" ++ DQ ++ "current_project" ++ DQ ++ ": " ++
       DQ ++ "project-name" ++ DQ ++ ", " ++ DQ ++ "current_task" ++ DQ ++ ": N, " ++ DQ ++
       "completed_projects" ++ DQ ++ ": [" ++ DQ ++ "proj1" ++ DQ ++ ", " ++ DQ ++ "proj2" ++
       DQ ++ "]}" ++ LF ++ "- Update this file BEFORE starting each new project" ++ LF ++
       "- Example: echo '{" ++ DQ ++ "current_project" ++ DQ ++ ": " ++ DQ ++
       "vulnerability-management" ++ DQ ++ ", " ++ DQ ++ "current_task" ++ DQ ++ ": 1, " ++
       DQ ++ "completed_projects" ++ DQ ++ ": []}' > " ++
       "tools/gopher/.copilot-fix-state/progress" ++ "/" ++ workflow ++ "-progress.json" ++
       LF ++ "- When a project completes successfully, add it to completed_projects array" ++
       LF ++ "- This allows the dashboard to show real-time progress accurately" ++ LF ++ LF ++
       "WORKFLOW: " ++ action ++ LF ++ "Instructions: " ++ instructions ++ LF ++ LF ++
       "TODO LIST:" ++ LF)
        ++ fold_right String.append "" (todo_lines workflow O projects)
        ++ (LF ++ "After completing ALL tasks above, create a summary report showing:" ++ LF ++
       "- Which projects had issues that were fixed" ++ LF ++
       "- Which projects passed all checks" ++ LF ++
       "- Any remaining issues that need manual attention" ++ LF))
  /\ interpolate (lookup_record WORKFLOW_ACTIONS "test") = "fix the tests"
  /\ interpolate (lookup_record WORKFLOW_ACTIONS "lint") = "fix all linting errors"
  /\ interpolate (lookup_record WORKFLOW_ACTIONS "type") = "fix all TypeScript type errors"
  /\ interpolate (lookup_record WORKFLOW_ACTIONS "build") = "fix all build errors"
  /\ interpolate (lookup_record WORKFLOW_INSTRUCTIONS "test")
     = "TODO"
  /\ interpolate (lookup_record WORKFLOW_INSTRUCTIONS "lint")
     = "You are a linting expert. PROCESS: 1) Run the lint command (e.g. 'npx nx lint <project>'), 2) Read all error output, 3) Fix ALL errors you can identify (unused imports, missing deps, etc), 4) Run lint again to verify. Work QUICKLY - don't ask questions, just fix the issues following the ESLint rules. Avoid disabling rules unless absolutely necessary."
  /\ interpolate (lookup_record WORKFLOW_INSTRUCTIONS "type")
     = "You are a TypeScript expert. PROCESS: 1) Run type check (e.g. 'npx nx type-check <project>' or 'tsc --noEmit'), 2) Read all error output, 3) Fix ALL type errors you can identify (add types, handle nulls, etc), 4) Run type check again to verify. Work QUICKLY - don't ask questions, just fix the issues. Avoid using 'any' or '@ts-ignore' unless absolutely necessary."
  /\ interpolate (lookup_record WORKFLOW_INSTRUCTIONS "build")
     = "You are a build expert. PROCESS: 1) Run build (e.g. 'npx nx build <project>'), 2) Read all error output carefully, 3) Fix ALL errors you find (missing imports/index files, wrong paths, missing deps), 4) Run build again to verify. Work QUICKLY and DIRECTLY - don't ask questions, just fix the issues. For import errors, find the correct file path or create missing index.js files. For missing dependencies, install them."
  /\ interpolate (lookup_record WORKFLOW_ACTIONS "deploy") = "undefined"
  /\ todo_lines "lint" O (List.repeat "p" 12) !! 11%nat
     = Some ("  12. fix all linting errors in p" ++ LF).
Proof.
  cbv zeta.
  pose proof (log_not_status workflow) as Hls.
  pose proof (log_not_prompt workflow) as Hlp.
  pose proof (status_not_prompt workflow) as Hsp.
  split; [apply wasWorkflowAbandoned_reads |].
  split; [reflexivity |]. split; [reflexivity |].
  split; [| split; [| split; [| split; [| split]]]].
  - intros p rid w1 Hprep.
    destruct (session_after_prepare _ _ _ _ _ _ Hprep)
      as (Hrid & Htool & _ & _ & _ & Hw1 & _).
    split; [exact Htool |]. subst w1.
    split; [apply started_children |].
    split; [exact Hrid |].
    split.
    { cbn [handles logging with_handles with_files].
      rewrite started_handles, Hrid. apply insert_last. }
    split; [apply logging_file |].
    unfold started. destruct (reads_running workflow w); frame_files.
    + split; reflexivity.
    + split; rewrite ?lookup_insert_ne by congruence; apply lookup_insert_eq.
  - intros b w' Hrun.
    destruct (prepare workflow projects w) as [[[p rid] | e] w1] eqn:Hprep.
    + destruct (session_after_prepare _ _ _ _ _ _ Hprep)
        as (Hrid & Htool & _ & Hwrite & _ & _ & Hfin).
      exists p. split; [exact Htool |].
      rewrite Hfin in Hrun. unfold finish in Hrun.
      rewrite started_env in Hrun. unfold logged in *. rewrite started_env in Hrun.
      split.
      * destruct (denied (env w) OpWriteText (statusFile workflow)); [discriminate |].
        injection Hrun as _ <-. unfold after_exit. frame_files.
        apply lookup_insert_eq.
      * intros Hres. now rewrite (Hwrite Hres).
    + rewrite (session_when_prepare_throws _ _ _ _ _ Hprep) in Hrun. discriminate.
  - apply prepare_succeeds.
  - apply buildWorkflowTodo_shape.
  - apply todo_lines_length.
  - split; [intros k project Hk; apply (todo_lines_lookup workflow O k projects project Hk) |].
    split; [intros timestamp; reflexivity |].
    split.
    { rewrite buildWorkflowTodo_shape, concat_str_fold.
      unfold todo_header, todo_footer. cbn [Js.join].
      rewrite !append_assoc. reflexivity. }
    repeat split; reflexivity.
Qed.

Lemma session_resumes_or_starts_witness :
  exists w1,
    prepare "type" ["web"; "api"] world_abandoned
    = (Ret (sample_run 1 7, O), w1)
    /\ children w1 = [["copilot"; "--resume"; "--allow-all-tools"; "--allow-all-paths"]]
    /\ todo_lines "type" O ["web"; "api"] !! 1%nat
       = Some ("  2. fix all TypeScript type errors in api" ++ nl).
Proof.
  destruct (session_resumes_or_starts "type" ["web"; "api"] world_abandoned)
    as (_ & _ & _ & Hprep & _ & Hlive & _ & _ & Hline & _).
  destruct (Hlive (fun _ _ => eq_refl) (sample_run 1 7) eq_refl) as [w1 Hw1].
  exists w1. split; [exact Hw1 |].
  destruct (Hprep _ _ _ Hw1) as (_ & Hchildren & _).
  split; [exact Hchildren |].
  exact (Hline 1%nat "api" eq_refl).
Defined.

Lemma finish_handles (workflow : string) (projects : list string) (w : World)
    (a : bool) (c : string) (p : Proc) :
  handles (snd (finish workflow (length (handles w)) a c p (started workflow projects w)))
  = (handles w ++ [shut (cursor (logFile workflow) a
                           (c ++ logged w (logFile workflow) p))])%list.
Proof.
  unfold finish. rewrite started_env.
  assert (Hl : logged (started workflow projects w) (logFile workflow) p
               = logged w (logFile workflow) p)
    by (unfold logged; now rewrite started_env).
  rewrite Hl.
  destruct (denied (env w) OpWriteText (statusFile workflow));
    cbn [snd]; unfold after_exit;
    cbn [handles logging with_handles with_files with_now];
    rewrite started_handles; apply insert_last.
Qed.

Lemma no_leak_after_close (l : list FsFile) (h : FsFile) (w w' : World) :
  handles w = l -> handles w' = (l ++ [shut h])%list -> no_handle_leaked w w'.
Proof.
  intros Hw Hw' rid g Hlook Hopen. rewrite Hw'  in Hlook. rewrite Hw.
  destruct (Nat.lt_ge_cases rid (length l)) as [Hlt | Hge].
  - now rewrite lookup_app_l in Hlook.
  - rewrite lookup_app_r in Hlook by exact Hge.
    destruct (rid - length l)%nat; simpl in Hlook; [| discriminate Hlook].
    injection Hlook as <-. discriminate Hopen.
Qed.

(** The orderly exits of a session. Once the process has exited, the
    session writes COMPLETED and returns true for exit code zero, writes
    FAILED and returns false for any other, so a session that returns never
    leaves RUNNING behind. From the
    moment the process is spawned and the log is open, every way out (the
    two returns, an error thrown by the status write, readers that fail)
    leaves the log handle closed and no handle open that was not open
    before. *)
Theorem session_settles_status (workflow : string) (projects : list string) (w : World) :
  let run := runWorkflowSession workflow projects w in
  let args := session_args workflow projects w in
  (forall code, success code = true <-> code = 0)
  /\ (forall b, fst run = Ret b ->
        exists p, tool (env w) (length (children w)) args = Some p
          /\ b = success (p_code p)
          /\ files (snd run) !! statusFile workflow
             = Some (if b then "COMPLETED" else "FAILED")
          /\ files (snd run) !! statusFile workflow <> Some "RUNNING"
          /\ no_handle_leaked w (snd run))
  /\ (forall p rid w1,
        prepare workflow projects w = (Ret (p, rid), w1) ->
        (exists h, handles w1 !! rid = Some h
                   /\ f_open h = true /\ f_path h = logFile workflow)
        /\ (exists h, handles (snd run) !! rid = Some h
                      /\ f_open h = false /\ f_path h = logFile workflow)
        /\ no_handle_leaked w (snd run)
        /\ fst run = (if denied (env w) OpWriteText (statusFile workflow)
                      then Throw (PermissionDenied (statusFile workflow))
                      else Ret (success (p_code p)))
        /\ (denied (env w) OpWriteText (statusFile workflow) = false ->
            files (snd run) !! statusFile workflow
            = Some (if success (p_code p) then "COMPLETED" else "FAILED"))).
Proof.
  cbv zeta.
  assert (Hafter : forall p rid w1,
    prepare workflow projects w = (Ret (p, rid), w1) ->
    (exists h, handles w1 !! rid = Some h
               /\ f_open h = true /\ f_path h = logFile workflow)
    /\ (exists h, handles (snd (runWorkflowSession workflow projects w)) !! rid = Some h
                  /\ f_open h = false /\ f_path h = logFile workflow)
    /\ no_handle_leaked w (snd (runWorkflowSession workflow projects w))
    /\ fst (runWorkflowSession workflow projects w)
       = (if denied (env w) OpWriteText (statusFile workflow)
          then Throw (PermissionDenied (statusFile workflow))
          else Ret (success (p_code p)))
    /\ (denied (env w) OpWriteText (statusFile workflow) = false ->
        files (snd (runWorkflowSession workflow projects w)) !! statusFile workflow
        = Some (if success (p_code p) then "COMPLETED" else "FAILED"))).
  { intros p rid w1 Hprep.
    destruct (session_after_prepare _ _ _ _ _ _ Hprep)
      as (Hrid & Htool & _ & _ & _ & Hw1 & Hfin).
    rewrite Hfin. subst rid.
    split.
    { eexists. subst w1. split; [apply logging_handle | split; reflexivity]. rewrite started_handles, length_app. simpl. lia. }
    split.
    { eexists. rewrite finish_handles.
      split; [rewrite lookup_app_r by lia; rewrite Nat.sub_diag; reflexivity
             | split; reflexivity]. }
    split.
    { eapply no_leak_after_close; [reflexivity | apply finish_handles]. }
    unfold finish. rewrite started_env.
    destruct (denied (env w) OpWriteText (statusFile workflow)); [split; [reflexivity | discriminate] |].
    split; [reflexivity |]. intros _. cbn [snd files with_files].
    rewrite lookup_insert_eq. reflexivity. }
  split.
  { intros code. unfold success. apply Z.eqb_eq. }
  split; [| exact Hafter].
  intros b Hret.
  destruct (prepare workflow projects w) as [[[p rid] | e] w1] eqn:Hprep.
  - destruct (session_after_prepare _ _ _ _ _ _ Hprep) as (_ & Htool & _).
    destruct (Hafter p rid w1 eq_refl) as (_ & _ & Hleak & Hfst & Hst).
    exists p. split; [exact Htool |].
    rewrite Hfst in Hret.
    destruct (denied (env w) OpWriteText (statusFile workflow)); [discriminate |].
    injection Hret as <-.
    split; [reflexivity |]. rewrite (Hst eq_refl).
    split; [reflexivity |]. split; [| exact Hleak].
    destruct (success (p_code p)); discriminate.
  - rewrite (session_when_prepare_throws _ _ _ _ _ Hprep) in Hret. discriminate.
Qed.

Lemma session_settles_status_witness :
  fst (runWorkflowSession "type" ["web"] world_abandoned) = Ret false
  /\ files (snd (runWorkflowSession "type" ["web"] world_abandoned)) !! statusFile "type"
     = Some "FAILED"
  /\ no_handle_leaked world_abandoned (snd (runWorkflowSession "type" ["web"] world_abandoned)).
Proof.
  destruct (session_settles_status "type" ["web"] world_abandoned) as (_ & _ & Hafter).
  destruct (prepare_succeeds "type" ["web"] world_abandoned (fun _ _ => eq_refl)
              (sample_run 1 7) eq_refl) as [w1 Hw1].
  destruct (Hafter _ _ _ Hw1) as (_ & _ & Hleak & Hfst & Hst).
  split; [exact Hfst |]. split; [exact (Hst eq_refl) | exact Hleak].
Defined.

(** What a session that returns has written. *)
Lemma returned_session_files (workflow : string) (projects : list string) (w : World)
    (b : bool) :
  fst (runWorkflowSession workflow projects w) = Ret b ->
  files (snd (runWorkflowSession workflow projects w)) !! statusFile workflow
  = Some (if b then "COMPLETED" else "FAILED")
  /\ is_Some (files (snd (runWorkflowSession workflow projects w)) !! logFile workflow).
Proof.
  intros Hret.
  pose proof (log_not_status workflow) as Hls.
  destruct (prepare workflow projects w) as [[[p rid] | e] w1] eqn:Hprep.
  - destruct (session_after_prepare _ _ _ _ _ _ Hprep) as (_ & _ & _ & _ & _ & _ & Hfin).
    rewrite Hfin in *. unfold finish in *. rewrite started_env in *.
    destruct (denied (env w) OpWriteText (statusFile workflow)); [discriminate |].
    cbn [fst snd] in *. injection Hret as <-.
    unfold verdict, after_exit. split; frame_files.
    + now rewrite lookup_insert_eq.
    + rewrite lookup_insert_eq. eexists; reflexivity.
  - rewrite (session_when_prepare_throws _ _ _ _ _ Hprep) in Hret. discriminate.
Qed.

(** The [try] block starts behind the write of the resume marker: when that
    write is refused the session throws with the log handle still open. *)
Remark refused_marker_leaves_handle_open (workflow : string) (projects : list string)
    (w : World) (p : Proc) :
  reads_running workflow w = true ->
  tool (env w) (length (children w)) resume_args = Some p ->
  denied (env w) OpOpen (logFile workflow) = false ->
  denied (env w) OpWrite (logFile workflow) = true ->
  fst (runWorkflowSession workflow projects w) = Throw (PermissionDenied (logFile workflow))
  /\ handles (snd (runWorkflowSession workflow projects w)) !! length (handles w)
     = Some (fresh_handle (logFile workflow) true).
Proof.
  intros Hres Htool Hopen Hwrite.
  assert (Hprep : prepare workflow projects w
                  = (Throw (PermissionDenied (logFile workflow)),
                     logging (length (handles w)) (fresh_handle (logFile workflow) true)
                       (logFile workflow) (text_of (logFile workflow) w)
                       (opened (logFile workflow) true (spawned resume_args w)))).
  { rewrite prepare_cases. cbv zeta. now rewrite Hres, Htool, Hopen, Hwrite. }
  rewrite (session_when_prepare_throws _ _ _ _ _ Hprep).
  split; [reflexivity |]. cbn [snd].
  apply logging_handle. simpl. rewrite length_app. simpl. lia.
Qed.

(** C2, at the failing input: the session of [type] is resumed, the log is
    opened, and the write of the resume marker, which stands before the
    [try] block, is refused. The session throws and the handle it opened
    stays open: no [finally] covers that write. *)
Theorem refused_marker_leaks_handle :
  let w := world_log_full in
  let run := runWorkflowSession "type" ["web"] w in
  wasWorkflowAbandoned "type" w = (Ret true, w)
  /\ fst run = Throw (PermissionDenied (logFile "type"))
  /\ handles w = []
  /\ handles (snd run)
     = [{| f_path := logFile "type"; f_append := true; f_pos := O; f_open := true |}]
  /\ ~ no_handle_leaked w (snd run)
  /\ children (snd run) = [["copilot"; "--resume"; "--allow-all-tools"; "--allow-all-paths"]]
  /\ files (snd run) !! statusFile "type" = Some "RUNNING".
Proof.
  cbv zeta.
  assert (Hhandles : handles (snd (runWorkflowSession "type" ["web"] world_log_full))
            = [{| f_path := logFile "type"; f_append := true; f_pos := O; f_open := true |}])
    by (vm_compute; reflexivity).
  split; [vm_compute; reflexivity |].
  split; [vm_compute; reflexivity |].
  split; [reflexivity |].
  split; [exact Hhandles |].
  split.
  { intros Hnone.
    specialize (Hnone O _ (f_equal (fun l => l !! O) Hhandles) eq_refl).
    discriminate Hnone. }
  split; vm_compute; reflexivity.
Qed.

(** ** The footprint of a session *)

(** C6, as amended: a session changes no file but the status file, the log
    and the prompt file of its workflow, and the prompt file only on a
    fresh start; it prints nothing on the console; and when it returns it
    has written the status file and the log. *)
Theorem session_footprint (workflow : string) (projects : list string) (w : World) :
  let run := runWorkflowSession workflow projects w in
  (forall path,
      path <> statusFile workflow -> path <> logFile workflow ->
      path <> promptFile workflow ->
      files (snd run) !! path = files w !! path)
  /\ (reads_running workflow w = true ->
      files (snd run) !! promptFile workflow = files w !! promptFile workflow)
  /\ console (snd run) = console w
  /\ (forall b, fst run = Ret b ->
        files (snd run) !! statusFile workflow = Some (if b then "COMPLETED" else "FAILED")
        /\ is_Some (files (snd run) !! logFile workflow)).
Proof.
  cbv zeta.
  destruct (session_frame workflow projects w) as (_ & _ & _ & Hconsole & _ & Hframe & Hprompt).
  split; [exact Hframe |]. split; [exact Hprompt |]. split; [exact Hconsole |].
  intros b Hret.
  destruct (returned_session_files workflow projects w b Hret) as [Hst Hlog].
  split; assumption.
Qed.

Lemma session_footprint_witness :
  files (snd (runWorkflowSession "type" ["web"] world_abandoned)) !! logFile "lint"
  = files world_abandoned !! logFile "lint"
  /\ files (snd (runWorkflowSession "type" ["web"] world_abandoned)) !! promptFile "type"
     = None.
Proof.
  destruct (session_footprint "type" ["web"] world_abandoned) as (Hframe & Hprompt & _).
  split.
  - apply Hframe; vm_compute; discriminate.
  - rewrite Hprompt; reflexivity.
Defined.

(** C6, as stated, fails: a fresh session of [type] changes a third file,
    the prompt file, which is neither the status file nor the log. *)
Lemma fresh_session_writes_prompt :
  let w := world_first_run in
  let w' := snd (runWorkflowSession "type" ["web"] w) in
  files w !! promptFile "type" = None
  /\ files w' !! promptFile "type" = Some (buildWorkflowTodo "type" ["web"])
  /\ ~ (forall path, path <> statusFile "type" -> path <> logFile "type" ->
          files w' !! path = files w !! path).
Proof.
  cbv zeta.
  assert (Hbefore : files world_first_run !! promptFile "type" = None)
    by (vm_compute; reflexivity).
  assert (Hafter : files (snd (runWorkflowSession "type" ["web"] world_first_run))
                     !! promptFile "type" = Some (buildWorkflowTodo "type" ["web"])).
  { vm_compute. reflexivity. }
  split; [exact Hbefore |]. split; [exact Hafter |].
  intros Hall.
  specialize (Hall (promptFile "type")
                (fun H => status_not_prompt "type" (eq_sym H))
                (fun H => log_not_prompt "type" (eq_sym H))).
  rewrite Hbefore, Hafter in Hall. discriminate.
Qed.

(** ** Running all sessions *)

Lemma last_char_append (a : string) (c : ascii) (s : string) :
  last_char (a ++ String c s) = last_char (String c s).
Proof.
  induction a as [|x a IH]; [reflexivity |].
  rewrite append_cons. cbn [last_char]. rewrite IH.
  destruct (a ++ String c s) eqn:E; [| reflexivity].
  destruct a; discriminate E.
Qed.

Lemma append_inv_tail (a b s : string) : a ++ s = b ++ s -> a = b.
Proof.
  revert b. induction a as [|x a IH]; intros [|y b] H.
  - reflexivity.
  - apply (f_equal String.length) in H. rewrite !length_append in H. simpl in H. lia.
  - apply (f_equal String.length) in H. rewrite !length_append in H. simpl in H. lia.
  - rewrite !append_cons in H. injection H as -> H. f_equal. now apply IH.
Qed.

Lemma workflow_file_inj (dir a b s t : string) :
  dir ++ "/" ++ a ++ s = dir ++ "/" ++ b ++ t -> a ++ s = b ++ t.
Proof.
  intros H. apply (inj (String.app dir)) in H. now apply (inj (String.app "/")) in H.
Qed.

Lemma status_owned_by (a b : string) : owned b (statusFile a) -> a = b.
Proof.
  intros [H | [H | H]]; apply workflow_file_inj in H.
  - now apply append_inv_tail in H.
  - apply (f_equal last_char) in H. rewrite !last_char_append in H. discriminate.
  - apply (f_equal last_char) in H. rewrite !last_char_append in H. discriminate.
Qed.

Lemma collect_abandoned_reads (selected acc : list string) (w : World) :
  collect_abandoned selected acc w
  = (Ret (acc ++ List.filter (fun workflow => reads_running workflow w) selected)%list, w).
Proof.
  revert acc. induction selected as [|wf rest IH]; intros acc; simpl.
  - now rewrite app_nil_r.
  - unfold bind. rewrite wasWorkflowAbandoned_reads, IH.
    destruct (reads_running wf w); [| reflexivity].
    now rewrite <- app_assoc.
Qed.

Lemma launch_sessions (t0 : nat) (projects selected : list string) :
  forall (w : World) (rs : list (nat * outcome bool)) (w' : World),
  NoDup selected ->
  launch t0 (sessions projects selected) w = (rs, w') ->
  env w' = env w /\ arrays w' = arrays w /\ console w' = console w
  /\ length rs = length selected
  /\ settled w' = (settled w ++ zip selected (map fst rs))%list
  /\ Forall (fun r => (t0 <= fst r)%nat) rs
  /\ (forall path, (forall workflow, workflow ∈ selected -> ~ owned workflow path) ->
        files w' !! path = files w !! path)
  /\ (forall (i : nat) (workflow : string) (t : nat) (b : bool),
        selected !! i = Some workflow -> rs !! i = Some (t, Ret b) ->
        files w' !! statusFile workflow = Some (if b then "COMPLETED" else "FAILED")).
Proof.
  induction selected as [|wf rest IH]; intros w rs w' Hnd Hl.
  - simpl in Hl. injection Hl as <- <-.
    repeat split; try reflexivity.
    + simpl. now rewrite app_nil_r.
    + constructor.
    + intros i workflow t b H. discriminate H.
  - cbn [sessions map launch] in Hl.
    pose proof (session_frame wf projects (with_now t0 w))
      as (Henv & Harr & Hset & Hcon & Hnow & Hframe & _).
    pose proof (returned_session_files wf projects (with_now t0 w)) as Hst.
    destruct (runWorkflowSession wf projects (with_now t0 w)) as [r w1].
    cbn [fst snd] in *.
    fold (sessions projects rest) in Hl.
    destruct (launch t0 (sessions projects rest)
                (with_settled (settled w1 ++ [(wf, now w1)])%list w1)) as [rs' w2] eqn:Hrest.
    injection Hl as <- <-.
    apply NoDup_cons in Hnd as [Hnotin Hnd].
    destruct (IH _ _ _ Hnd Hrest) as (Henv2 & Harr2 & Hcon2 & Hlen & Hset2 & Htimes & Hframe2 & Hst2).
    cbn [env arrays console settled files now with_settled with_now] in *.
    split; [congruence |]. split; [congruence |]. split; [congruence |].
    split; [simpl; congruence |].
    split.
    { rewrite Hset2, Hset. cbn [map fst zip zip_with settled with_now].
      now rewrite <- app_assoc. }
    split; [constructor; [exact Hnow | exact Htimes] |].
    split.
    { intros path Hfree. rewrite Hframe2.
      - apply Hframe; intros ->; apply (Hfree wf); try (left; reflexivity);
          unfold owned; auto.
      - intros workflow Hin. apply Hfree. now right. }
    intros [|i] workflow t b Hsel Hrs; simpl in Hsel, Hrs.
    + injection Hsel as <-. injection Hrs as <- ->.
      rewrite Hframe2; [apply Hst; reflexivity |].
      intros workflow Hin Hown. apply status_owned_by in Hown. subst workflow.
      contradiction.
    + eapply Hst2; eassumption.
Qed.

Lemma runAllWorkflows_cases (workflows : nat) (projects : list string) (w : World) :
  runAllWorkflows workflows projects w =
  let snapshot := default [] (arrays w !! workflows) in
  let abandoned := abandoned_in w (orderedWorkflows snapshot) in
  if (0 <? length abandoned)%nat then
    if denied (env w) OpWriteText resume_status_file
    then (Throw (PermissionDenied resume_status_file), w)
    else join_sessions projects snapshot
           (with_files (<[resume_status_file :=
                            "Resuming abandoned workflows: " ++ Js.join ", " abandoned ++ nl]>
                          (files w)) w)
  else join_sessions projects snapshot w.
Proof.
  cbv zeta. unfold runAllWorkflows.
  unfold bind at 1. unfold slice, array_contents at 1.
  unfold bind at 1. unfold array_contents at 1.
  unfold bind at 1. rewrite collect_abandoned_reads. cbn [app].
  fold (abandoned_in w (orderedWorkflows (default [] (arrays w !! workflows)))).
  assert (Hjoin : forall w1,
    bind (Promise_all (map (fun workflow => (workflow, runWorkflowSession workflow projects))
                         (orderedWorkflows (default [] (arrays w !! workflows)))))
         (fun _ => writeTextFile WORKFLOWS_FILE (Js.join nl (default [] (arrays w !! workflows)))) w1
    = join_sessions projects (default [] (arrays w !! workflows)) w1).
  { intros w1. unfold bind, Promise_all, join_sessions, suspended, sessions.
    destruct (launch (now w1) _ w1) as [rs w2].
    destruct (first_rejection rs) as [[t e] |]; [reflexivity |].
    unfold writeTextFile. reflexivity. }
  destruct (0 <? length _)%nat.
  - unfold bind at 1. unfold writeTextFile at 1. fold resume_status_file.
    destruct (denied (env w) OpWriteText resume_status_file); [reflexivity |].
    apply Hjoin.
  - unfold bind at 1. unfold ret at 1. apply Hjoin.
Qed.

Lemma orderedWorkflows_NoDup (workflows : list string) : NoDup (orderedWorkflows workflows).
Proof.
  unfold orderedWorkflows. apply NoDup_ListNoDup, Stdlib.Lists.List.NoDup_filter.
  unfold WORKFLOW_ORDER. repeat constructor; simpl; intuition discriminate.
Qed.

Lemma first_rejection_none {A} (rs : list (nat * outcome A)) :
  first_rejection rs = None <-> Forall (fun r => exists a, snd r = Ret a) rs.
Proof.
  induction rs as [|[t [a | e]] rs IH]; simpl.
  - split; [constructor | reflexivity].
  - rewrite IH. split.
    + intros H. constructor; [now exists a | exact H].
    + intros H. now apply Forall_inv_tail in H.
  - split.
    + destruct (first_rejection rs) as [[t' e'] |]; [destruct (t' <? t)%nat |]; discriminate.
    + intros H. apply Forall_inv in H. destruct H as [a Ha]. discriminate Ha.
Qed.

Lemma last_settlement_bounds {A} (t0 : nat) (rs : list (nat * outcome A)) :
  (t0 <= last_settlement t0 rs)%nat
  /\ Forall (fun r => (fst r <= last_settlement t0 rs)%nat) rs.
Proof.
  induction rs as [|r rs [IH1 IH2]]; simpl.
  - split; [lia | constructor].
  - split; [lia |]. constructor; [lia |].
    eapply Forall_impl; [exact IH2 |]. simpl. intros; lia.
Qed.


(** A session returns when nothing is refused and the tool starts. *)
Lemma session_returns (workflow : string) (projects : list string) (w : World) :
  (forall op path, denied (env w) op path = false) ->
  (forall n args, is_Some (tool (env w) n args)) ->
  exists b, fst (runWorkflowSession workflow projects w) = Ret b.
Proof.
  intros Hfree Htool.
  destruct (Htool (length (children w)) (session_args workflow projects w)) as [p Hp].
  destruct (prepare_succeeds workflow projects w Hfree p Hp) as [w1 Hw1].
  destruct (session_after_prepare _ _ _ _ _ _ Hw1) as (_ & _ & _ & _ & _ & _ & ->).
  unfold finish. rewrite started_env, Hfree. now eexists.
Qed.

Lemma launch_all_return (t0 : nat) (projects selected : list string) :
  forall (w : World) (rs : list (nat * outcome bool)) (w' : World),
  (forall op path, denied (env w) op path = false) ->
  (forall n args, is_Some (tool (env w) n args)) ->
  launch t0 (sessions projects selected) w = (rs, w') ->
  Forall (fun r => exists b, snd r = Ret b) rs.
Proof.
  induction selected as [|wf rest IH]; intros w rs w' Hfree Htool Hl.
  - simpl in Hl. injection Hl as <- <-. constructor.
  - cbn [sessions map launch] in Hl.
    pose proof (session_frame wf projects (with_now t0 w)) as (Henv & _).
    pose proof (session_returns wf projects (with_now t0 w) Hfree Htool) as Hret.
    destruct (runWorkflowSession wf projects (with_now t0 w)) as [r w1].
    cbn [fst snd env with_now] in *.
    fold (sessions projects rest) in Hl.
    destruct (launch t0 (sessions projects rest)
                (with_settled (settled w1 ++ [(wf, now w1)])%list w1)) as [rs' w2] eqn:Hrest.
    injection Hl as <- <-.
    constructor; [exact Hret |].
    apply (IH (with_settled (settled w1 ++ [(wf, now w1)])%list w1) rs' w2);
      [| | exact Hrest]; cbn [env with_settled]; rewrite Henv; assumption.
Qed.

Lemma selection_file_apart (workflow : string) :
  WORKFLOWS_FILE <> logFile workflow /\ WORKFLOWS_FILE <> statusFile workflow
  /\ WORKFLOWS_FILE <> promptFile workflow.
Proof.
  repeat split; intros H; vm_compute in H; discriminate H.
Qed.

Lemma join_sessions_returns (projects snapshot : list string) (w1 : World) :
  (forall op path, denied (env w1) op path = false) ->
  (forall n args, is_Some (tool (env w1) n args)) ->
  fst (join_sessions projects snapshot w1) = Ret tt.
Proof.
  intros Hfree Htool. unfold join_sessions.
  destruct (launch (now w1) _ w1) as [rs w2] eqn:Hl.
  pose proof (launch_all_return _ _ _ _ _ _ Hfree Htool Hl) as Hall.
  destruct (launch_sessions _ _ _ _ _ _ (orderedWorkflows_NoDup snapshot) Hl) as (Henv & _).
  apply first_rejection_none in Hall. rewrite Hall.
  cbn [env with_now with_arrays]. rewrite Henv, Hfree. reflexivity.
Qed.

Lemma runAllWorkflows_returns (workflows : nat) (projects : list string) (w : World) :
  (forall op path, denied (env w) op path = false) ->
  (forall n args, is_Some (tool (env w) n args)) ->
  fst (runAllWorkflows workflows projects w) = Ret tt.
Proof.
  intros Hfree Htool. rewrite runAllWorkflows_cases. cbv zeta.
  destruct (0 <? length _)%nat.
  - rewrite Hfree. now apply join_sessions_returns.
  - now apply join_sessions_returns.
Qed.

(** What holds once the sessions have been joined and the selection file
    written, from the world [w1] in which they were launched. *)
Lemma join_sessions_facts (projects snapshot : list string) (w1 : World) :
  fst (join_sessions projects snapshot w1) = Ret tt ->
  let w' := snd (join_sessions projects snapshot w1) in
  let selected := orderedWorkflows snapshot in
  files w' !! WORKFLOWS_FILE = Some (Js.join nl snapshot)
  /\ arrays w' = meanwhile (env w1) <$> arrays w1
  /\ exists times : list nat,
       length times = length selected
       /\ settled w' = (settled w1 ++ zip selected times)%list
       /\ Forall (fun t => (now w1 <= t <= now w')%nat) times
       /\ Forall (fun workflow =>
                    files w' !! statusFile workflow = Some "COMPLETED"
                    \/ files w' !! statusFile workflow = Some "FAILED") selected.
Proof.
  unfold join_sessions.
  destruct (launch (now w1) _ w1) as [rs w2] eqn:Hl.
  destruct (launch_sessions _ _ _ _ _ _ (orderedWorkflows_NoDup snapshot) Hl)
    as (Henv & Harr & _ & Hlen & Hset & Htimes & _ & Hst).
  destruct (first_rejection rs) as [[t e] |] eqn:Hrej; [discriminate |].
  apply first_rejection_none in Hrej.
  cbn [env with_now with_arrays].
  destruct (denied (env w2) OpWriteText WORKFLOWS_FILE); [discriminate |].
  intros _. cbv zeta. cbn [snd files arrays settled now with_files with_now with_arrays].
  split; [apply lookup_insert_eq |].
  split; [now rewrite Henv, Harr |].
  exists (map fst rs).
  split; [now rewrite length_map |].
  split; [exact Hset |].
  split.
  { destruct (last_settlement_bounds (now w1) rs) as [_ Hup].
    apply Forall_fmap. apply Forall_forall. intros r Hin.
    rewrite Forall_forall in Htimes, Hup.
    specialize (Htimes r Hin). specialize (Hup r Hin). simpl. lia. }
  apply Forall_forall. intros workflow Hin.
  apply list_elem_of_lookup in Hin as [i Hi].
  destruct (lookup_lt_is_Some_2 rs i) as [[t r] Hr].
  { rewrite Hlen. eapply lookup_lt_Some. exact Hi. }
  rewrite Forall_forall in Hrej.
  destruct (Hrej (t, r)) as [b Hb]; [eapply list_elem_of_lookup_2; exact Hr |].
  simpl in Hb. subst r.
  destruct (selection_file_apart workflow) as (_ & Hne & _).
  rewrite lookup_insert_ne by exact Hne.
  rewrite (Hst i workflow t b Hi Hr). destruct b; auto.
Qed.

(** From the cases of [runAllWorkflows]: when it returns, it has been
    through [join_sessions], from a world with the same arrays, environment,
    clock and record of settled calls. *)
Lemma runAllWorkflows_joined (workflows : nat) (projects : list string) (w : World) :
  fst (runAllWorkflows workflows projects w) = Ret tt ->
  exists w1,
    runAllWorkflows workflows projects w
    = join_sessions projects (default [] (arrays w !! workflows)) w1
    /\ env w1 = env w /\ arrays w1 = arrays w /\ now w1 = now w /\ settled w1 = settled w.
Proof.
  rewrite runAllWorkflows_cases. cbv zeta.
  destruct (0 <? length _)%nat.
  - destruct (denied (env w) OpWriteText resume_status_file); [discriminate |].
    intros _. eexists. split; [reflexivity |]. repeat split.
  - intros _. exists w. repeat split.
Qed.

(** The join of the sessions that fulfil. When every session call fulfils,
    [runAllWorkflows] returns only after each selected workflow's call has settled, at an
    instant not before any of them, with every status file at COMPLETED or
    FAILED. A process that exits with a failure makes its session return
    false, which is not escalated: with nothing refused and the tool
    installed, [runAllWorkflows] returns whatever the exit codes are. *)
Theorem sessions_joined (workflows : nat) (projects : list string) (w : World) :
  let selected := orderedWorkflows (default [] (arrays w !! workflows)) in
  let run := runAllWorkflows workflows projects w in
  ((forall op path, denied (env w) op path = false) ->
   (forall n args, is_Some (tool (env w) n args)) ->
   fst run = Ret tt)
  /\ (fst run = Ret tt ->
      exists times : list nat,
        length times = length selected
        /\ settled (snd run) = (settled w ++ zip selected times)%list
        /\ Forall (fun t => (now w <= t <= now (snd run))%nat) times
        /\ Forall (fun workflow =>
                     files (snd run) !! statusFile workflow = Some "COMPLETED"
                     \/ files (snd run) !! statusFile workflow = Some "FAILED") selected).
Proof.
  cbv zeta. split; [apply runAllWorkflows_returns |].
  intros Hret.
  destruct (runAllWorkflows_joined _ _ _ Hret) as (w1 & Hrun & _ & _ & Hnow & Hset).
  rewrite Hrun in *.
  destruct (join_sessions_facts _ _ _ Hret) as (_ & _ & times & H).
  rewrite Hnow, Hset in H. exists times. exact H.
Qed.

Lemma sessions_joined_witness :
  fst (runAllWorkflows O ["web"] world_three) = Ret tt
  /\ exists times : list nat,
       settled (snd (runAllWorkflows O ["web"] world_three))
       = zip ["type"; "build"; "lint"] times
       /\ Forall (fun t => (t <= now (snd (runAllWorkflows O ["web"] world_three)))%nat) times.
Proof.
  destruct (sessions_joined O ["web"] world_three) as [Hlive Hjoin].
  assert (Hret : fst (runAllWorkflows O ["web"] world_three) = Ret tt).
  { apply Hlive; [reflexivity |]. intros n args. simpl. eauto. }
  split; [exact Hret |].
  destruct (Hjoin Hret) as (times & _ & Hset & Htimes & _).
  exists times. split; [exact Hset |].
  eapply Forall_impl; [exact Htimes |]. simpl. intros t Ht. lia.
Defined.

(** C5, at the failing input: two workflows are selected and the status
    file of [type] cannot be written. The session of [type] throws at once;
    [Promise.all] rejects with it, and [runAllWorkflows] throws at that
    instant, seven ticks before the session of [build] settles. The session
    of [build] is not cancelled: it runs on and writes COMPLETED. The
    failure is escalated, and nothing waits for [build]. *)
Theorem runAllWorkflows_rejects_before_join :
  let run := runAllWorkflows O ["web"] world_locked in
  arrays world_locked !! O = Some ["type"; "build"]
  /\ fst run = Throw (PermissionDenied (statusFile "type"))
  /\ now (snd run) = O
  /\ settled (snd run) = [("type", O); ("build", 7%nat)]
  /\ ~ Forall (fun call => (snd call <= now (snd run))%nat) (settled (snd run))
  /\ files (snd run) !! statusFile "build" = Some "COMPLETED".
Proof.
  cbv zeta.
  assert (H2 : now (snd (runAllWorkflows O ["web"] world_locked)) = O)
    by (vm_compute; reflexivity).
  assert (H3 : settled (snd (runAllWorkflows O ["web"] world_locked))
               = [("type", O); ("build", 7%nat)]) by (vm_compute; reflexivity).
  split; [reflexivity |].
  split; [vm_compute; reflexivity |].
  split; [exact H2 |]. split; [exact H3 |].
  split; [| vm_compute; reflexivity].
  rewrite H2, H3. intros H.
  apply Forall_inv_tail, Forall_inv in H. simpl in H. lia.
Qed.

Lemma join_sessions_unreturned (projects snapshot : list string) (w1 : World) :
  fst (join_sessions projects snapshot w1) <> Ret tt ->
  files (snd (join_sessions projects snapshot w1)) !! WORKFLOWS_FILE
  = files w1 !! WORKFLOWS_FILE.
Proof.
  unfold join_sessions.
  destruct (launch (now w1) (sessions projects (orderedWorkflows snapshot)) w1)
    as [rs w2] eqn:Hl.
  destruct (launch_sessions _ _ _ _ _ _ (orderedWorkflows_NoDup snapshot) Hl)
    as (_ & _ & _ & _ & _ & _ & Hframe & _).
  assert (Hkept : files w2 !! WORKFLOWS_FILE = files w1 !! WORKFLOWS_FILE).
  { apply Hframe. intros workflow _ [H | [H | H]];
      destruct (selection_file_apart workflow) as (Hlog & Hstatus & Hprompt);
      congruence. }
  destruct (first_rejection rs) as [[t e] |]; [intros _; exact Hkept |].
  cbv zeta. destruct (denied _ OpWriteText WORKFLOWS_FILE); [intros _; exact Hkept |].
  intros H. now destruct H.
Qed.

Lemma runAllWorkflows_unreturned (workflows : nat) (projects : list string) (w : World) :
  fst (runAllWorkflows workflows projects w) <> Ret tt ->
  files (snd (runAllWorkflows workflows projects w)) !! WORKFLOWS_FILE
  = files w !! WORKFLOWS_FILE.
Proof.
  rewrite runAllWorkflows_cases. cbv zeta.
  destruct (0 <? length _)%nat; [| apply join_sessions_unreturned].
  destruct (denied (env w) OpWriteText resume_status_file); [reflexivity |].
  intros H. rewrite (join_sessions_unreturned _ _ _ H).
  cbn [files with_files]. apply lookup_insert_ne.
  intros Heq. vm_compute in Heq. discriminate Heq.
Qed.

(** C10: [runAllWorkflows] copies the array it is given on entry and, once
    all sessions have fulfilled, none of them settling later than the
    write, writes the copy, joined by newlines, to the selection file,
    whatever has become of the array since. The write comes last: a run
    that does not return (a session throws, a write is refused) leaves the
    selection file as it was, and so does the run of the example in which
    the session of [type] throws while that of [build] goes on to the end.
    The selection file is no workflow's log, status or prompt file. Every
    run that returns has made this write, and a run returns whenever nothing
    is refused and the tool starts. *)
Theorem selection_file_restored (workflows : nat) (projects : list string) (w : World) :
  let snapshot := default [] (arrays w !! workflows) in
  let run := runAllWorkflows workflows projects w in
  (fst run = Ret tt ->
     files (snd run) !! "tools/gopher/.copilot-fix-state/selected-workflows.txt"
     = Some (Js.join (String "010" "") snapshot)
     /\ arrays (snd run) = meanwhile (env w) <$> arrays w
     /\ exists times : list nat,
          settled (snd run) = (settled w ++ zip (orderedWorkflows snapshot) times)%list
          /\ length times = length (orderedWorkflows snapshot)
          /\ Forall (fun t => (t <= now (snd run))%nat) times)
  /\ (fst run <> Ret tt ->
      files (snd run) !! "tools/gopher/.copilot-fix-state/selected-workflows.txt"
      = files w !! "tools/gopher/.copilot-fix-state/selected-workflows.txt")
  /\ (let locked := runAllWorkflows O ["web"] world_locked in
      fst locked = Throw (PermissionDenied (statusFile "type"))
      /\ files (snd locked) !! statusFile "build" = Some "COMPLETED"
      /\ files (snd locked) !! "tools/gopher/.copilot-fix-state/selected-workflows.txt"
         = None)
  /\ WORKFLOWS_FILE = "tools/gopher/.copilot-fix-state/selected-workflows.txt"
  /\ (forall workflow,
        WORKFLOWS_FILE <> logFile workflow /\ WORKFLOWS_FILE <> statusFile workflow
        /\ WORKFLOWS_FILE <> promptFile workflow)
  /\ ((forall op path, denied (env w) op path = false) ->
      (forall n args, is_Some (tool (env w) n args)) ->
      fst run = Ret tt).
Proof.
  cbv zeta.
  change "tools/gopher/.copilot-fix-state/selected-workflows.txt" with WORKFLOWS_FILE.
  change (String "010" "") with nl.
  split; [| split; [apply runAllWorkflows_unreturned |
            split; [repeat split; vm_compute; reflexivity |
            split; [reflexivity |
            split; [exact selection_file_apart | apply runAllWorkflows_returns]]]]].
  intros Hret.
  destruct (runAllWorkflows_joined _ _ _ Hret) as (w1 & Hrun & Henv & Harr & _ & Hset).
  rewrite Hrun in *.
  destruct (join_sessions_facts _ _ _ Hret)
    as (Hfile & Harrays & times & Hlen & Hsettled & Htimes & _).
  split; [exact Hfile |]. split; [now rewrite Harrays, Henv, Harr |].
  exists times. split; [now rewrite Hsettled, Hset |]. split; [exact Hlen |].
  eapply Forall_impl; [exact Htimes |]. simpl. intros t Ht. lia.
Qed.

Lemma selection_file_restored_witness :
  files (snd (runAllWorkflows O ["web"] world_three)) !! WORKFLOWS_FILE
  = Some ("lint" ++ nl ++ "type" ++ nl ++ "build")
  /\ arrays (snd (runAllWorkflows O ["web"] world_three)) !! O
     = Some ["lint"; "type"; "build"; "test"]
  /\ files (snd (runAllWorkflows O ["web"] world_locked)) !! WORKFLOWS_FILE
     = files world_locked !! WORKFLOWS_FILE.
Proof.
  destruct (selection_file_restored O ["web"] world_three)
    as (Hfile & _ & _ & _ & _ & Hlive).
  assert (Hret : fst (runAllWorkflows O ["web"] world_three) = Ret tt).
  { apply Hlive; [reflexivity |]. intros n args. simpl. eauto. }
  destruct (Hfile Hret) as (Hf & Ha & _).
  split; [exact Hf |]. split; [rewrite Ha; reflexivity |].
  destruct (selection_file_restored O ["web"] world_locked) as (_ & Hkept & _).
  apply Hkept. vm_compute. discriminate.
Defined.

(** ** Notes on the hypotheses *)

(** A selection of valid workflow names that is not empty shows at least
    one workflow. *)
Lemma ordered_nonempty (workflows : list string) :
  workflows <> [] ->
  Forall (fun workflow => In workflow WORKFLOW_ORDER) workflows ->
  orderedWorkflows workflows <> [].
Proof.
  intros Hne Hvalid. destruct workflows as [|first rest]; [congruence |].
  apply Forall_inv in Hvalid.
  assert (Hin : In first (orderedWorkflows (first :: rest))).
  { unfold orderedWorkflows. apply filter_In. split; [exact Hvalid |].
    unfold Array_includes. simpl. now rewrite String.eqb_refl. }
  intros Hempty. rewrite Hempty in Hin. exact Hin.
Qed.

(** Without a progress record that can be read and parsed, the status of a
    project is what the log says, and nothing is thrown. *)
Lemma getProjectStatus_without_record
    (JSON_parse : string -> option JsonValue) (RegExp_test : string -> string -> option bool)
    (project workflow : string) (w : World) :
  match readTextFile (progressFile workflow) w with
  | (Ret content, _) => JSON_parse content = None
  | (Throw _, _) => True
  end ->
  getProjectStatus JSON_parse RegExp_test project workflow w
  = statusFromLog RegExp_test project workflow w
  /\ exists status, getProjectStatus JSON_parse RegExp_test project workflow w
                    = (Ret status, w).
Proof.
  intros H.
  assert (Heq : getProjectStatus JSON_parse RegExp_test project workflow w
                = statusFromLog RegExp_test project workflow w).
  { unfold getProjectStatus, getWorkflowProgress, try_catch, bind.
    pose proof (readTextFile_pure (progressFile workflow) w) as Hpure.
    destruct (readTextFile (progressFile workflow) w) as [[content | e] w'];
      simpl in Hpure; subst w'; [rewrite H |]; reflexivity. }
  split; [exact Heq |]. rewrite Heq. apply statusFromLog_total.
Qed.

(** ** The log lines of a row *)


Lemma tailLog_runs (workflow : string) (logHeight : Z) (w : World) :
  exists shown, tailLog workflow logHeight w = (Ret shown, w)
    /\ forall e, fst (readTextFile (logFile workflow) w) = Throw e -> shown = [].
Proof.
  unfold tailLog, try_catch, bind.
  pose proof (readTextFile_pure (logFile workflow) w) as Hpure.
  destruct (readTextFile (logFile workflow) w) as [[log | e] w'];
    simpl in Hpure; subst w'; eexists; (split; [reflexivity |]).
  - intros e He. discriminate He.
  - reflexivity.
Qed.


Lemma trim_idempotent_sanitized (line : string) :
  Js.trim (sanitizeLogLine line) = sanitizeLogLine line.
Proof. unfold sanitizeLogLine. apply trim_idempotent. Qed.

Lemma logLinesOf_lines (log line : string) :
  In line (logLinesOf log) ->
  line <> "" /\ Js.trim line = line /\ forallb is_clean (Js.chars line) = true.
Proof.
  unfold logLinesOf. intros Hin. apply filter_In in Hin as [Hin Hlen].
  apply in_map_iff in Hin as (raw & <- & _).
  split.
  - intros Hempty. rewrite Hempty in Hlen. discriminate Hlen.
  - split; [apply trim_idempotent_sanitized | apply sanitize_clean].
Qed.

Lemma remove_matches_keeps (P : ascii -> bool) (m : string -> option nat) (s : string) :
  forallb P (Js.chars s) = true ->
  forall skip, forallb P (Js.chars (Js.remove_matches_from m skip s)) = true.
Proof.
  induction s as [|c s IH]; intros H skip; [reflexivity |].
  simpl in H. apply andb_prop in H as [Hc Hs].
  cbn [Js.remove_matches_from]. destruct skip as [|k]; [| now apply IH].
  destruct (m (String c s)) as [[|k] |]; try (now apply IH);
    simpl; rewrite Hc; now apply IH.
Qed.

Lemma sanitize_keeps (P : ascii -> bool) (line : string) :
  forallb P (Js.chars line) = true ->
  forallb P (Js.chars (sanitizeLogLine line)) = true.
Proof.
  intros H. unfold sanitizeLogLine, Js.trim, Js.remove_matches.
  apply trimEnd_keeps, trimStart_keeps.
  do 2 apply remove_class_keeps. now apply remove_matches_keeps.
Qed.

Lemma split_pieces_free (sep : ascii) (s piece : string) :
  In piece (String_split sep s) ->
  forallb (fun c => negb (Ascii.eqb c sep)) (Js.chars piece) = true.
Proof.
  revert piece. induction s as [|c s IH]; intros piece Hin.
  - simpl in Hin. destruct Hin as [<- | []]. reflexivity.
  - cbn [String_split] in Hin. destruct (Ascii.eqb c sep) eqn:Hc.
    + destruct Hin as [<- | Hin]; [reflexivity | now apply IH].
    + destruct (String_split sep s) as [|first rest].
      * destruct Hin as [<- | []]. simpl. now rewrite Hc.
      * destruct Hin as [<- | Hin].
        -- simpl. rewrite Hc. simpl. apply IH. now left.
        -- apply IH. now right.
Qed.

Lemma sanitize_keeps_line (raw : string) :
  forallb (fun c => negb (Ascii.eqb c Js.LF)) (Js.chars raw) = true ->
  forallb (fun c => is_clean c && negb (Ascii.eqb c Js.LF))
    (Js.chars (sanitizeLogLine raw)) = true.
Proof.
  intros H. apply (sanitize_keeps _ raw) in H.
  pose proof (sanitize_clean raw) as Hclean.
  rewrite forallb_forall in *. intros c Hin.
  now rewrite (Hclean c Hin), (H c Hin).
Qed.

(** X2: every line a row shows is non-empty, has no white space at either
    end and holds no ESC, no carriage return and no control character of
    the removed class (so in particular no newline: the log was split at
    them). *)
Theorem tailLog_lines_printable (workflow : string) (logHeight : Z) (w : World) :
  forall shown line,
    fst (tailLog workflow logHeight w) = Ret shown -> In line shown ->
    line <> "" /\ Js.trim line = line
    /\ forallb (fun c => is_clean c && negb (Ascii.eqb c Js.LF)) (Js.chars line) = true.
Proof.
  intros shown line Hrun Hin.
  unfold tailLog, try_catch, bind in Hrun.
  destruct (readTextFile (logFile workflow) w) as [[log | e] w'].
  - simpl in Hrun. injection Hrun as <-.
    unfold Array_slice_from in Hin.
    apply list_elem_of_In, (subseteq_drop _ _ line), list_elem_of_In in Hin.
    unfold logLinesOf in Hin. apply filter_In in Hin as [Hin Hlen].
    apply in_map_iff in Hin as (raw & <- & Hraw).
    split; [intros Hempty; rewrite Hempty in Hlen; discriminate Hlen |].
    split; [apply trim_idempotent_sanitized |].
    apply sanitize_keeps_line. eapply split_pieces_free. exact Hraw.
  - simpl in Hrun. injection Hrun as <-. destruct Hin.
Qed.

Lemma tailLog_lines_printable_witness :
  fst (tailLog "type" 4 world_tail) = Ret ["compiling"; "2 errors"]
  /\ In "compiling" ["compiling"; "2 errors"]
  /\ "compiling" <> ""
  /\ Js.trim "compiling" = "compiling"
  /\ forallb (fun c => is_clean c && negb (Ascii.eqb c Js.LF)) (Js.chars "compiling") = true.
Proof.
  assert (Hrun : fst (tailLog "type" 4 world_tail) = Ret ["compiling"; "2 errors"])
    by (vm_compute; reflexivity).
  assert (Hin : In "compiling" ["compiling"; "2 errors"]) by (left; reflexivity).
  split; [exact Hrun |]. split; [exact Hin |].
  exact (tailLog_lines_printable "type" 4 world_tail _ _ Hrun Hin).
Defined.




Section LineColours.

Local Open Scope N_scope.

Lemma unit_matches_spec (p c : N) : unit_matches p c = true <-> same_letter p c.
Proof.
  unfold unit_matches, same_letter.
  rewrite orb_true_iff, !andb_true_iff, !N.eqb_eq, !N.leb_le. tauto.
Qed.

Lemma matches_here_spec (word line : list N) :
  matches_here word line = true
  <-> exists hit post, line = (hit ++ post)%list /\ Forall2 same_letter word hit.
Proof.
  revert line. induction word as [|p word IH]; intros line; simpl.
  - split; [intros _; exists [], line; split; [reflexivity | constructor] | trivial].
  - destruct line as [|c line].
    + split; [discriminate |]. intros (hit & post & Hline & Hhit).
      inversion Hhit; subst. discriminate Hline.
    + rewrite andb_true_iff, unit_matches_spec, IH. split.
      * intros (Hc & hit & post & -> & Hhit).
        exists (c :: hit), post. split; [reflexivity | now constructor].
      * intros (hit & post & Hline & Hhit).
        inversion Hhit as [|p' c' word' hit' Hc Hrest]; subst.
        injection Hline as -> ->. split; [exact Hc |]. now exists hit', post.
Qed.

Lemma matches_word_spec (word line : list N) :
  matches_word word line = true <-> occurs word line.
Proof.
  unfold occurs. induction line as [|c line IH]; simpl.
  - rewrite orb_false_r, matches_here_spec. split.
    + intros (hit & post & Hline & Hhit). now exists [], hit, post.
    + intros (pre & hit & post & Hline & Hhit).
      destruct pre; [| discriminate Hline]. now exists hit, post.
  - rewrite orb_true_iff, matches_here_spec, IH. split.
    + intros [(hit & post & Hline & Hhit) | (pre & hit & post & -> & Hhit)].
      * now exists [], hit, post.
      * now exists (c :: pre), hit, post.
    + intros (pre & hit & post & Hline & Hhit). destruct pre as [|c' pre].
      * left. now exists hit, post.
      * right. injection Hline as -> ->. now exists pre, hit, post.
Qed.

Lemma mentions_spec (words : list (list N)) (line : list N) :
  mentions words line = true <-> Exists (fun word => occurs word line) words.
Proof.
  unfold mentions. rewrite existsb_exists, Exists_exists. split.
  - intros (word & Hin & H). exists word. split; [now apply list_elem_of_In |].
    now apply matches_word_spec.
  - intros (word & Hin & H). exists word. split; [now apply list_elem_of_In |].
    now apply matches_word_spec.
Qed.

Lemma mentions_none (words : list (list N)) (line : list N) :
  mentions words line = false <-> ~ Exists (fun word => occurs word line) words.
Proof.
  rewrite <- mentions_spec. destruct (mentions words line); split; congruence.
Qed.

Lemma mentions_app (a b : list (list N)) (line : list N) :
  mentions (a ++ b) line = mentions a line || mentions b line.
Proof. unfold mentions. apply existsb_app. Qed.

(** A pattern character without a capital form matches a code unit whatever the case
    of that code unit. *)
Lemma unit_matches_case (p c d : N) :
  ~ 65 <= p <= 90 -> same_but_case c d -> unit_matches p d = unit_matches p c.
Proof.
  unfold unit_matches, same_but_case. intros Hp H.
  destruct (N.eqb_spec d p), (N.eqb_spec c p), (N.leb_spec 97 p), (N.leb_spec p 122),
    (N.eqb_spec d (p - 32)), (N.eqb_spec c (p - 32)); simpl; try reflexivity; lia.
Qed.

Lemma matches_here_case (word line line' : list N) :
  Forall (fun p => ~ 65 <= p <= 90) word -> Forall2 same_but_case line line' ->
  matches_here word line' = matches_here word line.
Proof.
  intros Hword Hline. revert word Hword.
  induction Hline as [|c d line line' Hc Hline IH]; intros word Hword.
  - reflexivity.
  - destruct word as [|p word]; [reflexivity |]. simpl.
    inversion Hword; subst.
    rewrite (unit_matches_case p c d) by assumption. now rewrite IH.
Qed.

Lemma matches_word_case (word line line' : list N) :
  Forall (fun p => ~ 65 <= p <= 90) word -> Forall2 same_but_case line line' ->
  matches_word word line' = matches_word word line.
Proof.
  intros Hword Hline.
  induction Hline as [|c d line line' Hc Hline IH]; [reflexivity |].
  cbn [matches_word]. rewrite IH.
  now rewrite (matches_here_case word (c :: line) (d :: line')) by (try constructor; assumption).
Qed.

Lemma mentions_case (words : list (list N)) (line line' : list N) :
  Forall (Forall (fun p => ~ 65 <= p <= 90)) words -> Forall2 same_but_case line line' ->
  mentions words line' = mentions words line.
Proof.
  intros Hwords Hline. unfold mentions.
  induction Hwords as [|word words Hword Hwords IH]; [reflexivity |].
  simpl. now rewrite IH, (matches_word_case word line line').
Qed.

Ltac small_letters := repeat constructor; vm_compute; intros [H1 H2]; congruence.

(** X4: the colour of a log line goes by what occurs in it, whatever the
    case of the letters. A line in which [error], [fail] or the ballot
    cross U+2717 occurs is red, whatever else occurs in it; failing that, a
    line with [success], [pass], the check mark U+2713, [done] or
    [completed] is green; failing that, one with [warning] or [warn] is
    yellow; failing that, one with [running], [starting] or [processing] is
    cyan; and a line with none of these is gray when it is not among the
    last fifteen, and has no colour of its own otherwise. *)
Theorem lineColor_priority (idx count : Z) (line : list N) :
  let any words := Exists (fun word => occurs word line) words in
  let red := [[101; 114; 114; 111; 114]; [102; 97; 105; 108]; [10007]] in
  let green := [[115; 117; 99; 99; 101; 115; 115]; [112; 97; 115; 115]; [10003];
                [100; 111; 110; 101]; [99; 111; 109; 112; 108; 101; 116; 101; 100]] in
  let yellow := [[119; 97; 114; 110; 105; 110; 103]; [119; 97; 114; 110]] in
  let cyan := [[114; 117; 110; 110; 105; 110; 103]; [115; 116; 97; 114; 116; 105; 110; 103];
               [112; 114; 111; 99; 101; 115; 115; 105; 110; 103]] in
  (any red -> lineColor idx count line = Some Red)
  /\ (~ any red -> any green -> lineColor idx count line = Some Green)
  /\ (~ any red -> ~ any green -> any yellow -> lineColor idx count line = Some Yellow)
  /\ (~ any red -> ~ any green -> ~ any yellow -> any cyan ->
      lineColor idx count line = Some Cyan)
  /\ (~ any red -> ~ any green -> ~ any yellow -> ~ any cyan ->
      lineColor idx count line = (if (idx <? count - 15)%Z then Some Gray else None))
  /\ (forall line', Forall2 same_but_case line line' ->
      lineColor idx count line' = lineColor idx count line)
  /\ red = [units_of "error"; units_of "fail"; [10007]]
  /\ green = [units_of "success"; units_of "pass"; [10003]; units_of "done";
              units_of "completed"]
  /\ yellow = [units_of "warning"; units_of "warn"]
  /\ cyan = [units_of "running"; units_of "starting"; units_of "processing"].
Proof.
  cbv zeta.
  repeat rewrite <- mentions_none. repeat rewrite <- mentions_spec.
  unfold lineColor.
  change [units_of "error"; units_of "fail"; [HEAVY_BALLOT_X]]
    with [[101; 114; 114; 111; 114]; [102; 97; 105; 108]; [10007]].
  change [units_of "success"; units_of "pass"; [CHECK_MARK]; units_of "done";
          units_of "completed"]
    with [[115; 117; 99; 99; 101; 115; 115]; [112; 97; 115; 115]; [10003];
          [100; 111; 110; 101]; [99; 111; 109; 112; 108; 101; 116; 101; 100]].
  change [units_of "warning"; units_of "warn"]
    with [[119; 97; 114; 110; 105; 110; 103]; [119; 97; 114; 110]].
  change [units_of "running"; units_of "starting"; units_of "processing"]
    with [[114; 117; 110; 110; 105; 110; 103]; [115; 116; 97; 114; 116; 105; 110; 103];
          [112; 114; 111; 99; 101; 115; 115; 105; 110; 103]].
  split; [now intros -> |].
  split; [now intros -> -> |].
  split; [now intros -> -> -> |].
  split; [now intros -> -> -> -> |].
  split.
  { intros -> -> -> ->. unfold isRecent.
    destruct (Z.leb_spec (count - 15) idx), (Z.ltb_spec idx (count - 15));
      try reflexivity; lia. }
  split; [| repeat split].
  intros line' Hline.
  rewrite !(mentions_case _ line line') by (try exact Hline; small_letters).
  reflexivity.
Qed.

Lemma lineColor_priority_witness :
  lineColor 0 100 (units_of "Tests PASS, 1 Error") = Some Red
  /\ lineColor 0 100 (units_of "build " ++ [10003])%list = Some Green
  /\ lineColor 0 100 (units_of "compiling module") = Some Gray
  /\ lineColor 90 100 (units_of "compiling module") = None
  /\ lineColor 90 100 (units_of "DONE") = lineColor 90 100 (units_of "done").
Proof.
  split; [| split; [| split; [| split]]].
  - destruct (lineColor_priority 0 100 (units_of "Tests PASS, 1 Error")) as (Hred & _).
    apply Hred, mentions_spec. reflexivity.
  - destruct (lineColor_priority 0 100 (units_of "build " ++ [10003])%list)
      as (_ & Hgreen & _).
    apply Hgreen; [apply mentions_none | apply mentions_spec]; reflexivity.
  - destruct (lineColor_priority 0 100 (units_of "compiling module"))
      as (_ & _ & _ & _ & Hplain & _).
    apply Hplain; apply mentions_none; reflexivity.
  - destruct (lineColor_priority 90 100 (units_of "compiling module"))
      as (_ & _ & _ & _ & Hplain & _).
    apply Hplain; apply mentions_none; reflexivity.
  - destruct (lineColor_priority 90 100 (units_of "done"))
      as (_ & _ & _ & _ & _ & Hcase & _).
    apply Hcase.
    change (units_of "done") with [100; 111; 110; 101].
    change (units_of "DONE") with [68; 79; 78; 69].
    repeat (constructor; [right; right; lia |]). constructor.
Defined.

End LineColours.

(** ** The rows of the dashboard *)

Lemma rowsFrom_workflows rows workflows st idx ordered :
  map row_workflow (rowsFrom rows workflows st idx ordered) = ordered.
Proof.
  revert idx. induction ordered as [|wf rest IH]; intros idx; simpl; [reflexivity |].
  now rewrite IH.
Qed.

Ltac split_comparisons :=
  repeat first
    [ match goal with |- context [(?i =? ?j)%Z] => destruct (Z.eqb_spec i j) end
    | match goal with |- context [(?i <? ?j)%Z] => destruct (Z.ltb_spec i j) end
    | match goal with |- context [(?i <=? ?j)%Z] => destruct (Z.leb_spec i j) end ].

Lemma rowsFrom_selected rows workflows st idx ordered :
  length (List.filter row_isSelected (rowsFrom rows workflows st idx ordered))
  = if (Z.of_nat idx <=? selectedIndex st)
       && (selectedIndex st <? Z.of_nat idx + Z.of_nat (length ordered))
    then 1%nat else 0%nat.
Proof.
  revert idx. induction ordered as [|wf rest IH]; intros idx.
  - cbn [rowsFrom List.filter length]. split_comparisons; simpl in *; try reflexivity; lia.
  - cbn [rowsFrom List.filter row_isSelected]. specialize (IH (S idx)).
    destruct (Z.eqb_spec (Z.of_nat idx) (selectedIndex st)) as [Heq | Hne];
      cbn [length]; rewrite IH; cbn [length];
      split_comparisons; simpl in *; try reflexivity; lia.
Qed.

Lemma expanded_count (X : gset (option string)) (l : list string) :
  NoDup l -> X ⊆ list_to_set (Some <$> l) ->
  length (List.filter (fun w => bool_decide (Some w ∈ X)) l) = size X.
Proof.
  intros Hnd. revert X. induction Hnd as [|a l Hnotin Hnd IH]; intros X Hsub.
  - simpl in *. assert (X = ∅) as -> by set_solver. now rewrite size_empty.
  - cbn [List.filter].
    assert (Hsame : forall Y : gset (option string), (forall w : string, w ∈ l -> (Some w ∈ X <-> Some w ∈ Y)) ->
              List.filter (fun w => bool_decide (Some w ∈ X)) l
              = List.filter (fun w => bool_decide (Some w ∈ Y)) l).
    { intros Y HY. apply filter_ext_in. intros w Hw.
      apply list_elem_of_In in Hw. apply bool_decide_ext. now apply HY. }
    case_bool_decide as Ha.
    + cbn [length]. rewrite (Hsame (X ∖ {[Some a]})).
      * rewrite IH.
        -- assert (HX : X = {[Some a]} ∪ (X ∖ {[Some a]})).
           { apply set_eq. intros x. rewrite elem_of_union, elem_of_difference, elem_of_singleton.
             destruct (decide (x = Some a)) as [-> | Hne]; [tauto |]. tauto. }
           pose proof (size_union ({[Some a]} : gset (option string)) (X ∖ {[Some a]})) as Hs.
           rewrite size_singleton in Hs. rewrite HX at 2. rewrite Hs; [reflexivity |].
           set_solver.
        -- intros x Hx. apply elem_of_difference in Hx as [Hx Hne].
           specialize (Hsub x Hx). simpl in Hsub. set_solver.
      * intros w Hw. rewrite elem_of_difference, elem_of_singleton.
        split; [| tauto]. intros Hin. split; [exact Hin |].
        intros Heq. injection Heq as ->. contradiction.
    + apply IH. intros x Hx. specialize (Hsub x Hx). simpl in Hsub.
      apply elem_of_union in Hsub as [Hsub | Hsub]; [| exact Hsub].
      apply elem_of_singleton in Hsub. subst x. contradiction.
Qed.

Lemma rowsFrom_expanded rows workflows st idx ordered :
  length (List.filter row_isExpanded (rowsFrom rows workflows st idx ordered))
  = length (List.filter (fun w => bool_decide (Some w ∈ expandedSet st)) ordered).
Proof.
  revert idx. induction ordered as [|wf rest IH]; intros idx; [reflexivity |].
  cbn [rowsFrom List.filter row_isExpanded]. case_bool_decide; cbn [length]; now rewrite IH.
Qed.

Lemma rowsFrom_heights rows workflows st idx ordered :
  totalLogHeight (rowsFrom rows workflows st idx ordered)
  = Z.of_nat (length (List.filter (fun w => bool_decide (Some w ∈ expandedSet st)) ordered))
    * logHeightPerWorkflow rows workflows st.
Proof.
  revert idx. induction ordered as [|wf rest IH]; intros idx; [reflexivity |].
  cbn [rowsFrom totalLogHeight fold_right row_logHeight List.filter].
  fold (totalLogHeight (rowsFrom rows workflows st (S idx) rest)). rewrite IH.
  unfold logHeight. case_bool_decide; cbn [length]; lia.
Qed.

Lemma layout_space_share (rows : option Z) (workflows : list string) (st : DashboardState) :
  let E := expandedCount st in
  let available := availableHeight rows workflows st in
  let each := logHeightPerWorkflow rows workflows st in
  (0 < E -> each = available / E /\ E * each <= available < E * each + E)
  /\ (E = 0 -> each = 0).
Proof.
  cbv zeta. unfold logHeightPerWorkflow. split.
  - intros HE. destruct (Z.ltb_spec 0 (expandedCount st)) as [_ | Hle]; [| lia].
    split; [reflexivity |].
    pose proof (Z.div_mod (availableHeight rows workflows st) (expandedCount st)) as Hdm.
    pose proof (Z.mod_pos_bound (availableHeight rows workflows st) (expandedCount st) HE).
    lia.
  - intros HE. rewrite HE. reflexivity.
Qed.

(** X5: while the cursor is an index of the ordered list and only listed
    workflows are expanded, the dashboard draws one row per listed workflow
    in the canonical order, marks exactly one of them as selected, and the
    log heights of its rows add up to the expanded count times the share of
    each, which is at most the available height and misses it by less than
    the expanded count. *)
Theorem dashboardRows_layout (rows : option Z) (workflows : list string) (st : DashboardState) :
  dashboard_ok workflows st ->
  let drawn := dashboardRows rows workflows st in
  let E := expandedCount st in
  let available := availableHeight rows workflows st in
  map row_workflow drawn = orderedWorkflows workflows
  /\ length (List.filter row_isSelected drawn) = 1%nat
  /\ Z.of_nat (length (List.filter row_isExpanded drawn)) = E
  /\ totalLogHeight drawn = E * logHeightPerWorkflow rows workflows st
  /\ (0 < E -> totalLogHeight drawn <= available < totalLogHeight drawn + E)
  /\ (E = 0 -> totalLogHeight drawn = 0).
Proof.
  intros [Hidx Hsub]. cbv zeta. unfold dashboardRows.
  pose proof (expanded_count (expandedSet st) (orderedWorkflows workflows)
                (orderedWorkflows_NoDup workflows) Hsub) as Hcount.
  assert (Htotal : totalLogHeight (rowsFrom rows workflows st 0 (orderedWorkflows workflows))
                   = expandedCount st * logHeightPerWorkflow rows workflows st).
  { rewrite rowsFrom_heights, Hcount. reflexivity. }
  split; [apply rowsFrom_workflows |].
  split.
  { rewrite rowsFrom_selected. split_comparisons; simpl in *; try reflexivity; lia. }
  split.
  { unfold expandedCount. now rewrite rowsFrom_expanded, Hcount. }
  split; [exact Htotal |].
  rewrite Htotal.
  destruct (layout_space_share rows workflows st) as [Hpos Hzero].
  split.
  - intros HE. destruct (Hpos HE) as [_ Hbounds]. lia.
  - intros HE. rewrite HE. lia.
Qed.

(** ** What the dashboard reads *)

Lemma getWorkflowProgress_total (JSON_parse : string -> option JsonValue)
    (workflow : string) (w : World) :
  exists v, getWorkflowProgress JSON_parse workflow w = (Ret v, w).
Proof.
  unfold getWorkflowProgress, try_catch, bind.
  pose proof (readTextFile_pure (progressFile workflow) w) as Hpure.
  destruct (readTextFile (progressFile workflow) w) as [[text | e] w'];
    simpl in Hpure; subst w'; [| now eexists].
  destruct (JSON_parse text); now eexists.
Qed.

Lemma getProjectStatus_pure (JSON_parse : string -> option JsonValue)
    (RegExp_test : string -> string -> option bool) (project workflow : string) (w : World) :
  snd (getProjectStatus JSON_parse RegExp_test project workflow w) = w.
Proof.
  unfold getProjectStatus, bind.
  destruct (getWorkflowProgress_total JSON_parse workflow w) as [v ->].
  destruct (statusFromLog_total RegExp_test project workflow w) as [status Hlog].
  destruct (truthy v); [| now rewrite Hlog].
  destruct (call_includes _ project) as [[|] | e]; try reflexivity.
  destruct (strict_equal _ project); [reflexivity | now rewrite Hlog].
Qed.

Lemma wasWorkflowAbandonedSync_reads (workflow : string) (w : World) :
  wasWorkflowAbandonedSync workflow w = (Ret (reads_running workflow w), w).
Proof. apply wasWorkflowAbandoned_reads. Qed.

Lemma rowStatus_reads (workflow : string) (w : World) :
  rowStatus workflow w
  = (Ret (match readTextFile (statusFile workflow) w with
          | (Ret status, _) => Js.trim status
          | (Throw _, _) => "PENDING"
          end), w).
Proof.
  unfold rowStatus, try_catch, bind.
  pose proof (readTextFile_pure (statusFile workflow) w) as Hpure.
  destruct (readTextFile (statusFile workflow) w) as [[text | e] w'];
    simpl in Hpure; subst w'; reflexivity.
Qed.

Lemma mapM_cons {A B} (f : A -> IO B) (x : A) (rest : list A) (w : World) :
  mapM f (x :: rest) w
  = match f x w with
    | (Ret y, w1) =>
        match mapM f rest w1 with
        | (Ret ys, w2) => (Ret (y :: ys), w2)
        | (Throw e, w2) => (Throw e, w2)
        end
    | (Throw e, w1) => (Throw e, w1)
    end.
Proof.
  cbn [mapM]. unfold bind, ret.
  destruct (f x w) as [[y | e] w1]; [| reflexivity].
  destruct (mapM f rest w1) as [[ys | e] w2]; reflexivity.
Qed.

Lemma projectIcons_run (JSON_parse : string -> option JsonValue)
    (RegExp_test : string -> string -> option bool)
    (projects : list string) (workflow : string) (w : World) :
  snd (projectIcons JSON_parse RegExp_test projects workflow w) = w
  /\ match fst (projectIcons JSON_parse RegExp_test projects workflow w) with
     | Ret icons =>
         map Ret icons
         = map (fun project =>
                  match fst (getProjectStatus JSON_parse RegExp_test project workflow w) with
                  | Ret status => Ret (projectIcon status)
                  | Throw e => Throw e
                  end) projects
     | Throw e =>
         exists project, In project projects
           /\ fst (getProjectStatus JSON_parse RegExp_test project workflow w) = Throw e
     end.
Proof.
  unfold projectIcons.
  induction projects as [|p ps [IHw IH]]; [split; reflexivity |].
  rewrite mapM_cons.
  change ((taskStatus <- getProjectStatus JSON_parse RegExp_test p workflow ;;
           ret (projectIcon taskStatus)) w)
    with (let (o, w1) := getProjectStatus JSON_parse RegExp_test p workflow w in
          match o with
          | Ret status => (Ret (projectIcon status), w1)
          | Throw e => (Throw e, w1)
          end).
  pose proof (getProjectStatus_pure JSON_parse RegExp_test p workflow w) as Hpure.
  destruct (getProjectStatus JSON_parse RegExp_test p workflow w) as [[status | e] w'] eqn:Hp;
    simpl in Hpure; subst w'.
  - destruct (mapM _ ps w) as [[icons | e] w'] eqn:Hrest; simpl in IHw, IH; subst w'.
    + split; [reflexivity |]. cbn [fst map]. now rewrite IH, Hp.
    + split; [reflexivity |]. cbn [fst].
      destruct IH as (q & Hin & Hq). exists q. split; [now right | exact Hq].
  - split; [reflexivity |]. cbn [fst]. exists p. split; [now left | now rewrite Hp].
Qed.

(** X6: what the dashboard calls to look at a workflow changes nothing in
    the world, on any path, a throwing one included; and reading the
    progress record, the tail of the log, the status of the row and the
    test for an abandoned session never throw. *)
Theorem dashboard_only_reads (JSON_parse : string -> option JsonValue)
    (RegExp_test : string -> string -> option bool)
    (projects : list string) (project workflow : string) (logHeight : Z) (w : World) :
  snd (getProjectStatus JSON_parse RegExp_test project workflow w) = w
  /\ snd (projectIcons JSON_parse RegExp_test projects workflow w) = w
  /\ (exists progress, getWorkflowProgress JSON_parse workflow w = (Ret progress, w))
  /\ (exists shown, tailLog workflow logHeight w = (Ret shown, w))
  /\ (exists status, rowStatus workflow w = (Ret status, w))
  /\ (exists resumed, wasWorkflowAbandonedSync workflow w = (Ret resumed, w)).
Proof.
  split; [apply getProjectStatus_pure |].
  split; [apply projectIcons_run |].
  split; [apply getWorkflowProgress_total |].
  split.
  { destruct (tailLog_runs workflow logHeight w) as (shown & Hrun & _).
    exists shown. exact Hrun. }
  split; [eexists; apply rowStatus_reads |].
  eexists. apply wasWorkflowAbandonedSync_reads.
Qed.


Lemma initialState_ok (workflows : list string) :
  orderedWorkflows workflows <> [] -> dashboard_ok workflows initialState.
Proof.
  intros Hne. split; [| apply empty_subseteq].
  simpl. destruct (orderedWorkflows workflows); [congruence | simpl; lia].
Qed.

Lemma dashboardRows_layout_witness :
  let workflows := ["lint"; "type"; "build"] in
  let st := pressAll workflows [enter; arrow_down; letter "l"; arrow_down] initialState in
  let drawn := dashboardRows (Some 30) workflows st in
  dashboard_ok workflows st
  /\ map row_workflow drawn = ["type"; "build"; "lint"]
  /\ map row_isSelected drawn = [false; false; true]
  /\ map row_logHeight drawn = [6; 6; 0]
  /\ totalLogHeight drawn = 2 * logHeightPerWorkflow (Some 30) workflows st
  /\ availableHeight (Some 30) workflows st = 12.
Proof.
  cbv zeta.
  assert (Hne : orderedWorkflows ["lint"; "type"; "build"] <> []) by (vm_compute; congruence).
  pose proof (pressAll_keeps_ok ["lint"; "type"; "build"]
                [enter; arrow_down; letter "l"; arrow_down] initialState Hne
                (initialState_ok _ Hne)) as Hok.
  split; [exact Hok |].
  destruct (dashboardRows_layout (Some 30) _ _ Hok) as (Hrows & _ & _ & Htotal & _).
  split; [exact Hrows |].
  split; [vm_compute; reflexivity |].
  split; [vm_compute; reflexivity |].
  split; [exact Htotal |].
  vm_compute; reflexivity.
Defined.

(** ** A session and the row that shows it *)

Lemma reads_running_frame (workflow : string) (w w' : World) :
  env w' = env w ->
  files w' !! statusFile workflow = files w !! statusFile workflow ->
  reads_running workflow w' = reads_running workflow w.
Proof.
  intros Henv Hfile. unfold reads_running, readTextFile. rewrite Henv, Hfile.
  destruct (denied (env w) OpRead (statusFile workflow)); [reflexivity |].
  destruct (files w !! statusFile workflow); reflexivity.
Qed.

Lemma reads_running_marked (workflow : string) (w : World) :
  denied (env w) OpRead (statusFile workflow) = false ->
  files w !! statusFile workflow = Some "RUNNING" ->
  reads_running workflow w = true.
Proof.
  intros Hread Hfile. unfold reads_running, readTextFile. now rewrite Hread, Hfile.
Qed.

Lemma reads_running_settled (workflow : string) (b : bool) (w : World) :
  files w !! statusFile workflow = Some (if b then "COMPLETED" else "FAILED") ->
  reads_running workflow w = false.
Proof.
  intros Hfile. unfold reads_running, readTextFile. rewrite Hfile.
  destruct (denied (env w) OpRead (statusFile workflow)); [reflexivity |].
  destruct b; reflexivity.
Qed.

Lemma rowStatus_running (workflow : string) (w : World) :
  reads_running workflow w = true -> rowStatus workflow w = (Ret "RUNNING", w).
Proof.
  intros Hrun. rewrite rowStatus_reads. unfold reads_running in Hrun.
  destruct (readTextFile (statusFile workflow) w) as [[status | e] w']; [| discriminate].
  apply String.eqb_eq in Hrun. now rewrite Hrun.
Qed.

(** X8: once a session has returned, the row of its workflow shows
    COMPLETED with the pass icon for [true] and FAILED with the error icon
    for [false], without the resume marker; the workflow does not count as
    abandoned, and a further session would start a fresh conversation. *)
Theorem row_after_session (workflow : string) (projects : list string) (w : World) (b : bool) :
  fst (runWorkflowSession workflow projects w) = Ret b ->
  denied (env w) OpRead (statusFile workflow) = false ->
  let w' := snd (runWorkflowSession workflow projects w) in
  let status := if b then "COMPLETED" else "FAILED" in
  rowStatus workflow w' = (Ret status, w')
  /\ statusIcon status = (if b then IconPass else IconFail)
  /\ (forall isResumed, resumeMarker isResumed status = "")
  /\ wasWorkflowAbandonedSync workflow w' = (Ret false, w')
  /\ wasWorkflowAbandoned workflow w' = (Ret false, w')
  /\ session_args workflow projects w' = fresh_args workflow projects.
Proof.
  intros Hret Hread. cbv zeta.
  destruct (returned_session_files workflow projects w b Hret) as [Hstatus _].
  destruct (session_frame workflow projects w) as (Henv & _).
  pose proof (reads_running_settled workflow b _ Hstatus) as Hsettled.
  split.
  { rewrite rowStatus_reads. unfold readTextFile. rewrite Henv, Hread, Hstatus.
    destruct b; reflexivity. }
  split; [destruct b; reflexivity |].
  split; [intros isResumed; destruct b, isResumed; reflexivity |].
  split; [now rewrite wasWorkflowAbandonedSync_reads, Hsettled |].
  split; [now rewrite wasWorkflowAbandoned_reads, Hsettled |].
  unfold session_args. now rewrite Hsettled.
Qed.

Lemma row_after_session_witness :
  let w' := snd (runWorkflowSession "type" ["web"] world_abandoned) in
  fst (runWorkflowSession "type" ["web"] world_abandoned) = Ret false
  /\ rowStatus "type" w' = (Ret "FAILED", w')
  /\ statusIcon "FAILED" = IconFail
  /\ wasWorkflowAbandoned "type" w' = (Ret false, w').
Proof.
  cbv zeta.
  assert (Hret : fst (runWorkflowSession "type" ["web"] world_abandoned) = Ret false)
    by (vm_compute; reflexivity).
  destruct (row_after_session "type" ["web"] world_abandoned false Hret eq_refl)
    as (Hrow & Hicon & _ & _ & Hab & _).
  split; [exact Hret |]. split; [exact Hrow |]. split; [exact Hicon | exact Hab].
Defined.

(** X9: a session that throws leaves its workflow resumable. If the status
    file can be written and read, then after a session that threw (the tool
    missing, the prompt or the log refused) the status reads RUNNING: the
    row shows RUNNING, the workflow counts as abandoned, and the next session
    passes the resume flag, even when no conversation was ever started. *)
Theorem thrown_session_reads_running (workflow : string) (projects : list string) (w : World)
    (e : JsError) :
  fst (runWorkflowSession workflow projects w) = Throw e ->
  denied (env w) OpWriteText (statusFile workflow) = false ->
  denied (env w) OpRead (statusFile workflow) = false ->
  let w' := snd (runWorkflowSession workflow projects w) in
  reads_running workflow w' = true
  /\ rowStatus workflow w' = (Ret "RUNNING", w')
  /\ statusIcon "RUNNING" = IconRunning
  /\ wasWorkflowAbandoned workflow w' = (Ret true, w')
  /\ session_args workflow projects w' = resume_args.
Proof.
  intros Hthrow Hwrite Hread. cbv zeta.
  pose proof (log_not_status workflow) as Hls.
  pose proof (status_not_prompt workflow) as Hsp.
  assert (Hrun : reads_running workflow (snd (runWorkflowSession workflow projects w)) = true).
  { destruct (prepare workflow projects w) as [[[p rid] | e'] w1] eqn:Hprep.
    - destruct (session_after_prepare _ _ _ _ _ _ Hprep) as (_ & _ & _ & _ & _ & _ & Hfin).
      rewrite Hfin in Hthrow. unfold finish in Hthrow. rewrite started_env, Hwrite in Hthrow.
      discriminate Hthrow.
    - rewrite (session_when_prepare_throws _ _ _ _ _ Hprep). cbn [snd].
      rewrite prepare_cases in Hprep. cbv zeta in Hprep. rewrite Hwrite in Hprep.
      destruct (reads_running workflow w) eqn:Hwas;
        repeat match type of Hprep with
          | context [match tool ?e ?n ?a with _ => _ end] => destruct (tool e n a)
          | context [if denied ?e ?o ?q then _ else _] => destruct (denied e o q)
          end;
        try discriminate; injection Hprep as _ <-;
        first [ rewrite <- Hwas; apply reads_running_frame; frame_files; reflexivity
              | apply reads_running_marked; frame_files;
                [exact Hread | now rewrite lookup_insert_eq] ]. }
  split; [exact Hrun |].
  split; [now apply rowStatus_running |].
  split; [reflexivity |].
  split; [now rewrite wasWorkflowAbandoned_reads, Hrun |].
  unfold session_args. now rewrite Hrun.
Qed.

Lemma thrown_session_reads_running_witness :
  let w' := snd (runWorkflowSession "type" ["web"] world_no_tool) in
  fst (runWorkflowSession "type" ["web"] world_no_tool) = Throw (NotFound "copilot")
  /\ reads_running "type" world_no_tool = false
  /\ rowStatus "type" w' = (Ret "RUNNING", w')
  /\ session_args "type" ["web"] w' = resume_args.
Proof.
  cbv zeta.
  assert (Hthrow : fst (runWorkflowSession "type" ["web"] world_no_tool)
                   = Throw (NotFound "copilot")) by (vm_compute; reflexivity).
  destruct (thrown_session_reads_running "type" ["web"] world_no_tool _ Hthrow eq_refl eq_refl)
    as (_ & Hrow & _ & _ & Hargs).
  split; [exact Hthrow |]. split; [vm_compute; reflexivity |].
  split; [exact Hrow | exact Hargs].
Defined.

(** X10: a session returns exactly when the tool starts and nothing it
    needs is refused: the status file can be written, the log opened, and
    the log written (resuming) or the prompt saved (starting). What it
    returns is whether the exit code is zero. Nothing else stops it: not a
    read of the tool's output that fails, and on a fresh start not even a
    log that refuses every write. What a session throws is the missing tool
    or the refusal of one of its own three files. *)
Theorem session_returns_exactly (workflow : string) (projects : list string) (w : World) :
  let run := runWorkflowSession workflow projects w in
  let resume := reads_running workflow w in
  let args := session_args workflow projects w in
  (forall b,
      fst run = Ret b <->
      exists p, tool (env w) (length (children w)) args = Some p
        /\ b = success (p_code p)
        /\ denied (env w) OpWriteText (statusFile workflow) = false
        /\ denied (env w) OpOpen (logFile workflow) = false
        /\ (if resume then denied (env w) OpWrite (logFile workflow) = false
            else denied (env w) OpWriteText (promptFile workflow) = false))
  /\ (forall e,
        fst run = Throw e ->
        (e = NotFound "copilot" /\ tool (env w) (length (children w)) args = None)
        \/ exists path, owned workflow path /\ e = PermissionDenied path).
Proof.
  cbv zeta. unfold session_args, owned.
  destruct (prepare workflow projects w) as [[[p rid] | e'] w1] eqn:Hprep.
  - destruct (session_after_prepare _ _ _ _ _ _ Hprep)
      as (_ & Htool & Hopen & Hres & Hfresh & _ & Hfin).
    unfold session_args in Htool. rewrite Hfin. unfold finish. rewrite started_env.
    split.
    + intros b. split.
      * intros Hret. exists p.
        destruct (denied (env w) OpWriteText (statusFile workflow)) eqn:Hst;
          [discriminate Hret |].
        injection Hret as <-.
        split; [exact Htool |]. split; [reflexivity |]. split; [reflexivity |].
        split; [exact Hopen |].
        destruct (reads_running workflow w); [now apply Hres | now apply Hfresh].
      * intros (q & Hq & -> & Hst & _). rewrite Hst. cbn [fst].
        rewrite Htool in Hq. now injection Hq as ->.
    + intros e Hthrow. right.
      destruct (denied (env w) OpWriteText (statusFile workflow)); [| discriminate Hthrow].
      injection Hthrow as <-. eexists. split; [left; reflexivity | reflexivity].
  - rewrite (session_when_prepare_throws _ _ _ _ _ Hprep). cbn [fst].
    rewrite prepare_cases in Hprep. cbv zeta in Hprep.
    split.
    + intros b. split; [discriminate |].
      intros (q & Hq & _ & Hst & Hopen & Hrest). exfalso.
      rewrite Hst, Hopen in Hprep.
      destruct (reads_running workflow w); rewrite Hq, Hrest in Hprep; discriminate Hprep.
    + intros e Hthrow. injection Hthrow as ->.
      destruct (reads_running workflow w);
        repeat match type of Hprep with
          | context [match tool ?e ?n ?a with _ => _ end] => destruct (tool e n a)
          | context [if denied ?e ?o ?q then _ else _] => destruct (denied e o q)
          end;
        try discriminate; injection Hprep as <- _;
        first [ left; split; reflexivity
              | right; eexists; split; [| reflexivity]; auto ].
Qed.

(** X11: a resumed session only appends to the log. Whatever happens (the
    tool missing, the log refused, a failing exit), the log afterwards is the
    text it held before with something behind it. *)
Theorem resumed_log_only_grows (workflow : string) (projects : list string) (w : World) :
  reads_running workflow w = true ->
  exists suffix,
    text_of (logFile workflow) (snd (runWorkflowSession workflow projects w))
    = text_of (logFile workflow) w ++ suffix.
Proof.
  intros Hresume.
  pose proof (log_not_status workflow) as Hls.
  destruct (prepare workflow projects w) as [[[p rid] | e'] w1] eqn:Hprep.
  - destruct (session_after_prepare _ _ _ _ _ _ Hprep) as (_ & _ & _ & _ & _ & _ & Hfin).
    rewrite Hfin. unfold finish, log_start. rewrite Hresume, started_env.
    exists (resume_marker (iso (env w) (now w))
            ++ logged (started workflow projects w) (logFile workflow) p).
    rewrite <- append_assoc.
    destruct (denied (env w) OpWriteText (statusFile workflow)); cbn [snd];
      unfold text_of, after_exit; frame_files; now rewrite lookup_insert_eq.
  - rewrite (session_when_prepare_throws _ _ _ _ _ Hprep). cbn [snd].
    rewrite prepare_cases in Hprep. cbv zeta in Hprep. rewrite Hresume in Hprep.
    exists "". rewrite append_empty_r.
    repeat match type of Hprep with
      | context [match tool ?e ?n ?a with _ => _ end] => destruct (tool e n a)
      | context [if denied ?e ?o ?q then _ else _] => destruct (denied e o q)
      end;
      try discriminate; injection Hprep as _ <-; try reflexivity.
    unfold text_of. frame_files. now rewrite lookup_insert_eq.
Qed.

Lemma resumed_log_only_grows_witness :
  reads_running "type" world_abandoned = true
  /\ exists suffix,
       text_of (logFile "type") (snd (runWorkflowSession "type" ["web"] world_abandoned))
       = ("earlier output" ++ nl) ++ suffix.
Proof.
  assert (Hresume : reads_running "type" world_abandoned = true) by (vm_compute; reflexivity).
  split; [exact Hresume |].
  exact (resumed_log_only_grows "type" ["web"] world_abandoned Hresume).
Defined.

(** ** The orchestrator: the note on resumed workflows, and the processes *)

Lemma resume_status_apart (workflow : string) :
  resume_status_file <> WORKFLOWS_FILE /\ ~ owned workflow resume_status_file.
Proof.
  split; [intros H; vm_compute in H; discriminate H |].
  intros [H | [H | H]]; vm_compute in H; discriminate H.
Qed.

Lemma join_sessions_frame (projects snapshot : list string) (w1 : World) :
  let w' := snd (join_sessions projects snapshot w1) in
  env w' = env w1 /\ console w' = console w1
  /\ (forall path, path <> WORKFLOWS_FILE -> (forall workflow, ~ owned workflow path) ->
        files w' !! path = files w1 !! path).
Proof.
  cbv zeta. unfold join_sessions.
  destruct (launch (now w1) (sessions projects (orderedWorkflows snapshot)) w1)
    as [rs w2] eqn:Hl.
  destruct (launch_sessions _ _ _ _ _ _ (orderedWorkflows_NoDup snapshot) Hl)
    as (Henv & _ & Hcon & _ & _ & _ & Hframe & _).
  destruct (first_rejection rs) as [[t e] |]; cbn [snd].
  - repeat split; [exact Henv | exact Hcon |].
    intros path _ Hfree. cbn [files with_now with_arrays]. apply Hframe. auto.
  - destruct (denied _ OpWriteText WORKFLOWS_FILE); cbn [snd];
      (repeat split; [exact Henv | exact Hcon |]);
      intros path Hne Hfree; cbn [files with_now with_arrays with_files];
      rewrite ?lookup_insert_ne by congruence; apply Hframe; auto.
Qed.

(** X12: [runAllWorkflows] notes the workflows it resumes in a file of its
    own and not on the console. When some selected workflow reads RUNNING on
    entry, the file holds their names in the canonical order, separated by
    commas, whatever the sessions do afterwards; when none does, the file is
    left as it was. A note that cannot be written stops the run before any
    session starts. No path prints on the console. *)
Theorem resume_status_noted (workflows : nat) (projects : list string) (w : World) :
  let snapshot := default [] (arrays w !! workflows) in
  let abandoned := abandoned_in w (orderedWorkflows snapshot) in
  let run := runAllWorkflows workflows projects w in
  console (snd run) = console w
  /\ (abandoned = [] ->
      files (snd run) !! resume_status_file = files w !! resume_status_file)
  /\ (abandoned <> [] ->
      if denied (env w) OpWriteText resume_status_file
      then run = (Throw (PermissionDenied resume_status_file), w)
      else files (snd run) !! resume_status_file
           = Some ("Resuming abandoned workflows: " ++ Js.join ", " abandoned ++ nl)).
Proof.
  cbv zeta. rewrite runAllWorkflows_cases. cbv zeta.
  set (snapshot := default [] (arrays w !! workflows)).
  set (abandoned := abandoned_in w (orderedWorkflows snapshot)).
  destruct (resume_status_apart "") as [Hsel _].
  assert (Hfree : forall workflow, ~ owned workflow resume_status_file)
    by (intros workflow; apply resume_status_apart).
  destruct abandoned as [|first rest] eqn:Hab; cbn [length Nat.ltb Nat.leb].
  - destruct (join_sessions_frame projects snapshot w) as (_ & Hcon & Hframe).
    split; [exact Hcon |]. split; [intros _; now apply Hframe | congruence].
  - destruct (denied (env w) OpWriteText resume_status_file).
    + split; [reflexivity |]. split; [discriminate | reflexivity].
    + match goal with |- context [join_sessions projects snapshot ?w1] =>
        destruct (join_sessions_frame projects snapshot w1) as (_ & Hcon & Hframe)
      end.
      split; [exact Hcon |]. split; [discriminate |].
      intros _. rewrite Hframe by assumption.
      cbn [files with_files]. now rewrite lookup_insert_eq.
Qed.

Lemma resume_status_noted_witness :
  let w := with_arrays {[ O := ["lint"; "type"] ]} world_abandoned in
  abandoned_in w (orderedWorkflows ["lint"; "type"]) = ["type"]
  /\ files (snd (runAllWorkflows O ["web"] w)) !! resume_status_file
     = Some ("Resuming abandoned workflows: type" ++ nl)
  /\ console (snd (runAllWorkflows O ["web"] w)) = [].
Proof.
  cbv zeta.
  destruct (resume_status_noted O ["web"] (with_arrays {[ O := ["lint"; "type"] ]} world_abandoned))
    as (Hcon & _ & Hnote).
  split; [vm_compute; reflexivity |].
  split; [| exact Hcon].
  apply Hnote. vm_compute. discriminate.
Defined.

Lemma finish_children (workflow : string) (rid : nat) (a : bool) (c : string) (p : Proc)
    (base : World) :
  children (snd (finish workflow rid a c p base)) = children base.
Proof.
  unfold finish. destruct (denied (env base) OpWriteText (statusFile workflow)); reflexivity.
Qed.

Lemma session_args_frame (workflow : string) (projects : list string) (w w' : World) :
  env w' = env w ->
  files w' !! statusFile workflow = files w !! statusFile workflow ->
  session_args workflow projects w' = session_args workflow projects w.
Proof.
  intros Henv Hfile. unfold session_args.
  now rewrite (reads_running_frame workflow w w' Henv Hfile).
Qed.

Lemma session_spawns_once (workflow : string) (projects : list string) (w : World) :
  (forall op path, denied (env w) op path = false) ->
  (forall n args, is_Some (tool (env w) n args)) ->
  children (snd (runWorkflowSession workflow projects w))
  = (children w ++ [("copilot" : string) :: session_args workflow projects w])%list.
Proof.
  intros Hfree Htools.
  destruct (Htools (length (children w)) (session_args workflow projects w)) as [p Hp].
  destruct (prepare_succeeds workflow projects w Hfree p Hp) as [w1 Hprep].
  destruct (session_after_prepare _ _ _ _ _ _ Hprep) as (_ & _ & _ & _ & _ & _ & ->).
  now rewrite finish_children, started_children.
Qed.

Lemma launch_children (t0 : nat) (projects selected : list string) :
  forall (w : World) (rs : list (nat * outcome bool)) (w' : World),
  NoDup selected ->
  (forall op path, denied (env w) op path = false) ->
  (forall n args, is_Some (tool (env w) n args)) ->
  launch t0 (sessions projects selected) w = (rs, w') ->
  children w'
  = (children w
     ++ map (fun workflow => ("copilot" : string) :: session_args workflow projects w)
            selected)%list.
Proof.
  induction selected as [|wf rest IH]; intros w rs w' Hnd Hfree Htools Hl.
  - simpl in Hl. injection Hl as _ <-. simpl. now rewrite app_nil_r.
  - cbn [sessions map launch] in Hl.
    pose proof (session_frame wf projects (with_now t0 w))
      as (Henv & _ & _ & _ & _ & Hframe & _).
    pose proof (session_spawns_once wf projects (with_now t0 w) Hfree Htools) as Hspawn.
    destruct (runWorkflowSession wf projects (with_now t0 w)) as [r w1].
    cbn [fst snd] in *.
    fold (sessions projects rest) in Hl.
    destruct (launch t0 (sessions projects rest)
                (with_settled (settled w1 ++ [(wf, now w1)])%list w1)) as [rs' w2] eqn:Hrest.
    injection Hl as _ <-.
    apply NoDup_cons in Hnd as [Hnotin Hnd].
    cbn [env with_now] in Henv.
    rewrite (IH _ _ _ Hnd) with (3 := Hrest);
      [| cbn [env with_settled]; rewrite Henv; assumption
       | cbn [env with_settled]; rewrite Henv; assumption].
    cbn [children with_settled]. rewrite Hspawn. cbn [children with_now].
    rewrite <- app_assoc. f_equal. cbn [app map]. f_equal.
    { f_equal. now apply session_args_frame. }
    apply map_ext_in. intros workflow Hin. f_equal.
    apply session_args_frame; [exact Henv |].
    cbn [files with_settled]. rewrite Hframe; [reflexivity | | |];
      intros Heq; apply Hnotin; apply list_elem_of_In;
      [ assert (Hown : owned wf (statusFile workflow)) by (left; exact Heq)
      | assert (Hown : owned wf (statusFile workflow)) by (right; left; exact Heq)
      | assert (Hown : owned wf (statusFile workflow)) by (right; right; exact Heq) ];
      apply status_owned_by in Hown; now subst.
Qed.

(** X13: with nothing refused and the tool installed, [runAllWorkflows]
    starts one process for each selected workflow of the canonical list and
    no other; the process of a workflow whose status read RUNNING on entry
    gets the resume flag, every other one the prompt of its workflow. *)
Theorem one_process_per_workflow (workflows : nat) (projects : list string) (w : World) :
  (forall op path, denied (env w) op path = false) ->
  (forall n args, is_Some (tool (env w) n args)) ->
  let selected := orderedWorkflows (default [] (arrays w !! workflows)) in
  exists spawned_,
    children (snd (runAllWorkflows workflows projects w)) = (children w ++ spawned_)%list
    /\ spawned_ ≡ₚ map (fun workflow =>
                          ("copilot" : string)
                          :: (if reads_running workflow w then resume_args
                              else fresh_args workflow projects))
                       selected.
Proof.
  intros Hfree Htools. cbv zeta.
  set (snapshot := default [] (arrays w !! workflows)).
  assert (Hjoin : forall w1,
    env w1 = env w -> children w1 = children w ->
    (forall workflow, files w1 !! statusFile workflow = files w !! statusFile workflow) ->
    children (snd (join_sessions projects snapshot w1))
    = (children w
       ++ map (fun workflow => ("copilot" : string) :: session_args workflow projects w)
              (orderedWorkflows snapshot))%list).
  { intros w1 Henv Hch Hst. unfold join_sessions.
    destruct (launch (now w1) (sessions projects (orderedWorkflows snapshot)) w1)
      as [rs w2] eqn:Hl.
    assert (Hchildren : children w2
              = (children w1
                 ++ map (fun workflow => ("copilot" : string)
                                         :: session_args workflow projects w1)
                        (orderedWorkflows snapshot))%list).
    { apply (launch_children _ _ _ _ _ _ (orderedWorkflows_NoDup snapshot)) with (3 := Hl);
        rewrite Henv; assumption. }
    assert (Hgoal : children w2
              = (children w
                 ++ map (fun workflow => ("copilot" : string)
                                         :: session_args workflow projects w)
                        (orderedWorkflows snapshot))%list).
    { rewrite Hchildren, Hch. f_equal.
      apply map_ext. intros workflow. f_equal.
      apply session_args_frame; [exact Henv | apply Hst]. }
    destruct (first_rejection rs) as [[t e] |]; [exact Hgoal |].
    cbv zeta. destruct (denied _ OpWriteText WORKFLOWS_FILE); exact Hgoal. }
  eexists. split; [| reflexivity].
  rewrite runAllWorkflows_cases. cbv zeta. fold snapshot.
  destruct (0 <? length _)%nat.
  - rewrite Hfree. apply Hjoin; try reflexivity.
    intros workflow. cbn [files with_files]. apply lookup_insert_ne.
    intros Heq. apply (proj2 (resume_status_apart workflow)). left. exact Heq.
  - apply Hjoin; reflexivity.
Qed.

Lemma one_process_per_workflow_witness :
  exists spawned_,
    children (snd (runAllWorkflows O ["web"] world_three)) = ([] ++ spawned_)%list
    /\ spawned_ ≡ₚ map (fun workflow =>
                          ("copilot" : string)
                          :: (if reads_running workflow world_three then resume_args
                              else fresh_args workflow ["web"]))
                       ["type"; "build"; "lint"].
Proof.
  apply (one_process_per_workflow O ["web"] world_three).
  - intros op path. reflexivity.
  - intros n args. eexists. reflexivity.
Defined.

(** ** The canonical order *)

Lemma Array_includes_In (l : list string) (x : string) :
  Array_includes l x = true <-> In x l.
Proof.
  unfold Array_includes. rewrite existsb_exists. split.
  - intros (y & Hy & Heq). apply String.eqb_eq in Heq. now subst.
  - intros Hin. exists x. split; [exact Hin | apply String.eqb_refl].
Qed.

Lemma filter_ext_In {A} (f g : A -> bool) (l : list A) :
  (forall x, In x l -> f x = g x) -> List.filter f l = List.filter g l.
Proof.
  induction l as [|x l IH]; intros H; [reflexivity |].
  simpl. rewrite (H x) by now left.
  rewrite IH; [reflexivity |]. intros y Hy. apply H. now right.
Qed.

Lemma filter_sublist {A} (f : A -> bool) (l : list A) : sublist (List.filter f l) l.
Proof.
  induction l as [|x l IH]; [constructor |].
  simpl. destruct (f x); now constructor.
Qed.

(** X14: the workflows that are run and drawn are the selected ones among
    the four known names, each once, in the order type, build, test, lint:
    a selected name outside the four is dropped, a name selected twice
    counts once, and the order of the selection plays no part. Ordering
    again changes nothing. *)
Theorem orderedWorkflows_canonical (workflows : list string) :
  (forall workflow,
      In workflow (orderedWorkflows workflows)
      <-> In workflow workflows /\ In workflow ["type"; "build"; "test"; "lint"])
  /\ NoDup (orderedWorkflows workflows)
  /\ sublist (orderedWorkflows workflows) ["type"; "build"; "test"; "lint"]
  /\ orderedWorkflows (orderedWorkflows workflows) = orderedWorkflows workflows
  /\ (forall other,
        (forall workflow, In workflow other <-> In workflow workflows) ->
        orderedWorkflows other = orderedWorkflows workflows).
Proof.
  assert (Hmem : forall l workflow,
            In workflow (orderedWorkflows l)
            <-> In workflow l /\ In workflow WORKFLOW_ORDER).
  { intros l workflow. unfold orderedWorkflows.
    rewrite filter_In, Array_includes_In. tauto. }
  split; [exact (Hmem workflows) |].
  split; [apply orderedWorkflows_NoDup |].
  split; [apply filter_sublist |].
  split.
  - unfold orderedWorkflows at 1 3. apply filter_ext_In.
    intros x Hx. apply eq_true_iff_eq. rewrite !Array_includes_In, Hmem. tauto.
  - intros other Hsame. unfold orderedWorkflows. apply filter_ext_In.
    intros x _. apply eq_true_iff_eq. rewrite !Array_includes_In. apply Hsame.
Qed.

(** ** The selection files *)

Lemma split_line (x : string) :
  forallb (fun c => negb (Ascii.eqb c Js.LF)) (Js.chars x) = true ->
  String_split Js.LF x = [x].
Proof.
  induction x as [|c x IH]; intros Hfree; [reflexivity |].
  simpl in Hfree. apply andb_prop in Hfree as [Hc Hx].
  cbn [String_split]. apply negb_true_iff in Hc. rewrite Hc, (IH Hx). reflexivity.
Qed.

Lemma split_first_line (x rest : string) :
  forallb (fun c => negb (Ascii.eqb c Js.LF)) (Js.chars x) = true ->
  String_split Js.LF (x ++ nl ++ rest) = x :: String_split Js.LF rest.
Proof.
  induction x as [|c x IH]; intros Hfree.
  - rewrite append_empty_l. unfold nl. rewrite append_cons, append_empty_l.
    cbn [String_split]. now rewrite Ascii.eqb_refl.
  - simpl in Hfree. apply andb_prop in Hfree as [Hc Hx].
    rewrite append_cons. cbn [String_split].
    apply negb_true_iff in Hc. rewrite Hc, (IH Hx). reflexivity.
Qed.

Lemma split_join (l : list string) :
  l <> [] ->
  Forall (fun x => forallb (fun c => negb (Ascii.eqb c Js.LF)) (Js.chars x) = true) l ->
  String_split Js.LF (Js.join nl l) = l.
Proof.
  induction l as [|x l IH]; intros Hne Hfree; [congruence |].
  apply Forall_cons in Hfree as [Hx Hl].
  destruct l as [|y l].
  - simpl. now apply split_line.
  - cbn [Js.join]. rewrite (split_first_line _ _ Hx). f_equal.
    apply IH; [discriminate | exact Hl].
Qed.

Lemma filter_all {A} (f : A -> bool) (l : list A) :
  Forall (fun x => f x = true) l -> List.filter f l = l.
Proof.
  induction 1 as [|x l Hx _ IH]; [reflexivity |]. simpl. now rewrite Hx, IH.
Qed.

Lemma selection_lines_join (l : list string) :
  Forall storable l -> selection_lines (Js.join nl l) = l.
Proof.
  intros Hl. unfold selection_lines.
  destruct l as [|x l]; [reflexivity |].
  rewrite split_join; [| discriminate | eapply Forall_impl; [exact Hl | intros y [_ Hy]; exact Hy]].
  apply filter_all. eapply Forall_impl; [exact Hl | intros y [Hy _]; exact Hy].
Qed.

Lemma selection_lines_storable (previous : string) :
  Forall storable (selection_lines previous).
Proof.
  apply Forall_forall. intros name Hin. apply list_elem_of_In in Hin.
  unfold selection_lines in Hin. apply filter_In in Hin as [Hin Hname].
  split; [exact Hname |]. eapply split_pieces_free. exact Hin.
Qed.

Lemma workflow_options_storable : Forall storable workflow_options.
Proof. repeat constructor. Qed.

Lemma forEach_console_log (f : string -> string) (l : list string) (w : World) :
  forEach (fun p => console_log (f p)) l w
  = (Ret tt, with_console (console w ++ map f l) w).
Proof.
  revert w. induction l as [|x l IH]; intros w.
  - simpl. rewrite app_nil_r. destruct w; reflexivity.
  - cbn [forEach map]. unfold bind, console_log at 1. rewrite IH.
    cbn [console with_console]. unfold with_console. cbn.
    now rewrite <- app_assoc.
Qed.

Lemma with_console_again (c c' : list string) (w : World) :
  with_console c (with_console c' w) = with_console c w.
Proof. reflexivity. Qed.

(** What [selectWorkflowsWithCliffy] does once the [try] block is left. *)
Lemma selectWorkflows_cases (choice : KeepChoice) (answer : list string -> list string)
    (w : World) :
  selectWorkflowsWithCliffy choice answer w =
  let ask (w1 : World) : halt (list string) * World :=
    let selected := answer workflow_options in
    if (length selected =? 0)%nat
    then (Exit 0, with_console (console w1 ++ ["No workflows selected. Exiting."]) w1)
    else if denied (env w1) OpWriteText WORKFLOWS_FILE
         then (Done (Throw (PermissionDenied WORKFLOWS_FILE)), w1)
         else (Done (Ret selected),
               with_files (<[WORKFLOWS_FILE := Js.join nl selected]> (files w1)) w1) in
  match readTextFile WORKFLOWS_FILE w with
  | (Ret previous, _) =>
      let w1 := with_console
                  (console w
                   ++ ["Previously selected workflows: "
                         ++ Js.join ", " (selection_lines previous); ""]) w in
      match choice with
      | ExitChoice => (Exit 0, w1)
      | Keep => (Done (Ret (selection_lines previous)), w1)
      | Reselect => ask w1
      end
  | (Throw _, _) => ask w
  end.
Proof.
  cbv zeta. unfold selectWorkflowsWithCliffy.
  unfold pbind at 1. unfold ptry_catch. unfold pbind at 1. unfold run_io at 1.
  pose proof (readTextFile_pure WORKFLOWS_FILE w) as Hpure.
  destruct (readTextFile WORKFLOWS_FILE w) as [[previous | e] w0];
    simpl in Hpure; subst w0.
  - unfold pbind at 1. unfold run_io at 1, console_log at 1.
    unfold pbind at 1. unfold run_io at 1, console_log at 1.
    cbn [console with_console].
    replace (with_console _ (with_console _ w))
      with (with_console
              (console w
               ++ ["Previously selected workflows: "
                     ++ Js.join ", " (selection_lines previous); ""]) w)
      by (unfold with_console; cbn; now rewrite <- app_assoc).
    destruct choice; unfold Deno_exit, pret; try reflexivity.
    cbn [env with_console].
    destruct (length (answer workflow_options) =? 0)%nat; [reflexivity |].
    unfold pbind, run_io, writeTextFile. cbn [env with_console].
    destruct (denied (env w) OpWriteText WORKFLOWS_FILE); reflexivity.
  - unfold pret at 1.
    destruct (length (answer workflow_options) =? 0)%nat; [reflexivity |].
    unfold pbind, run_io, writeTextFile.
    destruct (denied (env w) OpWriteText WORKFLOWS_FILE); reflexivity.
Qed.

(** The lines [selectProjectsWithCliffy] prints for a previous selection. *)
Lemma selectProjects_cases (choice : KeepChoice) (answer : list string -> list string)
    (allProjects : list string) (w : World) :
  selectProjectsWithCliffy choice answer allProjects w =
  let ask (w1 : World) : halt (list string) * World :=
    let selected := answer allProjects in
    if (length selected =? 0)%nat
    then (Exit 0, with_console (console w1 ++ ["No projects selected. Exiting."]) w1)
    else if denied (env w1) OpWriteText PROJECTS_FILE
         then (Done (Throw (PermissionDenied PROJECTS_FILE)), w1)
         else (Done (Ret selected),
               with_files (<[PROJECTS_FILE := Js.join nl selected]> (files w1)) w1) in
  match readTextFile PROJECTS_FILE w with
  | (Ret previous, _) =>
      let names := selection_lines previous in
      let w1 := with_console
                  (console w
                   ++ ["Previously selected projects (" ++ decimal (length names) ++ "):"]
                   ++ map (fun p => "  " ++ p) (take 10 names)
                   ++ (if (10 <? length names)%nat
                       then ["  ... and " ++ decimal (length names - 10) ++ " more"]
                       else [])
                   ++ [""]) w in
      match choice with
      | ExitChoice => (Exit 0, w1)
      | Keep => (Done (Ret names), w1)
      | Reselect => ask w1
      end
  | (Throw _, _) => ask w
  end.
Proof.
  cbv zeta. unfold selectProjectsWithCliffy.
  unfold pbind at 1. unfold ptry_catch. unfold pbind at 1. unfold run_io at 1.
  pose proof (readTextFile_pure PROJECTS_FILE w) as Hpure.
  destruct (readTextFile PROJECTS_FILE w) as [[previous | e] w0];
    simpl in Hpure; subst w0.
  - set (names := selection_lines previous).
    destruct (10 <? length names)%nat;
      unfold pbind, run_io, pret, Deno_exit;
      unfold console_log at 1; rewrite forEach_console_log;
      unfold console_log, writeTextFile; cbn [console with_console env files];
      rewrite ?with_console_again, ?app_nil_r, <- ?app_assoc;
      destruct choice; try reflexivity;
      destruct (length (answer allProjects) =? 0)%nat;
      cbn [console env with_console];
      rewrite ?with_console_again, <- ?app_assoc; try reflexivity;
      destruct (denied (env w) OpWriteText PROJECTS_FILE); reflexivity.
  - unfold pret at 1.
    destruct (length (answer allProjects) =? 0)%nat; [reflexivity |].
    unfold pbind, run_io, writeTextFile.
    destruct (denied (env w) OpWriteText PROJECTS_FILE); reflexivity.
Qed.

Lemma readTextFile_console (path : string) (c : list string) (w : World) :
  fst (readTextFile path (with_console c w)) = fst (readTextFile path w).
Proof.
  unfold readTextFile. cbn [env files with_console].
  destruct (denied (env w) OpRead path); [reflexivity |].
  destruct (files w !! path); reflexivity.
Qed.

Lemma selectWorkflows_keep (answer : list string -> list string) (w : World)
    (previous : string) :
  denied (env w) OpRead WORKFLOWS_FILE = false ->
  files w !! WORKFLOWS_FILE = Some previous ->
  exists w', selectWorkflowsWithCliffy Keep answer w = (Done (Ret (selection_lines previous)), w')
             /\ files w' = files w.
Proof.
  intros Hread Hfile. rewrite selectWorkflows_cases. cbv zeta.
  unfold readTextFile. rewrite Hread, Hfile. eexists. split; reflexivity.
Qed.

Lemma selectProjects_keep (answer : list string -> list string) (allProjects : list string)
    (w : World) (previous : string) :
  denied (env w) OpRead PROJECTS_FILE = false ->
  files w !! PROJECTS_FILE = Some previous ->
  exists w', selectProjectsWithCliffy Keep answer allProjects w
             = (Done (Ret (selection_lines previous)), w')
             /\ files w' = files w.
Proof.
  intros Hread Hfile. rewrite selectProjects_cases. cbv zeta.
  unfold readTextFile. rewrite Hread, Hfile. eexists. split; reflexivity.
Qed.

(** X15: the workflow selection comes back. When
    [selectWorkflowsWithCliffy] has returned a selection, kept from the file
    or ticked among the four options, then a later call in which the user
    keeps the previous selection returns the same list, and writes
    nothing. *)
Theorem workflow_selection_kept (choice : KeepChoice) (answer again : list string -> list string)
    (w w' : World) (selected : list string) :
  (forall options, incl (answer options) options) ->
  denied (env w) OpRead WORKFLOWS_FILE = false ->
  selectWorkflowsWithCliffy choice answer w = (Done (Ret selected), w') ->
  exists w'',
    selectWorkflowsWithCliffy Keep again w' = (Done (Ret selected), w'')
    /\ files w'' = files w'.
Proof.
  intros Hamong Hread Hrun.
  assert (Hticked : Forall storable (answer workflow_options)).
  { apply Forall_forall. intros name Hin. apply list_elem_of_In, Hamong in Hin.
    pose proof workflow_options_storable as Hall.
    rewrite Forall_forall in Hall. now apply Hall, list_elem_of_In. }
  rewrite selectWorkflows_cases in Hrun. cbv zeta in Hrun.
  unfold readTextFile in Hrun. rewrite Hread in Hrun.
  assert (Hask : forall w1,
    env w1 = env w ->
    (if (length (answer workflow_options) =? 0)%nat
     then (Exit 0, with_console (console w1 ++ ["No workflows selected. Exiting."]) w1)
     else if denied (env w1) OpWriteText WORKFLOWS_FILE
          then (Done (Throw (PermissionDenied WORKFLOWS_FILE)), w1)
          else (Done (Ret (answer workflow_options)),
                with_files (<[WORKFLOWS_FILE := Js.join nl (answer workflow_options)]>
                              (files w1)) w1))
    = (Done (Ret selected), w') ->
    exists w'',
      selectWorkflowsWithCliffy Keep again w' = (Done (Ret selected), w'')
      /\ files w'' = files w').
  { intros w1 Henv Hasked.
    destruct (length (answer workflow_options) =? 0)%nat; [discriminate |].
    destruct (denied (env w1) OpWriteText WORKFLOWS_FILE); [discriminate |].
    injection Hasked as <- <-.
    match goal with |- context [selectWorkflowsWithCliffy Keep again ?w2] =>
      destruct (selectWorkflows_keep again w2 (Js.join nl (answer workflow_options)))
        as (w'' & Hkeep & Hfiles)
    end.
    - cbn [env with_files]. now rewrite Henv.
    - cbn [files with_files]. apply lookup_insert_eq.
    - rewrite (selection_lines_join _ Hticked) in Hkeep. now exists w''. }
  destruct (files w !! WORKFLOWS_FILE) as [previous |] eqn:Hfile.
  - destruct choice.
    + injection Hrun as <- <-. apply selectWorkflows_keep; [exact Hread | exact Hfile].
    + (eapply Hask; [| exact Hrun]; reflexivity).
    + discriminate Hrun.
  - (eapply Hask; [| exact Hrun]; reflexivity).
Qed.

Lemma workflow_selection_kept_witness :
  let w' := snd (selectWorkflowsWithCliffy Reselect first_two world_no_tool) in
  fst (selectWorkflowsWithCliffy Reselect first_two world_no_tool)
  = Done (Ret ["type"; "build"])
  /\ exists w'',
       selectWorkflowsWithCliffy Keep (fun _ => []) w' = (Done (Ret ["type"; "build"]), w'')
       /\ files w'' = files w'.
Proof.
  cbv zeta.
  assert (Hamong : forall options, incl (first_two options) options).
  { intros options name Hin. unfold first_two in Hin.
    apply list_elem_of_In. apply list_elem_of_In in Hin.
    eapply subseteq_take. exact Hin. }
  assert (Hrun : selectWorkflowsWithCliffy Reselect first_two world_no_tool
                 = (Done (Ret ["type"; "build"]),
                    snd (selectWorkflowsWithCliffy Reselect first_two world_no_tool)))
    by (vm_compute; reflexivity).
  split; [now rewrite Hrun |].
  exact (workflow_selection_kept Reselect first_two (fun _ => []) world_no_tool _
           ["type"; "build"] Hamong eq_refl Hrun).
Defined.

(** X16: the project selection comes back when the names can be stored.
    If [selectProjectsWithCliffy] has returned a selection and every name
    the user ticked is on one line and not blank, a later call in which the
    user keeps the previous selection returns the same list, and writes
    nothing. *)
Theorem project_selection_kept (choice : KeepChoice) (answer again : list string -> list string)
    (allProjects others : list string) (w w' : World) (selected : list string) :
  Forall storable (answer allProjects) ->
  denied (env w) OpRead PROJECTS_FILE = false ->
  selectProjectsWithCliffy choice answer allProjects w = (Done (Ret selected), w') ->
  exists w'',
    selectProjectsWithCliffy Keep again others w' = (Done (Ret selected), w'')
    /\ files w'' = files w'.
Proof.
  intros Hticked Hread Hrun.
  rewrite selectProjects_cases in Hrun. cbv zeta in Hrun.
  unfold readTextFile in Hrun. rewrite Hread in Hrun.
  assert (Hask : forall w1,
    env w1 = env w ->
    (if (length (answer allProjects) =? 0)%nat
     then (Exit 0, with_console (console w1 ++ ["No projects selected. Exiting."]) w1)
     else if denied (env w1) OpWriteText PROJECTS_FILE
          then (Done (Throw (PermissionDenied PROJECTS_FILE)), w1)
          else (Done (Ret (answer allProjects)),
                with_files (<[PROJECTS_FILE := Js.join nl (answer allProjects)]>
                              (files w1)) w1))
    = (Done (Ret selected), w') ->
    exists w'',
      selectProjectsWithCliffy Keep again others w' = (Done (Ret selected), w'')
      /\ files w'' = files w').
  { intros w1 Henv Hasked.
    destruct (length (answer allProjects) =? 0)%nat; [discriminate |].
    destruct (denied (env w1) OpWriteText PROJECTS_FILE); [discriminate |].
    injection Hasked as <- <-.
    match goal with |- context [selectProjectsWithCliffy Keep again others ?w2] =>
      destruct (selectProjects_keep again others w2 (Js.join nl (answer allProjects)))
        as (w'' & Hkeep & Hfiles)
    end.
    - cbn [env with_files]. now rewrite Henv.
    - cbn [files with_files]. apply lookup_insert_eq.
    - rewrite (selection_lines_join _ Hticked) in Hkeep. now exists w''. }
  destruct (files w !! PROJECTS_FILE) as [previous |] eqn:Hfile.
  - destruct choice.
    + injection Hrun as <- <-. apply selectProjects_keep; [exact Hread | exact Hfile].
    + (eapply Hask; [| exact Hrun]; reflexivity).
    + discriminate Hrun.
  - (eapply Hask; [| exact Hrun]; reflexivity).
Qed.

Lemma project_selection_kept_witness :
  let w' := snd (selectProjectsWithCliffy Keep first_two ["web"; "api"; "docs"] world_no_tool) in
  fst (selectProjectsWithCliffy Keep first_two ["web"; "api"; "docs"] world_no_tool)
  = Done (Ret ["web"; "api"])
  /\ exists w'',
       selectProjectsWithCliffy Keep first_two [] w' = (Done (Ret ["web"; "api"]), w'')
       /\ files w'' = files w'.
Proof.
  cbv zeta.
  assert (Hticked : Forall storable (first_two ["web"; "api"; "docs"]))
    by (repeat constructor).
  assert (Hrun : selectProjectsWithCliffy Keep first_two ["web"; "api"; "docs"] world_no_tool
                 = (Done (Ret ["web"; "api"]),
                    snd (selectProjectsWithCliffy Keep first_two ["web"; "api"; "docs"]
                           world_no_tool)))
    by (vm_compute; reflexivity).
  split; [now rewrite Hrun |].
  exact (project_selection_kept Keep first_two first_two ["web"; "api"; "docs"] []
           world_no_tool _ ["web"; "api"] Hticked eq_refl Hrun).
Defined.

(** X17: the selection survives a run. When [runAllWorkflows] returns, a
    call of [selectWorkflowsWithCliffy] in which the user keeps the previous
    selection returns the array [runAllWorkflows] was given, as it was on
    entry, provided its names are on one line each and not blank. *)
Theorem selection_survives_run (workflows : nat) (projects : list string) (w : World)
    (again : list string -> list string) :
  let snapshot := default [] (arrays w !! workflows) in
  let run := runAllWorkflows workflows projects w in
  fst run = Ret tt ->
  Forall storable snapshot ->
  denied (env w) OpRead WORKFLOWS_FILE = false ->
  exists w'',
    selectWorkflowsWithCliffy Keep again (snd run) = (Done (Ret snapshot), w'')
    /\ files w'' = files (snd run).
Proof.
  cbv zeta. intros Hret Hnames Hread.
  destruct (runAllWorkflows_joined workflows projects w Hret) as (w1 & Hrun & Henv & _).
  rewrite Hrun in *.
  destruct (join_sessions_facts projects _ w1 Hret) as (Hfile & _).
  destruct (join_sessions_frame projects (default [] (arrays w !! workflows)) w1)
    as (Henv' & _).
  destruct (selectWorkflows_keep again _ _ (eq_trans (f_equal (fun e => denied e OpRead WORKFLOWS_FILE)
                                                  (eq_trans Henv' Henv)) Hread) Hfile)
    as (w'' & Hkeep & Hfiles).
  rewrite (selection_lines_join _ Hnames) in Hkeep. now exists w''.
Qed.

Lemma selection_survives_run_witness :
  exists w'',
    selectWorkflowsWithCliffy Keep (fun _ => [])
      (snd (runAllWorkflows O ["web"] world_three))
    = (Done (Ret ["lint"; "type"; "build"]), w'').
Proof.
  assert (Hret : fst (runAllWorkflows O ["web"] world_three) = Ret tt)
    by (vm_compute; reflexivity).
  destruct (selection_survives_run O ["web"] world_three (fun _ => []) Hret)
    as (w'' & Hkeep & _); [repeat constructor | reflexivity |].
  exists w''. exact Hkeep.
Defined.

(** X18: how the two selection functions end. They end the program only
    with code 0, and then have written no file; what they throw is the
    refusal of their own file, which is then unchanged; and when they return
    a selection they have either written nothing or written that selection,
    which is not empty, joined by newlines, to their own file. An empty
    selection is never stored. *)
Theorem selection_never_stores_nothing (choice : KeepChoice)
    (answer : list string -> list string) (allProjects : list string) (w : World) :
  let ends (file : string) (r : halt (list string) * World) : Prop :=
    match r with
    | (Exit code, w') => code = 0 /\ files w' = files w
    | (Done (Throw e), w') => e = PermissionDenied file /\ files w' = files w
    | (Done (Ret selected), w') =>
        files w' = files w
        \/ (selected <> [] /\ files w' = <[file := Js.join nl selected]> (files w))
    end in
  ends WORKFLOWS_FILE (selectWorkflowsWithCliffy choice answer w)
  /\ ends PROJECTS_FILE (selectProjectsWithCliffy choice answer allProjects w).
Proof.
  cbv zeta. rewrite selectWorkflows_cases, selectProjects_cases. cbv zeta.
  split.
  - destruct (readTextFile WORKFLOWS_FILE w) as [[previous | e] w0];
      [destruct choice |]; try (split; reflexivity); try (left; reflexivity);
      (destruct (answer workflow_options) as [|first rest];
         [split; reflexivity |]);
      cbn [length Nat.eqb env with_console];
      (destruct (denied (env w) OpWriteText WORKFLOWS_FILE);
         [split; reflexivity | right; split; [discriminate | reflexivity]]).
  - destruct (readTextFile PROJECTS_FILE w) as [[previous | e] w0];
      [destruct choice |]; try (split; reflexivity); try (left; reflexivity);
      (destruct (answer allProjects) as [|first rest];
         [split; reflexivity |]);
      cbn [length Nat.eqb env with_console];
      (destruct (denied (env w) OpWriteText PROJECTS_FILE);
         [split; reflexivity | right; split; [discriminate | reflexivity]]).
Qed.

(** X19: the preview of the previous project selection. It prints the
    count, then at most ten names, the first ones in the order of the file,
    each indented by two spaces; when there are more than ten, one more line
    says how many are left out, and the names shown and those left out are
    all the names; an empty line ends it. The names are the lines of the
    file that are not blank. Nothing else is printed unless the user
    reselects. *)
Theorem projects_preview (choice : KeepChoice) (answer : list string -> list string)
    (allProjects : list string) (w : World) (previous : string) :
  fst (readTextFile PROJECTS_FILE w) = Ret previous ->
  let names := selection_lines previous in
  let w' := snd (selectProjectsWithCliffy choice answer allProjects w) in
  exists (shown more after : list string),
    console w'
    = (console w
       ++ [("Previously selected projects (" ++ decimal (length names) ++ "):")%string]
       ++ map (fun p => ("  " ++ p)%string) shown ++ more ++ [""] ++ after)%list
    /\ shown = take 10 names
    /\ (length shown <= 10)%nat
    /\ ((length names <= 10)%nat -> shown = names /\ more = [])
    /\ ((10 < length names)%nat ->
        more = ["  ... and " ++ decimal (length names - 10) ++ " more"]
        /\ (length shown + (length names - 10) = length names)%nat)
    /\ (choice <> Reselect -> after = [])
    /\ Forall storable names.
Proof.
  intros Hread. cbv zeta. rewrite selectProjects_cases. cbv zeta.
  destruct (readTextFile PROJECTS_FILE w) as [[text | e] w0]; [| discriminate Hread].
  injection Hread as ->.
  set (names := selection_lines previous).
  exists (take 10 names),
         (if (10 <? length names)%nat
          then ["  ... and " ++ decimal (length names - 10) ++ " more"] else []),
         (match choice, answer allProjects with
          | Reselect, [] => ["No projects selected. Exiting."]
          | _, _ => []
          end).
  split.
  { destruct choice; [| destruct (answer allProjects) as [|first rest];
                          [| cbn [length Nat.eqb env with_console];
                             destruct (denied (env w) OpWriteText PROJECTS_FILE)] |];
      cbn [length Nat.eqb snd console with_console with_files];
      repeat first [rewrite <- app_assoc | progress cbn [app]]; reflexivity. }
  split; [reflexivity |].
  split; [rewrite length_take; lia |].
  split.
  { intros Hfew. split; [now apply take_ge |].
    destruct (Nat.ltb_spec 10 (length names)); [lia | reflexivity]. }
  split.
  { intros Hmany. split.
    - destruct (Nat.ltb_spec 10 (length names)); [reflexivity | lia].
    - rewrite length_take. lia. }
  split; [destruct choice; congruence |].
  apply selection_lines_storable.
Qed.

Lemma projects_preview_witness :
  console (snd (selectProjectsWithCliffy Keep first_two ["web"; "api"] world_eleven))
  = ["Previously selected projects (11):";
     "  p1"; "  p2"; "  p3"; "  p4"; "  p5"; "  p6"; "  p7"; "  p8"; "  p9"; "  p10";
     "  ... and 1 more"; ""].
Proof.
  assert (Hread : fst (readTextFile PROJECTS_FILE world_eleven)
                  = Ret (Js.join nl ["p1"; "p2"; "p3"; "p4"; "p5"; "p6"; "p7"; "p8"; "p9";
                                     "p10"; "p11"])) by (vm_compute; reflexivity).
  destruct (projects_preview Keep first_two ["web"; "api"] world_eleven _ Hread)
    as (shown & more & after & Hcon & Hshown & _ & _ & Hmany & Hafter & _).
  rewrite Hcon, Hshown, Hafter by discriminate.
  destruct Hmany as [-> _]; [vm_compute; lia |].
  vm_compute. reflexivity.
Defined.

(** ** Project discovery *)

Lemma trim_keeps (P : ascii -> bool) (s : string) :
  forallb P (Js.chars s) = true -> forallb P (Js.chars (Js.trim s)) = true.
Proof. intros H. unfold Js.trim. now apply trimEnd_keeps, trimStart_keeps. Qed.

Lemma nx_name_storable (raw : string) :
  forallb (fun c => negb (Ascii.eqb c Js.LF)) (Js.chars raw) = true ->
  (0 <? String.length (Js.trim raw))%nat = true ->
  storable (Js.trim raw).
Proof.
  intros Hline Hlen. split.
  - unfold nonblank. rewrite trim_idempotent.
    destruct (Js.trim raw); [discriminate Hlen | reflexivity].
  - now apply trim_keeps.
Qed.

(** X20: the projects NX lists. [getNxProjects] is fulfilled exactly when
    the command runs and succeeds; the names are then the trimmed non-empty
    lines of its output, in order, and each of them can be stored: a
    selection of such names written to the selection file is read back as
    it was. When the command fails the error is the fixed message. *)
Theorem nx_projects_storable (Command_output : string -> list string -> outcome CommandOutput) :
  match getNxProjects Command_output with
  | Fulfilled projects =>
      (exists output,
          Command_output "npx" ["nx"; "show"; "projects"] = Ret output
          /\ output_success output = true
          /\ projects = List.filter (fun l => negb (String.eqb l ""))
                          (map Js.trim (String_split Js.LF (output_stdout output))))
      /\ Forall (fun p => p <> "" /\ Js.trim p = p /\ storable p) projects
      /\ selection_lines (Js.join nl projects) = projects
  | Rejected r =>
      (exists e, Command_output "npx" ["nx"; "show"; "projects"] = Throw e /\ r = Runtime e)
      \/ (exists output,
             Command_output "npx" ["nx"; "show"; "projects"] = Ret output
             /\ output_success output = false
             /\ r = Error "Failed to get NX projects")
  end.
Proof.
  unfold getNxProjects.
  destruct (Command_output "npx" ["nx"; "show"; "projects"]) as [output | e];
    [| left; now exists e].
  destruct (output_success output) eqn:Hok; cbn [negb];
    [| right; now exists output].
  set (lines := String_split Js.LF (output_stdout output)).
  assert (Hnames : Forall (fun p => p <> "" /\ Js.trim p = p /\ storable p)
                     (List.filter (fun l => (0 <? String.length l)%nat) (map Js.trim lines))).
  { apply Forall_forall. intros p Hin. apply list_elem_of_In, filter_In in Hin as [Hin Hlen].
    apply in_map_iff in Hin as (raw & <- & Hraw).
    split; [intros Hempty; rewrite Hempty in Hlen; discriminate Hlen |].
    split; [apply trim_idempotent |].
    apply nx_name_storable; [| exact Hlen].
    eapply split_pieces_free. exact Hraw. }
  split; [| split; [exact Hnames |]].
  - exists output. split; [reflexivity |]. split; [exact Hok |].
    apply filter_ext_In. intros l _. now destruct l.
  - apply selection_lines_join. eapply Forall_impl; [exact Hnames |].
    intros p (_ & _ & Hp). exact Hp.
Qed.

Lemma names_of_lookup (workspaces : list JsonValue) (names : list (option JsonValue)) :
  names_of workspaces = Ret names ->
  names = map (fun ws => get_field ws "name") workspaces
  /\ Forall (fun ws => ws <> JNull) workspaces.
Proof.
  revert names. induction workspaces as [|ws rest IH]; intros names H.
  - injection H as <-. split; [reflexivity | constructor].
  - cbn [names_of] in H.
    destruct (names_of rest) as [others | e].
    + destruct (IH others eq_refl) as [-> Hrest].
      destruct ws; try discriminate H; injection H as <-;
        (split; [reflexivity | constructor; [discriminate | exact Hrest]]).
    + destruct ws; discriminate H.
Qed.

Lemma is_visible_string (s : string) :
  is_visible (Some (JString s))
  = Ret (negb (String.eqb s "") && negb (Js.startsWith "." s)).
Proof. destruct s; reflexivity. Qed.

Lemma visible_names_kept (names : list (option JsonValue)) (kept : list string) :
  visible_names names = Ret kept ->
  Forall (fun n => n <> "" /\ Js.startsWith "." n = false) kept
  /\ sublist (map (fun n => Some (JString n)) kept) names
  /\ (forall n, In (Some (JString n)) names -> n <> "" -> Js.startsWith "." n = false ->
        In n kept).
Proof.
  revert kept. induction names as [|name rest IH]; intros kept H.
  - injection H as <-. repeat split; [constructor | constructor | intros n []].
  - cbn [visible_names] in H.
    destruct (is_visible name) as [keep | e] eqn:Hvis; [| discriminate H].
    destruct (visible_names rest) as [others | e]; [| discriminate H].
    destruct (IH others eq_refl) as (Hall & Hsub & Hin).
    assert (Hskip :
      kept = others ->
      (forall n, name = Some (JString n) -> n <> "" -> Js.startsWith "." n = false -> False) ->
      Forall (fun n => n <> "" /\ Js.startsWith "." n = false) kept
      /\ sublist (map (fun n => Some (JString n)) kept) (name :: rest)
      /\ (forall n, In (Some (JString n)) (name :: rest) -> n <> "" ->
            Js.startsWith "." n = false -> In n kept)).
    { intros -> Hnot. split; [exact Hall |]. split; [now constructor |].
      intros n [Hn | Hn] Hne Hdot; [destruct (Hnot n Hn Hne Hdot) | now apply Hin]. }
    destruct name as [v |]; [| injection H as <-; apply Hskip; [reflexivity | discriminate]].
    destruct v as [| b | z | s | items | fields];
      try (injection H as <-; apply Hskip; [reflexivity | discriminate]).
    rewrite is_visible_string in Hvis.
    assert (Hkeep : keep = negb (String.eqb s "") && negb (Js.startsWith "." s))
      by congruence.
    clear Hvis. subst keep.
    destruct (String.eqb s "") eqn:Hs; cbn [negb andb] in H.
    { apply String.eqb_eq in Hs. subst s. injection H as <-.
      apply Hskip; [reflexivity |]. intros n Hn. injection Hn as <-. congruence. }
    apply String.eqb_neq in Hs.
    destruct (Js.startsWith "." s) eqn:Hdot; cbn [negb andb] in H; injection H as <-.
    + apply Hskip; [reflexivity |]. intros n Hn. injection Hn as <-. congruence.
    + split; [constructor; [split; assumption | exact Hall] |].
      split; [cbn [map]; now constructor |].
      intros n [Hn | Hn] Hne' Hdot'; [injection Hn as <-; now left | right; now apply Hin].
Qed.

Lemma yarn_name_parsed (JSON_parse : string -> option JsonValue) (line : string) :
  is_workspace (yarn_name JSON_parse line) = true ->
  yarn_name JSON_parse line <> Some JNull
  /\ yarn_name JSON_parse line <> Some (JString ".")
  /\ exists json, JSON_parse line = Some json /\ json <> JNull
       /\ yarn_name JSON_parse line = js_or (get_field json "name") (get_field json "location").
Proof.
  intros Hkeep.
  split; [intros Heq; rewrite Heq in Hkeep; discriminate Hkeep |].
  split; [intros Heq; rewrite Heq in Hkeep; discriminate Hkeep |].
  unfold yarn_name in *.
  destruct (JSON_parse line) as [json |] eqn:Hparse; [| discriminate Hkeep].
  exists json. split; [reflexivity |].
  destruct json; try (split; [discriminate | reflexivity]). discriminate Hkeep.
Qed.

Lemma is_workspace_spec (entry : option JsonValue) :
  entry <> Some JNull -> entry <> Some (JString ".") -> is_workspace entry = true.
Proof.
  intros Hnull Hroot. destruct entry as [[| | | s | |] |]; try reflexivity; [congruence |].
  simpl. destruct (String.eqb_spec s "."); [congruence | reflexivity].
Qed.

(** X21: the workspaces pnpm and yarn list. Every name [getPnpmWorkspaces]
    returns is a non-empty string that does not start with a dot; the names
    come in the order of the output, and every package with such a name is
    among them. [getYarnWorkspaces] reads the lines of what [yarn] printed
    that are not blank: every entry it lists comes from one of these lines
    that parses to a value other than [null], and is that record's name
    when it is truthy, its location otherwise; no entry is [null] or the
    root's place [.]; every such line whose entry is neither is listed; and
    the entries come in the order of the lines. When [yarn] reports a
    failure, the listing is rejected with the fixed message. *)
Theorem workspaces_listed (Command_output : string -> list string -> outcome CommandOutput)
    (JSON_parse : string -> option JsonValue) :
  (forall names,
      getPnpmWorkspaces Command_output JSON_parse = Fulfilled names ->
      Forall (fun n => n <> "" /\ Js.startsWith "." n = false) names
      /\ exists output workspaces,
           Command_output "pnpm" ["list"; "-r"; "--depth"; "-1"; "--json"] = Ret output
           /\ JSON_parse (output_stdout output) = Some (JArray workspaces)
           /\ sublist (map (fun n => Some (JString n)) names)
                      (map (fun ws => get_field ws "name") workspaces)
           /\ (forall ws n, In ws workspaces -> get_field ws "name" = Some (JString n) ->
                 n <> "" -> Js.startsWith "." n = false -> In n names))
  /\ (forall entries,
        getYarnWorkspaces Command_output JSON_parse = Fulfilled entries ->
        exists output,
          Command_output "yarn" ["workspaces"; "list"; "--json"] = Ret output
          /\ output_success output = true
          /\ let lines :=
               List.filter (fun line => negb (String.eqb (Js.trim line) ""))
                 (String_split "010" (output_stdout output)) in
             Forall (fun entry =>
                       entry <> Some JNull /\ entry <> Some (JString ".")
                       /\ exists line json,
                            In line lines
                            /\ JSON_parse line = Some json /\ json <> JNull
                            /\ entry = js_or (get_field json "name")
                                             (get_field json "location"))
                    entries
             /\ (forall line json,
                   In line lines -> JSON_parse line = Some json -> json <> JNull ->
                   let entry := js_or (get_field json "name") (get_field json "location") in
                   entry <> Some JNull -> entry <> Some (JString ".") ->
                   In entry entries)
             /\ sublist entries (map (yarn_name JSON_parse) lines))
  /\ (forall output,
        Command_output "yarn" ["workspaces"; "list"; "--json"] = Ret output ->
        output_success output = false ->
        getYarnWorkspaces Command_output JSON_parse
        = Rejected (Error "Failed to get yarn workspaces")).
Proof.
  split; [| split].
  - intros names H. unfold getPnpmWorkspaces in H.
    destruct (Command_output "pnpm" _) as [output | e]; [| discriminate H].
    destruct (output_success output); [| discriminate H]. cbn [negb] in H.
    destruct (JSON_parse (output_stdout output)) as [[| | | | workspaces |] |] eqn:Hparse;
      try discriminate H.
    destruct (names_of workspaces) as [all | e] eqn:Hall; [| discriminate H].
    destruct (visible_names all) as [kept | e] eqn:Hkept; [| discriminate H].
    injection H as <-.
    destruct (names_of_lookup _ _ Hall) as [-> _].
    destruct (visible_names_kept _ _ Hkept) as (Hgood & Hsub & Hin).
    split; [exact Hgood |].
    exists output, workspaces. split; [reflexivity |]. split; [exact Hparse |].
    split; [exact Hsub |].
    intros ws n Hws Hname. apply Hin. rewrite <- Hname.
    apply in_map_iff. now exists ws.
  - intros entries H. unfold getYarnWorkspaces in H.
    destruct (Command_output "yarn" _) as [output | e]; [| discriminate H].
    destruct (output_success output) eqn:Hok; [| discriminate H]. cbn [negb] in H.
    injection H as <-.
    exists output. split; [reflexivity |]. split; [exact Hok |]. cbv zeta.
    change (List.filter (fun line => negb (String.eqb (Js.trim line) ""))
              (String_split "010" (output_stdout output)))
      with (List.filter nonblank (String_split Js.LF (output_stdout output))).
    set (lines := List.filter nonblank _).
    split; [| split; [| apply filter_sublist]].
    + apply Forall_forall. intros entry Hin.
      apply list_elem_of_In, filter_In in Hin as [Hin Hkeep].
      apply in_map_iff in Hin as (line & <- & Hline).
      destruct (yarn_name_parsed _ _ Hkeep) as (Hnull & Hroot & json & Hparse & Hjson & Hname).
      split; [exact Hnull |]. split; [exact Hroot |]. now exists line, json.
    + intros line json Hline Hparse Hjson Hnull Hroot.
      apply filter_In. split.
      * apply in_map_iff. exists line. split; [| exact Hline].
        unfold yarn_name. rewrite Hparse. now destruct json.
      * now apply is_workspace_spec.
  - intros output Hout Hfails. unfold getYarnWorkspaces.
    now rewrite Hout, Hfails.
Qed.

Lemma workspaces_listed_witness :
  let listed := [Some (JString "root"); Some (JString "web"); Some (JString "tools/x")] in
  getPnpmWorkspaces yarn_fails_pnpm_lists Sample.JSON_parse = Fulfilled ["web"]
  /\ "web" <> "" /\ Js.startsWith "." "web" = false
  /\ getYarnWorkspaces yarn_lists Sample.JSON_parse = Fulfilled listed
  /\ Forall (fun entry => entry <> Some JNull /\ entry <> Some (JString ".")) listed
  /\ getYarnWorkspaces yarn_fails_pnpm_lists Sample.JSON_parse
     = Rejected (Error "Failed to get yarn workspaces").
Proof.
  cbv zeta.
  assert (Hrun : getPnpmWorkspaces yarn_fails_pnpm_lists Sample.JSON_parse = Fulfilled ["web"])
    by (vm_compute; reflexivity).
  assert (Hyarn : getYarnWorkspaces yarn_lists Sample.JSON_parse
                  = Fulfilled [Some (JString "root"); Some (JString "web");
                               Some (JString "tools/x")])
    by (vm_compute; reflexivity).
  split; [exact Hrun |].
  destruct (workspaces_listed yarn_fails_pnpm_lists Sample.JSON_parse) as (Hpnpm & _ & Hfails).
  destruct (Hpnpm _ Hrun) as [Hgood _].
  apply Forall_inv in Hgood.
  split; [apply Hgood |]. split; [apply Hgood |].
  split; [exact Hyarn |].
  split.
  - destruct (workspaces_listed yarn_lists Sample.JSON_parse) as (_ & Hlists & _).
    destruct (Hlists _ Hyarn) as (output & _ & _ & Hall & _).
    eapply Forall_impl; [exact Hall |].
    intros entry (Hnull & Hroot & _). now split.
  - apply (Hfails {| output_success := false; output_stdout := "" |}); reflexivity.
Defined.

(** X22: how [getAllProjects] falls back. The first package manager whose
    marker is there and whose listing is fulfilled gives the result: yarn
    before pnpm, pnpm before npm, npm before NX. A marker whose listing is
    rejected does not end the search: the next one is tried. The only error
    [getAllProjects] is rejected with is the fixed message, and it is
    rejected exactly when none of the three listed and NX is rejected. *)
Theorem getAllProjects_falls_back
    (Command_output : string -> list string -> outcome CommandOutput)
    (JSON_parse : string -> option JsonValue)
    (getNpmWorkspaces : attempt (list (option JsonValue))) (w : World) :
  let found := getAllProjects Command_output JSON_parse getNpmWorkspaces w in
  let yarn :=
    match fst (stat "yarn.lock" w), getYarnWorkspaces Command_output JSON_parse with
    | Ret _, Fulfilled projects => Some projects
    | _, _ => None
    end in
  let pnpm :=
    match fst (stat "pnpm-workspace.yaml" w), getPnpmWorkspaces Command_output JSON_parse with
    | Ret _, Fulfilled names => Some (map (fun p => Some (JString p)) names)
    | _, _ => None
    end in
  let npm := npm_attempt JSON_parse getNpmWorkspaces w in
  let nx :=
    match getNxProjects Command_output with
    | Fulfilled names => Some (map (fun p => Some (JString p)) names)
    | Rejected _ => None
    end in
  (forall projects, yarn = Some projects -> found = Fulfilled projects)
  /\ (forall projects, yarn = None -> pnpm = Some projects -> found = Fulfilled projects)
  /\ (forall projects, yarn = None -> pnpm = None -> npm = Some projects ->
        found = Fulfilled projects)
  /\ (forall projects, yarn = None -> pnpm = None -> npm = None -> nx = Some projects ->
        found = Fulfilled projects)
  /\ (forall r,
        found = Rejected r <->
        (yarn = None /\ pnpm = None /\ npm = None /\ nx = None
         /\ r = Error "Could not detect workspace type. Ensure you have npm/yarn/pnpm workspaces or NX configured.")).
Proof.
  cbv zeta. unfold getAllProjects.
  destruct (fst (stat "yarn.lock" w)) as [[] | e1];
    destruct (getYarnWorkspaces Command_output JSON_parse) as [yarn | r1];
    destruct (fst (stat "pnpm-workspace.yaml" w)) as [[] | e2];
    destruct (getPnpmWorkspaces Command_output JSON_parse) as [pnpm | r2];
    destruct (npm_attempt JSON_parse getNpmWorkspaces w) as [npm |];
    destruct (getNxProjects Command_output) as [nx | r4];
    repeat split; try discriminate; try congruence;
    try (intros (H1 & H2 & H3 & H4 & H5); congruence);
    try (intros H; injection H as <-; reflexivity).
Qed.

Lemma getAllProjects_falls_back_witness :
  getAllProjects yarn_fails_pnpm_lists Sample.JSON_parse (Fulfilled []) world_two_locks
  = Fulfilled [Some (JString "web")]
  /\ getAllProjects (only_nx ("web" ++ nl ++ " api " ++ nl)) Sample.JSON_parse
       (Fulfilled []) world_two_locks
     = Fulfilled [Some (JString "web"); Some (JString "api")].
Proof.
  split.
  - destruct (getAllProjects_falls_back yarn_fails_pnpm_lists Sample.JSON_parse
                (Fulfilled []) world_two_locks) as (_ & Hpnpm & _).
    apply Hpnpm; vm_compute; reflexivity.
  - destruct (getAllProjects_falls_back (only_nx ("web" ++ nl ++ " api " ++ nl))
                Sample.JSON_parse (Fulfilled []) world_two_locks) as (_ & _ & _ & Hnx & _).
    apply Hnx; vm_compute; reflexivity.
Defined.

(** ** The status of a project: what can go wrong *)

(** X23: [getProjectStatus] throws only the [TypeError] of a progress
    record without a usable [completed_projects], and only when the progress
    file was read and parsed to a truthy value. A project whose name makes
    the regular expression invalid never throws: the log fallback answers
    PENDING for it, whatever the log says. *)
Theorem getProjectStatus_failures (JSON_parse : string -> option JsonValue)
    (RegExp_test : string -> string -> option bool) (project workflow : string) (w : World) :
  (forall e,
      fst (getProjectStatus JSON_parse RegExp_test project workflow w) = Throw e ->
      e = TypeError "includes is not a function"
      /\ exists content progress,
           readTextFile (progressFile workflow) w = (Ret content, w)
           /\ JSON_parse content = Some progress
           /\ truthy progress = true
           /\ call_includes (get_field progress "completed_projects") project = Throw e)
  /\ (forall log,
        fst (readTextFile (logFile workflow) w) = Ret log ->
        RegExp_test (project ++ ".*(?:done|completed|pass)") log = None ->
        statusFromLog RegExp_test project workflow w = (Ret PENDING, w)).
Proof.
  split.
  - intros e Hthrow.
    destruct (statusFromLog_total RegExp_test project workflow w) as [status Hlog].
    unfold getProjectStatus, bind in Hthrow.
    unfold getWorkflowProgress, try_catch, bind in Hthrow.
    pose proof (readTextFile_pure (progressFile workflow) w) as Hpure.
    destruct (readTextFile (progressFile workflow) w) as [[content | e0] w'] eqn:Hread;
      simpl in Hpure; subst w'.
    + destruct (JSON_parse content) as [progress |] eqn:Hparse.
      * unfold ret at 1 in Hthrow.
        destruct (truthy progress) eqn:Htruthy; [| rewrite Hlog in Hthrow; discriminate].
        destruct (call_includes (get_field progress "completed_projects") project)
          as [[|] | e'] eqn:Hincl.
        -- discriminate Hthrow.
        -- destruct (strict_equal _ project); [discriminate |].
           rewrite Hlog in Hthrow. discriminate.
        -- injection Hthrow as <-.
           assert (He : e' = TypeError "includes is not a function").
           { unfold call_includes in Hincl.
             destruct (get_field progress "completed_projects") as [[] |];
               congruence. }
           split; [exact He |]. exists content, progress. repeat split; assumption.
      * unfold throw, ret in Hthrow. cbn [truthy] in Hthrow.
        rewrite Hlog in Hthrow. discriminate.
    + unfold ret in Hthrow. cbn [truthy] in Hthrow. rewrite Hlog in Hthrow. discriminate.
  - intros log Hread Hre. unfold statusFromLog, try_catch, bind.
    pose proof (readTextFile_pure (logFile workflow) w) as Hpure.
    destruct (readTextFile (logFile workflow) w) as [[log' | e] w'];
      simpl in Hpure; subst w'; [| discriminate Hread].
    injection Hread as ->.
    destruct (Js.includes _ _); [| reflexivity].
    rewrite Hre. reflexivity.
Qed.

Lemma getProjectStatus_failures_witness :
  Sample.RegExp_test ("c++" ++ ".*(?:done|completed|pass)") "c++ done" = None
  /\ statusFromLog Sample.RegExp_test "c++" "type" world_plus
     = (Ret PENDING, world_plus).
Proof.
  assert (Hre : Sample.RegExp_test ("c++" ++ ".*(?:done|completed|pass)") "c++ done" = None)
    by (vm_compute; reflexivity).
  split; [exact Hre |].
  destruct (getProjectStatus_failures Sample.JSON_parse Sample.RegExp_test "c++" "type"
              world_plus) as [_ Hlog].
  apply (Hlog "c++ done"); [vm_compute; reflexivity | exact Hre].
Defined.

(** ** The prompt and the progress record *)

Lemma startsWith_app (p rest : string) : Js.startsWith p (p ++ rest) = true.
Proof.
  induction p as [|c p IH]; [reflexivity |].
  rewrite append_cons. cbn [Js.startsWith]. now rewrite Ascii.eqb_refl.
Qed.

Lemma includes_here (sub rest : string) : Js.includes (sub ++ rest) sub = true.
Proof.
  destruct (sub ++ rest) eqn:Hs; cbn [Js.includes]; rewrite <- Hs, startsWith_app;
    reflexivity.
Qed.

Lemma includes_behind (a b sub : string) :
  Js.includes b sub = true -> Js.includes (a ++ b) sub = true.
Proof.
  intros H. induction a as [|c a IH]; [now rewrite append_empty_l |].
  rewrite append_cons. cbn [Js.includes]. rewrite IH. apply orb_true_r.
Qed.

Lemma startsWith_before (p a b : string) :
  Js.startsWith p a = true -> Js.startsWith p (a ++ b) = true.
Proof.
  revert a. induction p as [|c p IH]; intros a H; [reflexivity |].
  destruct a as [|d a]; [discriminate H |].
  rewrite append_cons. cbn [Js.startsWith] in *.
  destruct (Ascii.eqb c d); [now apply IH | discriminate H].
Qed.

Lemma includes_before (a b sub : string) :
  Js.includes a sub = true -> Js.includes (a ++ b) sub = true.
Proof.
  induction a as [|c a IH]; intros H.
  - cbn [Js.includes] in H. rewrite orb_false_r in H.
    destruct sub; [| discriminate H]. rewrite append_empty_l. now destruct b.
  - rewrite append_cons. cbn [Js.includes] in *.
    apply orb_true_iff in H as [H | H].
    + rewrite <- append_cons, (startsWith_before _ _ _ H). reflexivity.
    + rewrite (IH H). apply orb_true_r.
Qed.

Lemma todo_lines_name (workflow project : string) (projects : list string) (idx : nat) :
  In project projects ->
  Js.includes (concat_str (todo_lines workflow idx projects)) (" in " ++ project ++ nl) = true.
Proof.
  revert idx. induction projects as [|p ps IH]; intros idx Hin; [destruct Hin |].
  cbn [todo_lines concat_str]. destruct Hin as [-> | Hin].
  - apply includes_before. unfold todo_line.
    do 4 apply includes_behind.
    rewrite <- (append_empty_r (" in " ++ project ++ nl)) at 1. apply includes_here.
  - apply includes_behind. now apply IH.
Qed.

Lemma includes_line (a b c rest : string) :
  Js.includes ((a ++ b) ++ c ++ rest) (a ++ b ++ c) = true.
Proof.
  replace ((a ++ b) ++ c ++ rest) with ((a ++ b ++ c) ++ rest)
    by now rewrite !append_assoc.
  apply includes_here.
Qed.

(** X24: the prompt asks for the record the dashboard reads. Whatever the
    workflow and the projects, the prompt of [buildWorkflowTodo] tells the
    tool to create the very file [getWorkflowProgress] reads for that
    workflow, shows the two keys [getProjectStatus] looks up in it, and
    names every selected project in a task line. *)
Theorem prompt_names_progress_file (workflow : string) (projects : list string) :
  let prompt := buildWorkflowTodo workflow projects in
  Js.includes prompt ("- Create: " ++ progressFile workflow ++ nl) = true
  /\ Js.includes prompt (dq ++ "completed_projects" ++ dq ++ ": [") = true
  /\ Js.includes prompt (dq ++ "current_project" ++ dq ++ ": " ++ dq) = true
  /\ (forall project, In project projects ->
        Js.includes prompt (" in " ++ project ++ nl) = true).
Proof.
  cbv zeta. rewrite buildWorkflowTodo_shape.
  split; [| split; [| split]].
  - apply includes_before. unfold todo_header. cbn [Js.join].
    do 24 apply includes_behind.
    apply (includes_line "- Create: " (progressFile workflow) nl).
  - apply includes_before. unfold todo_header. cbn [Js.join].
    do 26 apply includes_behind. apply includes_before. vm_compute. reflexivity.
  - apply includes_before. unfold todo_header. cbn [Js.join].
    do 26 apply includes_behind. apply includes_before. vm_compute. reflexivity.
  - intros project Hin. apply includes_behind, includes_before.
    now apply todo_lines_name.
Qed.

(** ** Rows while and after the sessions run *)

(** X25: a row that is mounted while the session of its workflow is under
    way (the process spawned, the log open) shows RUNNING with the marker
    [RESUMED], whether that session resumed a conversation or started a
    fresh one: the marker is drawn from the status file alone. *)
Theorem running_row_marked_resumed (workflow : string) (projects : list string) (w w1 : World)
    (p : Proc) (rid : nat) :
  prepare workflow projects w = (Ret (p, rid), w1) ->
  denied (env w) OpRead (statusFile workflow) = false ->
  exists isResumed status,
    wasWorkflowAbandonedSync workflow w1 = (Ret isResumed, w1)
    /\ rowStatus workflow w1 = (Ret status, w1)
    /\ status = "RUNNING"
    /\ statusIcon status = IconRunning
    /\ resumeMarker isResumed status = " [RESUMED]".
Proof.
  intros Hprep Hread.
  pose proof (log_not_status workflow) as Hls.
  pose proof (status_not_prompt workflow) as Hsp.
  destruct (session_after_prepare _ _ _ _ _ _ Hprep) as (_ & _ & _ & _ & _ & Hw1 & _).
  assert (Hrun : reads_running workflow w1 = true).
  { subst w1. unfold started.
    destruct (reads_running workflow w) eqn:Hwas.
    - rewrite <- Hwas. apply reads_running_frame; frame_files; reflexivity.
    - apply reads_running_marked; frame_files;
        [exact Hread | now rewrite lookup_insert_eq]. }
  exists true, "RUNNING".
  split; [now rewrite wasWorkflowAbandonedSync_reads, Hrun |].
  split; [now apply rowStatus_running |].
  repeat split.
Qed.

Lemma running_row_marked_resumed_witness :
  reads_running "type" world_first_run = false
  /\ exists w1 isResumed status,
       fst (prepare "type" ["web"] world_first_run) = Ret (sample_run 0 7, O)
       /\ wasWorkflowAbandonedSync "type" w1 = (Ret isResumed, w1)
       /\ rowStatus "type" w1 = (Ret status, w1)
       /\ resumeMarker isResumed status = " [RESUMED]".
Proof.
  split; [vm_compute; reflexivity |].
  assert (Hprep : prepare "type" ["web"] world_first_run
                  = (Ret (sample_run 0 7, O), snd (prepare "type" ["web"] world_first_run)))
    by (vm_compute; reflexivity).
  destruct (running_row_marked_resumed "type" ["web"] world_first_run _ _ _ Hprep eq_refl)
    as (isResumed & status & Hab & Hrow & _ & _ & Hmark).
  exists (snd (prepare "type" ["web"] world_first_run)), isResumed, status.
  split; [now rewrite Hprep |]. split; [exact Hab |]. split; [exact Hrow | exact Hmark].
Defined.

(** X26: when [runAllWorkflows] has returned, the row of every listed
    workflow whose status file can be read shows COMPLETED or FAILED; none
    shows RUNNING, none carries the resume marker, and none counts as
    abandoned in the next run. *)
Theorem rows_after_run (workflows : nat) (projects : list string) (w : World) :
  fst (runAllWorkflows workflows projects w) = Ret tt ->
  let w' := snd (runAllWorkflows workflows projects w) in
  let selected := orderedWorkflows (default [] (arrays w !! workflows)) in
  Forall (fun workflow =>
            denied (env w) OpRead (statusFile workflow) = false ->
            exists status,
              rowStatus workflow w' = (Ret status, w')
              /\ (status = "COMPLETED" \/ status = "FAILED")
              /\ statusIcon status <> IconRunning
              /\ (forall isResumed, resumeMarker isResumed status = "")
              /\ wasWorkflowAbandoned workflow w' = (Ret false, w'))
         selected
  /\ abandoned_in w' selected = [].
Proof.
  intros Hret. cbv zeta.
  destruct (runAllWorkflows_joined workflows projects w Hret) as (w1 & Hrun & Henv & _).
  rewrite Hrun in *.
  destruct (join_sessions_facts projects _ w1 Hret) as (_ & _ & times & _ & _ & _ & Hdone).
  destruct (join_sessions_frame projects (default [] (arrays w !! workflows)) w1)
    as (Henv' & _).
  set (w' := snd (join_sessions projects (default [] (arrays w !! workflows)) w1)) in *.
  assert (Hsettled : Forall (fun workflow => reads_running workflow w' = false)
                       (orderedWorkflows (default [] (arrays w !! workflows)))).
  { eapply Forall_impl; [exact Hdone |]. intros workflow [H | H].
    - now apply (reads_running_settled workflow true).
    - now apply (reads_running_settled workflow false). }
  split.
  - apply Forall_forall. intros workflow Hin Hread.
    rewrite Forall_forall in Hdone, Hsettled.
    specialize (Hdone workflow Hin). specialize (Hsettled workflow Hin).
    assert (Hread' : denied (env w') OpRead (statusFile workflow) = false)
      by now rewrite Henv', Henv.
    exists (Js.trim (default "" (files w' !! statusFile workflow))).
    split.
    { rewrite rowStatus_reads. unfold readTextFile. rewrite Hread'.
      destruct Hdone as [-> | ->]; reflexivity. }
    split; [destruct Hdone as [-> | ->]; [left | right]; reflexivity |].
    split; [destruct Hdone as [-> | ->]; discriminate |].
    split; [intros isResumed; destruct Hdone as [-> | ->], isResumed; reflexivity |].
    now rewrite wasWorkflowAbandoned_reads, Hsettled.
  - unfold abandoned_in. clear Hdone.
    induction Hsettled as [|workflow rest Hwf _ IH]; [reflexivity |].
    cbn [List.filter]. rewrite Hwf. exact IH.
Qed.

Lemma rows_after_run_witness :
  let w' := snd (runAllWorkflows O ["web"] world_three) in
  fst (runAllWorkflows O ["web"] world_three) = Ret tt
  /\ rowStatus "type" w' = (Ret "FAILED", w')
  /\ rowStatus "build" w' = (Ret "COMPLETED", w')
  /\ abandoned_in w' ["type"; "build"; "lint"] = [].
Proof.
  cbv zeta.
  assert (Hret : fst (runAllWorkflows O ["web"] world_three) = Ret tt)
    by (vm_compute; reflexivity).
  destruct (rows_after_run O ["web"] world_three Hret) as [_ Hnone].
  split; [exact Hret |].
  split; [vm_compute; reflexivity |].
  split; [vm_compute; reflexivity | exact Hnone].
Defined.
